(** * Ecosystem-Mapper: the taxonomy synthesis pipeline

    A shallow embedding of [modules/taxonomy_analyzer.py]
    (class [TaxonomyAnalyzer]): the summary builder
    [_prepare_data_summary], the parser [create_taxonomy] and the
    enrichment merger [enrich_taxonomy]; of the two collectors that feed
    it, [modules/tavily_search.py] (module [TavilySearcher]) and
    [modules/github_collector.py] (module [GitHubCollector]); and of the
    orchestrator of [agent.py] (module [EcosystemMapper]).

    Conventions of the embedding.
    - A Python [str] is a list of code points ([pystr]); slicing and [len]
      count code points, as in Python.
    - A Python value is a [pyval]; a [dict] is an association list in
      insertion order with pairwise distinct keys ([pydict]).
    - A Python computation that may raise is a [result]: [Ret v] when it
      returns [v], [Raise e] when exception [e] leaves it.
    - Standard output is a UTF-8 stream with the strict error handler,
      the default of the interpreter: [print] raises UnicodeEncodeError
      on a text that holds a surrogate code point. This is kept where a
      [print] shows data of the backend: the raw response printed by the
      first handler of [create_taxonomy] ([stdout_write]), and the lines
      of [_print_summary] ([EcosystemMapper.on_stdout]). The other
      prints show constants, counts, the keyword, which the caller has
      shown before, and messages of exceptions, which hold no surrogate;
      of these what is kept is the evaluation of their arguments, which
      can raise.
    - The files written by the orchestrator are kept as a log, in the
      order of the writes ([EcosystemMapper.logged]).
    - The services behind the collectors (the search client, the
      repository search and its paginated list, the clock, the file
      system) are variables of the sections that use them.
    - What the standard library and the completion backend do is taken as
      given, as variables of the section [Analyzer]: [str.upper], [repr] of
      floats and containers, [json.loads], [json.dumps] and the chat
      completion call. The statements hold for every such library and
      backend.
    - The module [Json] is a decoder for [json.loads] that computes; it
      serves where a statement names a concrete text (such as the literal
      of the second end-to-end scenario) and for the round trip of a
      taxonomy through its texts. It takes the depth to which the
      interpreter lets it nest as an argument. The module [Sample] holds
      the concrete inputs the statements are instantiated on. *)

From Stdlib Require Import String Ascii ZArith NArith Lia Bool List.
From Stdlib Require Import DecimalString.
From Stdlib Require Import Sorted Permutation.
Import ListNotations.

Set Implicit Arguments.

(** ** Strings *)

Definition pychar := N.
Definition pystr := list pychar.

(** The code points of an ASCII literal. *)
Definition u (s : string) : pystr :=
  List.map N_of_ascii (list_ascii_of_string s).

(** The line feed and the double quote. *)
Definition nl : pystr := [10%N].
Definition dq : pystr := [34%N].

(** U+2B50, the star glyph of the repository line. *)
Definition star_glyph : pystr := [11088%N].

Definition pystr_eqb (a b : pystr) : bool :=
  if list_eq_dec N.eq_dec a b then true else false.

(** [sep.join(parts)]. *)
Fixpoint join (sep : pystr) (parts : list pystr) : pystr :=
  match parts with
  | [] => []
  | [p] => p
  | p :: rest => p ++ sep ++ join sep rest
  end.

(** [str(n)] for an integer. *)
Definition str_of_Z (z : Z) : pystr :=
  u (NilZero.string_of_int (Z.to_int z)).

Definition str_of_nat (n : nat) : pystr := str_of_Z (Z.of_nat n).

(** ** Values *)

#[local] Set Warnings "-register-all".

Inductive pyval : Type :=
| PNone
| PBool (b : bool)
| PInt (z : Z)
| PFloat (lit : pystr)          (* a float, named by a decimal literal *)
| PStr (s : pystr)
| PList (l : list pyval)
| PDict (d : list (pystr * pyval)).

Definition pydict := list (pystr * pyval).

(** [type(v).__name__], as it appears in error messages. *)
Definition type_name (v : pyval) : pystr :=
  match v with
  | PNone => u "NoneType"
  | PBool _ => u "bool"
  | PInt _ => u "int"
  | PFloat _ => u "float"
  | PStr _ => u "str"
  | PList _ => u "list"
  | PDict _ => u "dict"
  end.

(** ** Dictionaries *)

(** [d.get(k)] / the lookup behind [d[k]] and [k in d]. *)
Fixpoint dict_get (d : pydict) (k : pystr) : option pyval :=
  match d with
  | [] => None
  | (k', v) :: rest => if pystr_eqb k' k then Some v else dict_get rest k
  end.

(** [k in d]. *)
Definition dict_mem (d : pydict) (k : pystr) : bool :=
  match dict_get d k with Some _ => true | None => false end.

(** [d[k] = v]: an existing key keeps its place and takes the new value,
    a new key goes last. *)
Fixpoint dict_set (d : pydict) (k : pystr) (v : pyval) : pydict :=
  match d with
  | [] => [(k, v)]
  | (k', v') :: rest =>
      if pystr_eqb k' k then (k', v) :: rest
      else (k', v') :: dict_set rest k v
  end.

Definition dict_keys (d : pydict) : list pystr := List.map fst d.

(** ** Exceptions *)

(** The classes the handlers tell apart. [JSONDecodeError] and
    [UnicodeEncodeError] are subclasses of [Exception] (the other
    instances of [ValueError] are kept apart from them); [BaseOnly]
    stands for the classes under [BaseException] that are not under
    [Exception] ([KeyboardInterrupt], [SystemExit]); [OtherException] for
    any further subclass of [Exception] (transport failures of the
    backend and [RecursionError] among them). *)
Inductive exn_class : Type :=
| JSONDecodeError
| UnicodeEncodeError
| ValueError
| KeyError
| TypeError
| AttributeError
| UnboundLocalError
| OtherException
| BaseOnly.

(** An exception: its class and [str(e)]. The message of an exception
    holds no surrogate code point: the interpreter, the decoder and the
    client libraries put data into a message through [repr], which
    escapes them. *)
Record exn : Type := Exn { exn_cls : exn_class; exn_str : pystr }.

(** [isinstance(e, json.JSONDecodeError)]. *)
Definition is_JSONDecodeError (e : exn) : bool :=
  match exn_cls e with JSONDecodeError => true | _ => false end.

(** [isinstance(e, Exception)]. *)
Definition is_Exception (e : exn) : bool :=
  match exn_cls e with BaseOnly => false | _ => true end.

Inductive result (A : Type) : Type :=
| Ret (a : A)
| Raise (e : exn).

Arguments Ret {A} a.
Arguments Raise {A} e.

Definition bind {A B : Type} (m : result A) (f : A -> result B) : result B :=
  match m with
  | Ret a => f a
  | Raise e => Raise e
  end.

Declare Scope py_scope.
Delimit Scope py_scope with py.
Notation "x <- m ;; k" := (bind m (fun x => k))
  (at level 61, m at next level, right associativity) : py_scope.
Open Scope py_scope.

(** [for x in xs: ...] collecting one value per iteration; the first
    exception ends the loop. *)
Fixpoint mapM {A B : Type} (f : A -> result B) (xs : list A)
  : result (list B) :=
  match xs with
  | [] => Ret []
  | x :: rest =>
      y <- f x ;;
      ys <- mapM f rest ;;
      Ret (y :: ys)
  end.

(** [enumerate(xs, start)]. *)
Fixpoint enumerate {A : Type} (xs : list A) (start : nat) : list (nat * A) :=
  match xs with
  | [] => []
  | x :: rest => (start, x) :: enumerate rest (S start)
  end.

(** [repr(k)] of a string key, as [str(KeyError(k))] shows it: the keys
    subscripted in this file are plain ASCII words without quotes. *)
Definition repr_key (k : pystr) : pystr := u "'" ++ k ++ u "'".

(** [d[k]] on a dict. *)
Definition subscript (d : pydict) (k : pystr) : result pyval :=
  match dict_get d k with
  | Some v => Ret v
  | None => Raise (Exn KeyError (repr_key k))
  end.

Definition not_subscriptable (v : pyval) : exn :=
  Exn TypeError (u "'" ++ type_name v ++ u "' object is not subscriptable").

(** [v[:n]]. A [str] and a [list] are sliced; [None], [bool], [int] and
    [float] are not subscriptable ([TypeError]). A [dict] raises as
    well, a slice being no key of it: the exception given here is the
    TypeError of the interpreters up to 3.11, where a slice cannot be
    hashed; from 3.12 on the lookup is made and raises KeyError. No
    statement below depends on which of the two it is. *)
Definition slice_to (n : nat) (v : pyval) : result pyval :=
  match v with
  | PStr s => Ret (PStr (firstn n s))
  | PList l => Ret (PList (firstn n l))
  | PDict _ => Raise (Exn TypeError (u "unhashable type: 'slice'"))
  | _ => Raise (not_subscriptable v)
  end.

(** The items [sep.join(v)] iterates over: the elements of a list, the
    characters of a string. *)
Fixpoint join_items (i : nat) (l : list pyval) : result (list pystr) :=
  match l with
  | [] => Ret []
  | PStr s :: rest =>
      ss <- join_items (S i) rest ;;
      Ret (s :: ss)
  | v :: _ =>
      Raise (Exn TypeError
               (u "sequence item " ++ str_of_nat i
                ++ u ": expected str instance, " ++ type_name v ++ u " found"))
  end.

(** [sep.join(v)]. *)
Definition str_join (sep : pystr) (v : pyval) : result pystr :=
  match v with
  | PList l => ss <- join_items 0 l ;; Ret (join sep ss)
  | PStr s => Ret (join sep (List.map (fun c => [c]) s))
  | PDict d => Ret (join sep (dict_keys d))
  | _ => Raise (Exn TypeError (u "can only join an iterable"))
  end.

(** ** Standard output

    [sys.stdout] encodes the text it is given as UTF-8 with the strict
    error handler: a text that holds a surrogate code point (U+D800 to
    U+DFFF) is refused with [UnicodeEncodeError], whose message names the
    first run of surrogates. *)

Definition is_surrogate (c : pychar) : bool :=
  (N.leb 55296 c && N.leb c 57343)%bool.

Definition encodable (text : pystr) : bool :=
  forallb (fun c => negb (is_surrogate c)) text.

(** The length of the run of surrogates a text opens with. *)
Fixpoint surrogate_run (s : pystr) : nat :=
  match s with
  | c :: rest => if is_surrogate c then S (surrogate_run rest) else 0
  | [] => 0
  end.

(** The first surrogate of a text, from position [i] on: its position,
    the code point, and the length of the run it opens. *)
Fixpoint first_surrogate (i : nat) (s : pystr)
  : option (nat * pychar * nat) :=
  match s with
  | c :: rest =>
      if is_surrogate c then Some (i, c, S (surrogate_run rest))
      else first_surrogate (S i) rest
  | [] => None
  end.

Definition hex_of (n : N) : pychar :=
  if N.ltb n 10 then (48 + n)%N else (87 + n)%N.

(** The escape [\uxxxx] of a code point below U+10000, without the
    backslash. *)
Definition u_escape (c : pychar) : pystr :=
  [117%N; hex_of (c / 4096); hex_of ((c / 256) mod 16);
   hex_of ((c / 16) mod 16); hex_of (c mod 16)].

Definition backslash : pystr := [92%N].

(** [str(e)] for the [UnicodeEncodeError] of the UTF-8 codec. *)
Definition surrogates_not_allowed (text : pystr) : pystr :=
  match first_surrogate 0 text with
  | Some (i, c, 1) =>
      u "'utf-8' codec can't encode character '" ++ backslash ++ u_escape c
      ++ u "' in position " ++ str_of_nat i ++ u ": surrogates not allowed"
  | Some (i, _, n) =>
      u "'utf-8' codec can't encode characters in position "
      ++ str_of_nat i ++ u "-" ++ str_of_nat (i + n - 1)
      ++ u ": surrogates not allowed"
  | None => []
  end.

Definition unicode_encode_error (text : pystr) : exn :=
  Exn UnicodeEncodeError (surrogates_not_allowed text).

(** [sys.stdout.write(text)], as [print] calls it on each of its
    arguments. *)
Definition stdout_write (text : pystr) : result unit :=
  if encodable text then Ret tt else Raise (unicode_encode_error text).

(** ** The analyzer *)

(** What [__init__] keeps: the credential given to the client and the
    model name. *)
Record analyzer : Type := Analyzer { api_key : pystr; model : pystr }.

(** [TaxonomyAnalyzer.__init__], on the environment read by
    [os.getenv]: a missing or empty credential is refused. *)
Definition __init__ (getenv : pystr -> option pystr) : result analyzer :=
  let model_name :=
    match getenv (u "OR_RESEARCH_MODEL_NAME") with
    | Some name => name
    | None => u "google/gemini-3-flash-preview"
    end in
  match getenv (u "OPENROUTER_API_KEY") with
  | Some (c :: key) => Ret (Analyzer (c :: key) model_name)
  | _ => Raise (Exn ValueError
                    (u "OPENROUTER_API_KEY environment variable not set"))
  end.

Section Analyzer.

(** [str.upper]. *)
Variable str_upper : pystr -> pystr.

(** [repr] of the values whose [str] is not spelled out below: floats,
    lists and dicts. *)
Variable repr_other : pyval -> pystr.

(** [json.loads(text)]. *)
Variable json_loads : pystr -> result pyval.

(** [json.dumps(v, indent=2)]. *)
Variable json_dumps : pyval -> pystr.

(** The completion backend: what evaluating
    [self.client.chat.completions.create(...)] and then
    [response.choices[0].message.content] gives, for the system message,
    the user prompt and [max_tokens] of the call. *)
Variable chat_content : pystr -> pystr -> Z -> result pyval.

(** [str(v)], which is what an f-string field [{v}] renders. *)
Definition py_str (v : pyval) : pystr :=
  match v with
  | PStr s => s
  | PNone => u "None"
  | PBool true => u "True"
  | PBool false => u "False"
  | PInt z => str_of_Z z
  | _ => repr_other v
  end.

(** The f-string of one repository, lines 109-112: the fields are
    evaluated left to right. *)
Definition render_repo (i : nat) (repo : pydict) : result pystr :=
  full_name <- subscript repo (u "full_name") ;;
  stars <- subscript repo (u "stars") ;;
  description <- subscript repo (u "description") ;;
  topics <- subscript repo (u "topics") ;;
  topics5 <- slice_to 5 topics ;;
  joined <- str_join (u ", ") topics5 ;;
  language <- subscript repo (u "language") ;;
  Ret (str_of_nat i ++ u ". " ++ py_str full_name ++ u " ("
       ++ py_str stars ++ star_glyph ++ u ")" ++ nl
       ++ u "   Description: " ++ py_str description ++ nl
       ++ u "   Topics: " ++ joined ++ nl
       ++ u "   Language: " ++ py_str language ++ nl).

(** The f-string of one web result, lines 120-122. *)
Definition render_result (i : nat) (r : pydict) : result pystr :=
  title <- subscript r (u "title") ;;
  url <- subscript r (u "url") ;;
  content <- subscript r (u "content") ;;
  content200 <- slice_to 200 content ;;
  Ret (str_of_nat i ++ u ". " ++ py_str title ++ nl
       ++ u "   URL: " ++ py_str url ++ nl
       ++ u "   Content: " ++ py_str content200 ++ u "..." ++ nl).

(** The header of a web category, line 117. *)
Definition category_header (category : pystr) : pystr :=
  nl ++ u "=== WEB RESULTS: " ++ str_upper category ++ u " ===" ++ nl.

(** The parts appended by the first loop, lines 107-113. *)
Definition repo_parts (github_data : list pydict) : result (list pystr) :=
  mapM (fun ir => render_repo (fst ir) (snd ir))
       (enumerate (firstn 30 github_data) 1).

(** The parts appended for one category, lines 117-123. *)
Definition category_parts (cr : pystr * list pydict) : result (list pystr) :=
  rs <- mapM (fun ir => render_result (fst ir) (snd ir))
             (enumerate (firstn 15 (snd cr)) 1) ;;
  Ret (category_header (fst cr) :: rs).

(** The parts appended by the second loop, lines 116-123. *)
Definition web_parts (web_data : list (pystr * list pydict))
  : result (list pystr) :=
  pss <- mapM category_parts web_data ;;
  Ret (concat pss).

Definition github_header : pystr := u "=== GITHUB REPOSITORIES ===" ++ nl.

(** [summary_parts] when the function reaches its [return]. *)
Definition summary_parts (github_data : list pydict)
           (web_data : list (pystr * list pydict)) : result (list pystr) :=
  rp <- repo_parts github_data ;;
  wp <- web_parts web_data ;;
  Ret (github_header :: rp ++ wp).

(** [TaxonomyAnalyzer._prepare_data_summary]. *)
Definition _prepare_data_summary (github_data : list pydict)
           (web_data : list (pystr * list pydict)) : result pystr :=
  parts <- summary_parts github_data web_data ;;
  Ret (join nl parts).

(** [TaxonomyAnalyzer._build_taxonomy_prompt]. *)
Definition _build_taxonomy_prompt (keyword data_summary : pystr) : pystr :=
  join nl
    [ u "Analyze the following data about " ++ dq ++ keyword ++ dq ++ u " and create a comprehensive ecosystem taxonomy.";
      [];
      u "DATA:";
      data_summary;
      [];
      u "TASK:";
      u "Create a structured taxonomy that:";
      u "1. Identifies 5-8 main categories within this ecosystem";
      u "2. For each category, identify 2-4 subcategories";
      u "3. Find 3-5 representative examples (projects/tools/companies) for each category";
      u "4. Describe the purpose and focus of each category";
      u "5. Identify relationships between categories (e.g., " ++ dq ++ u "builds on" ++ dq ++ u ", " ++ dq ++ u "complements" ++ dq ++ u ", " ++ dq ++ u "alternative to" ++ dq ++ u ")";
      [];
      u "OUTPUT FORMAT (JSON):";
      u "{";
      u "  " ++ dq ++ u "ecosystem_name" ++ dq ++ u ": " ++ dq ++ keyword ++ dq ++ u ",";
      u "  " ++ dq ++ u "overview" ++ dq ++ u ": " ++ dq ++ u "Brief 2-3 sentence overview of the ecosystem" ++ dq ++ u ",";
      u "  " ++ dq ++ u "categories" ++ dq ++ u ": [";
      u "    {";
      u "      " ++ dq ++ u "name" ++ dq ++ u ": " ++ dq ++ u "Category Name" ++ dq ++ u ",";
      u "      " ++ dq ++ u "description" ++ dq ++ u ": " ++ dq ++ u "What this category focuses on" ++ dq ++ u ",";
      u "      " ++ dq ++ u "subcategories" ++ dq ++ u ": [" ++ dq ++ u "Subcategory 1" ++ dq ++ u ", " ++ dq ++ u "Subcategory 2" ++ dq ++ u "],";
      u "      " ++ dq ++ u "examples" ++ dq ++ u ": [";
      u "        {";
      u "          " ++ dq ++ u "name" ++ dq ++ u ": " ++ dq ++ u "Project/Tool Name" ++ dq ++ u ",";
      u "          " ++ dq ++ u "description" ++ dq ++ u ": " ++ dq ++ u "Brief description" ++ dq ++ u ",";
      u "          " ++ dq ++ u "url" ++ dq ++ u ": " ++ dq ++ u "URL if available" ++ dq ++ u ",";
      u "          " ++ dq ++ u "type" ++ dq ++ u ": " ++ dq ++ u "open-source|commercial|framework|library|platform" ++ dq;
      u "        }";
      u "      ],";
      u "      " ++ dq ++ u "relationships" ++ dq ++ u ": [" ++ dq ++ u "Related to X" ++ dq ++ u ", " ++ dq ++ u "Built on Y" ++ dq ++ u "]";
      u "    }";
      u "  ],";
      u "  " ++ dq ++ u "key_trends" ++ dq ++ u ": [" ++ dq ++ u "Trend 1" ++ dq ++ u ", " ++ dq ++ u "Trend 2" ++ dq ++ u ", " ++ dq ++ u "Trend 3" ++ dq ++ u "],";
      u "  " ++ dq ++ u "emerging_areas" ++ dq ++ u ": [" ++ dq ++ u "Area 1" ++ dq ++ u ", " ++ dq ++ u "Area 2" ++ dq ++ u "]";
      u "}";
      [];
      u "Respond ONLY with valid JSON. Do not include any markdown formatting or additional text." ].
(** The prompt of [enrich_taxonomy], lines 181-200; [dumped] is
    [json.dumps(taxonomy, indent=2)]. *)
Definition enrich_prompt (dumped : pystr) : pystr :=
  join nl
    [ u "Given this ecosystem taxonomy:";
      [];
      dumped;
      [];
      u "Provide additional insights:";
      u "1. Market maturity assessment (emerging, growing, mature)";
      u "2. Key differentiators between categories";
      u "3. Gaps or underserved areas in the ecosystem";
      u "4. Potential convergence or integration opportunities";
      [];
      u "OUTPUT FORMAT (JSON):";
      u "{";
      u "  " ++ dq ++ u "maturity_level" ++ dq ++ u ": " ++ dq ++ u "emerging|growing|mature" ++ dq ++ u ",";
      u "  " ++ dq ++ u "maturity_analysis" ++ dq ++ u ": " ++ dq ++ u "Brief explanation" ++ dq ++ u ",";
      u "  " ++ dq ++ u "category_differentiators" ++ dq ++ u ": {" ++ dq ++ u "Category1" ++ dq ++ u ": " ++ dq ++ u "Key differentiator" ++ dq ++ u ", " ++ dq ++ u "Category2" ++ dq ++ u ": " ++ dq ++ u "Key differentiator" ++ dq ++ u "},";
      u "  " ++ dq ++ u "ecosystem_gaps" ++ dq ++ u ": [" ++ dq ++ u "Gap 1" ++ dq ++ u ", " ++ dq ++ u "Gap 2" ++ dq ++ u "],";
      u "  " ++ dq ++ u "integration_opportunities" ++ dq ++ u ": [" ++ dq ++ u "Opportunity 1" ++ dq ++ u ", " ++ dq ++ u "Opportunity 2" ++ dq ++ u "]";
      u "}";
      [];
      u "Respond ONLY with valid JSON." ].

Definition taxonomy_system : pystr :=
  u "You are an expert at analyzing technology ecosystems and creating structured taxonomies. You excel at identifying patterns, categories, and representative examples from raw data.".

Definition enrich_system : pystr :=
  u "You are an expert technology ecosystem analyst.".

(** [json.loads(v)] for whatever the backend gave as content: only a
    [str] is decoded. *)
Definition loads_content (content : pyval) : result pyval :=
  match content with
  | PStr s => json_loads s
  | v => Raise (Exn TypeError
                  (u "the JSON object must be str, bytes or bytearray, not "
                   ++ type_name v))
  end.

(** [len(v)]. *)
Definition py_len (v : pyval) : result nat :=
  match v with
  | PStr s => Ret (length s)
  | PList l => Ret (length l)
  | PDict d => Ret (length d)
  | v => Raise (Exn TypeError
                  (u "object of type '" ++ type_name v ++ u "' has no len()"))
  end.

(** The argument of the [print] of line 85:
    [len(taxonomy.get('categories', []))]. Only a dict has [get]. *)
Definition categories_count (taxonomy : pyval) : result nat :=
  match taxonomy with
  | PDict d =>
      match dict_get d (u "categories") with
      | Some v => py_len v
      | None => py_len (PList [])
      end
  | v => Raise (Exn AttributeError
                  (u "'" ++ type_name v ++ u "' object has no attribute 'get'"))
  end.

(** The [try] body of [create_taxonomy] from line 80 on, once [result]
    is bound. *)
Definition parse_taxonomy (result_ : pyval) : result pyval :=
  taxonomy <- loads_content result_ ;;
  _ <- categories_count taxonomy ;;
  Ret taxonomy.

Definition parse_error (result_ : pyval) : pyval :=
  PDict [(u "error", PStr (u "Failed to parse taxonomy"));
         (u "raw_response", result_)].

Definition other_error (e : exn) : pyval :=
  PDict [(u "error", PStr (exn_str e))].

Definition unbound_result : exn :=
  Exn UnboundLocalError
      (u "cannot access local variable 'result' where it is not associated with a value").

(** The two handlers of [create_taxonomy], lines 89-95. [result_] is the
    local [result], [None] while it is not yet assigned. The first
    handler prints the message of the exception (line 90), then reads
    [result] and prints it (line 91): reading it raises
    [UnboundLocalError] while it is unassigned, and printing it raises
    [UnicodeEncodeError] when standard output cannot encode it. The
    second handler prints the message of the exception (line 94). An
    exception that neither clause matches leaves the function. *)
Definition create_handlers (result_ : option pyval) (e : exn)
  : result pyval :=
  if is_JSONDecodeError e then
    match result_ with
    | Some r =>
        _ <- stdout_write (py_str r) ;;
        Ret (parse_error r)
    | None => Raise unbound_result
    end
  else if is_Exception e then Ret (other_error e)
  else Raise e.

(** [TaxonomyAnalyzer.create_taxonomy]. The summary and the prompt are
    built before the [try]; the arguments of the [print] of line 53 do
    not raise on a list and a dict of lists. *)
Definition create_taxonomy (keyword : pystr) (github_data : list pydict)
           (web_data : list (pystr * list pydict)) : result pyval :=
  data_summary <- _prepare_data_summary github_data web_data ;;
  let prompt := _build_taxonomy_prompt keyword data_summary in
  match chat_content taxonomy_system prompt 4000 with
  | Raise e => create_handlers None e
  | Ret result_ =>
      match parse_taxonomy result_ with
      | Ret taxonomy => Ret taxonomy
      | Raise e => create_handlers (Some result_) e
      end
  end.

(** [TaxonomyAnalyzer().create_taxonomy(...)], as [main] (lines 225-251)
    and the orchestrator reach the parser: the analyzer is constructed
    first. *)
Definition construct_and_create (getenv : pystr -> option pystr)
           (keyword : pystr) (github_data : list pydict)
           (web_data : list (pystr * list pydict)) : result pyval :=
  _ <- __init__ getenv ;;
  create_taxonomy keyword github_data web_data.

(** The [try] body of [enrich_taxonomy], lines 203-218. *)
Definition enrich_body (taxonomy : pydict) : result pydict :=
  let prompt := enrich_prompt (json_dumps (PDict taxonomy)) in
  content <- chat_content enrich_system prompt 2000 ;;
  insights <- loads_content content ;;
  Ret (dict_set taxonomy (u "insights") insights).

(** [TaxonomyAnalyzer.enrich_taxonomy]. The dict returned is the
    argument object itself, so the value here is also the content of the
    caller's dict when the function returns: the assignment of line 214
    is the only statement that changes it, and nothing after it
    raises. *)
Definition enrich_taxonomy (taxonomy : pydict) : result pydict :=
  if dict_mem taxonomy (u "error") then Ret taxonomy
  else
    match enrich_body taxonomy with
    | Ret enriched => Ret enriched
    | Raise e => if is_Exception e then Ret taxonomy else Raise e
    end.

End Analyzer.

(** ** A decoder for [json.loads]

    The grammar the standard decoder accepts, on code points: white space
    is space, tab, line feed and carriage return; a document is one value
    between white space; the literals [NaN], [Infinity] and [-Infinity]
    are accepted; a control character inside a string is refused; a
    repeated key keeps its first place and takes the last value. The
    message of a [JSONDecodeError] is only printed by the analyzer, so one
    message stands for all of them.

    Two limits of the interpreter are kept. Every array and every object
    the decoder enters takes one level of the recursion the interpreter
    allows, and entering one when none is left raises [RecursionError]:
    how many levels the decoder has depends on the version of the
    interpreter and on the stack of the caller, so the decoder takes the
    number as an argument ([loads_within]). An integer of more than 4300
    digits is refused with a [ValueError] (the default of
    [sys.set_int_max_str_digits]). A float is named by its literal: two
    literals of one float are two names, and no statement compares
    floats.

    The functions recurse on a fuel, one unit for every value and every
    turn of a loop; [loads_within] gives twice the length of the text
    and two more. *)

Module Json.

Inductive scan (A : Type) : Type :=
| Scanned (a : A) (rest : pystr)
| Malformed
| Failed (e : exn)
| Exhausted.

Arguments Scanned {A} a rest.
Arguments Malformed {A}.
Arguments Failed {A} e.
Arguments Exhausted {A}.

(** The value scanned, changed by [f]. *)
Definition scan_map {A B : Type} (f : A -> B) (r : scan A) : scan B :=
  match r with
  | Scanned a rest => Scanned (f a) rest
  | Malformed => Malformed
  | Failed e => Failed e
  | Exhausted => Exhausted
  end.

Definition is_ws (c : pychar) : bool :=
  (N.eqb c 32 || N.eqb c 9 || N.eqb c 10 || N.eqb c 13)%bool.

Fixpoint skip_ws (s : pystr) : pystr :=
  match s with
  | c :: rest => if is_ws c then skip_ws rest else s
  | [] => []
  end.

Definition is_digit (c : pychar) : bool := (N.leb 48 c && N.leb c 57)%bool.

Fixpoint take_digits (s : pystr) : pystr * pystr :=
  match s with
  | c :: rest =>
      if is_digit c then let (ds, r) := take_digits rest in (c :: ds, r)
      else ([], s)
  | [] => ([], [])
  end.

(** [s.startswith(p)], giving what follows the prefix. *)
Fixpoint strip_prefix (p s : pystr) : option pystr :=
  match p, s with
  | [], _ => Some s
  | a :: p', b :: s' => if N.eqb a b then strip_prefix p' s' else None
  | _ :: _, [] => None
  end.

Definition hex_digit (c : pychar) : option N :=
  if (N.leb 48 c && N.leb c 57)%bool then Some (c - 48)%N
  else if (N.leb 97 c && N.leb c 102)%bool then Some (c - 87)%N
  else if (N.leb 65 c && N.leb c 70)%bool then Some (c - 55)%N
  else None.

Definition hex4 (a b c d : pychar) : option N :=
  match hex_digit a, hex_digit b, hex_digit c, hex_digit d with
  | Some x, Some y, Some z, Some w => Some (((x * 16 + y) * 16 + z) * 16 + w)%N
  | _, _, _, _ => None
  end.

(** The one-letter escapes: quote, backslash, slash, b, f, n, r, t. *)
Definition simple_escape (c : pychar) : option pychar :=
  if N.eqb c 34 then Some 34%N
  else if N.eqb c 92 then Some 92%N
  else if N.eqb c 47 then Some 47%N
  else if N.eqb c 98 then Some 8%N
  else if N.eqb c 102 then Some 12%N
  else if N.eqb c 110 then Some 10%N
  else if N.eqb c 114 then Some 13%N
  else if N.eqb c 116 then Some 9%N
  else None.

Definition is_high_surrogate (n : N) : bool := (N.leb 55296 n && N.leb n 56319)%bool.
Definition is_low_surrogate (n : N) : bool := (N.leb 56320 n && N.leb n 57343)%bool.

(** [scanstring], after the opening quote. *)
Fixpoint scan_string (s : pystr) : scan pystr :=
  match s with
  | [] => Malformed
  | c :: rest =>
      if N.eqb c 34 then Scanned [] rest
      else if N.eqb c 92 then
        match rest with
        | [] => Malformed
        | e :: rest1 =>
            if N.eqb e 117 then
              match rest1 with
              | a :: b :: c1 :: d :: rest2 =>
                  match hex4 a b c1 d with
                  | None => Malformed
                  | Some uni =>
                      let plain :=
                        match scan_string rest2 with
                        | Scanned t r => Scanned (uni :: t) r
                        | other => other
                        end in
                      if is_high_surrogate uni then
                        match rest2 with
                        | 92%N :: 117%N :: a2 :: b2 :: c2 :: d2 :: rest3 =>
                            match hex4 a2 b2 c2 d2 with
                            | None => Malformed
                            | Some uni2 =>
                                if is_low_surrogate uni2 then
                                  match scan_string rest3 with
                                  | Scanned t r =>
                                      Scanned ((65536 + (N.lor (N.shiftl (uni - 55296) 10)
                                                               (uni2 - 56320)))%N :: t) r
                                  | other => other
                                  end
                                else plain
                            end
                        | 92%N :: 117%N :: _ => Malformed
                        | _ => plain
                        end
                      else plain
                  end
              | _ => Malformed
              end
            else
              match simple_escape e with
              | None => Malformed
              | Some ch =>
                  match scan_string rest1 with
                  | Scanned t r => Scanned (ch :: t) r
                  | other => other
                  end
              end
        end
      else if N.leb c 31 then Malformed
      else
        match scan_string rest with
        | Scanned t r => Scanned (c :: t) r
        | other => other
        end
  end.

Definition Z_of_digits (ds : pystr) : Z :=
  fold_left (fun acc c => (acc * 10 + (Z.of_N c - 48))%Z) ds 0%Z.

(** The integer part of a number: [0] or a digit from 1 to 9 followed by
    digits. *)
Definition take_int (s : pystr) : option (pystr * pystr) :=
  match s with
  | c :: rest =>
      if N.eqb c 48 then Some ([c], rest)
      else if is_digit c then
        let (ds, r) := take_digits rest in Some (c :: ds, r)
      else None
  | [] => None
  end.

(** The optional fraction: a dot followed by at least one digit. *)
Definition take_frac (s : pystr) : pystr * pystr :=
  match s with
  | 46%N :: rest =>
      match take_digits rest with
      | ([], _) => ([], s)
      | (ds, r) => (46%N :: ds, r)
      end
  | _ => ([], s)
  end.

(** The optional exponent: [e] or [E], an optional sign, at least one
    digit. *)
Definition take_exp (s : pystr) : pystr * pystr :=
  match s with
  | e :: rest =>
      if (N.eqb e 101 || N.eqb e 69)%bool then
        let (sign, rest1) :=
          match rest with
          | g :: r => if (N.eqb g 43 || N.eqb g 45)%bool then ([g], r) else ([], rest)
          | [] => ([], rest)
          end in
        match take_digits rest1 with
        | ([], _) => ([], s)
        | (ds, r) => (e :: sign ++ ds, r)
        end
      else ([], s)
  | [] => ([], s)
  end.

Definition int_max_str_digits : nat := 4300.

(** The [ValueError] of [int] on a literal of [n] digits, more than the
    limit. *)
Definition too_many_digits (n : nat) : exn :=
  Exn ValueError
      (u "Exceeds the limit (4300 digits) for integer string conversion: value has "
       ++ str_of_nat n
       ++ u " digits; use sys.set_int_max_str_digits() to increase the limit").

(** [NUMBER_RE] and the conversion of its match: an [int] when there is
    neither fraction nor exponent, a [float] otherwise; [None] when no
    number starts the text. *)
Definition scan_number (s : pystr) : option (scan pyval) :=
  let (sign, s1) :=
    match s with
    | 45%N :: r => ([45%N], r)
    | _ => ([], s)
    end in
  match take_int s1 with
  | None => None
  | Some (ds, s2) =>
      let (frac, s3) := take_frac s2 in
      let (ex, s4) := take_exp s3 in
      match frac, ex with
      | [], [] =>
          if Nat.ltb int_max_str_digits (length ds)
          then Some (Failed (too_many_digits (length ds)))
          else
            Some (Scanned
                    (PInt (match sign with [] => Z_of_digits ds
                                      | _ => - Z_of_digits ds end)%Z) s4)
      | _, _ => Some (Scanned (PFloat (sign ++ ds ++ frac ++ ex)) s4)
      end
  end.

(** What [scan_once] does on a character that opens neither a string,
    an object nor an array. *)
Definition scan_atom (s : pystr) : scan pyval :=
  match strip_prefix (u "null") s with
  | Some r => Scanned PNone r
  | None =>
  match strip_prefix (u "true") s with
  | Some r => Scanned (PBool true) r
  | None =>
  match strip_prefix (u "false") s with
  | Some r => Scanned (PBool false) r
  | None =>
  match scan_number s with
  | Some scanned => scanned
  | None =>
  match strip_prefix (u "NaN") s with
  | Some r => Scanned (PFloat (u "NaN")) r
  | None =>
  match strip_prefix (u "Infinity") s with
  | Some r => Scanned (PFloat (u "Infinity")) r
  | None =>
  match strip_prefix (u "-Infinity") s with
  | Some r => Scanned (PFloat (u "-Infinity")) r
  | None => Malformed
  end end end end end end end.

(** The [RecursionError] of the decoder, raised on entering an object
    or an array. *)
Definition recursion_error (what : pystr) : exn :=
  Exn OtherException
      (u "maximum recursion depth exceeded while decoding a JSON " ++ what
       ++ u " from a unicode string").

(** [scan_once], [JSONArray] and [JSONObject]. [depth] is the number of
    levels left. [scan_elements] is the loop of [JSONArray] from the
    start of an element, [scan_members] the loop of [JSONObject] from
    the character after the quote that opens a key; [scan_members] gives
    the pairs in the order read. *)
Fixpoint scan_value (fuel depth : nat) (s : pystr) : scan pyval :=
  match fuel with
  | O => Exhausted
  | S f =>
      match s with
      | [] => Malformed
      | c :: rest =>
          if N.eqb c 34 then scan_map PStr (scan_string rest)
          else if N.eqb c 123 then
            match depth with
            | O => Failed (recursion_error (u "object"))
            | S d =>
                match skip_ws rest with
                | 125%N :: r => Scanned (PDict []) r
                | 34%N :: r =>
                    scan_map
                      (fun pairs =>
                         PDict (fold_left
                                  (fun d kv => dict_set d (fst kv) (snd kv))
                                  pairs []))
                      (scan_members f d r)
                | _ => Malformed
                end
            end
          else if N.eqb c 91 then
            match depth with
            | O => Failed (recursion_error (u "array"))
            | S d =>
                match skip_ws rest with
                | 93%N :: r => Scanned (PList []) r
                | s1 => scan_map PList (scan_elements f d s1)
                end
            end
          else scan_atom s
      end
  end

with scan_elements (fuel depth : nat) (s : pystr) : scan (list pyval) :=
  match fuel with
  | O => Exhausted
  | S f =>
      match scan_value f depth s with
      | Scanned v r =>
          match skip_ws r with
          | 93%N :: r1 => Scanned [v] r1
          | 44%N :: r1 =>
              scan_map (cons v) (scan_elements f depth (skip_ws r1))
          | _ => Malformed
          end
      | Malformed => Malformed
      | Failed e => Failed e
      | Exhausted => Exhausted
      end
  end

with scan_members (fuel depth : nat) (s : pystr)
  : scan (list (pystr * pyval)) :=
  match fuel with
  | O => Exhausted
  | S f =>
      match scan_string s with
      | Scanned key r =>
          match skip_ws r with
          | 58%N :: r1 =>
              match scan_value f depth (skip_ws r1) with
              | Scanned v r2 =>
                  match skip_ws r2 with
                  | 125%N :: r3 => Scanned [(key, v)] r3
                  | 44%N :: r3 =>
                      match skip_ws r3 with
                      | 34%N :: r4 =>
                          scan_map (cons (key, v)) (scan_members f depth r4)
                      | _ => Malformed
                      end
                  | _ => Malformed
                  end
              | Malformed => Malformed
              | Failed e => Failed e
              | Exhausted => Exhausted
              end
          | _ => Malformed
          end
      | Malformed => Malformed
      | Failed e => Failed e
      | Exhausted => Exhausted
      end
  end.

Definition decode_error : exn := Exn JSONDecodeError (u "Expecting value").

(** [json.loads(s)] on a [str], in an interpreter that lets the decoder
    nest [limit] levels deep. *)
Definition loads_within (limit : nat) (s : pystr) : result pyval :=
  match s with
  | 65279%N :: _ => Raise decode_error
  | _ =>
      match scan_value (2 * length s + 2) limit (skip_ws s) with
      | Scanned v r =>
          match skip_ws r with
          | [] => Ret v
          | _ :: _ => Raise decode_error
          end
      | Malformed => Raise decode_error
      | Failed e => Raise e
      | Exhausted => Raise (recursion_error [])
      end
  end.

(** The recursion limit of the interpreter as it starts,
    [sys.getrecursionlimit()]. *)
Definition recursion_limit : nat := 1000.

(** [json.loads(s)] with the whole of the recursion limit left to the
    decoder. *)
Definition loads (s : pystr) : result pyval := loads_within recursion_limit s.

(** A JSON text for a value: no white space, and in a string only the
    escapes the grammar requires (the quote, the backslash, and the
    control characters as [\u00XX]). A float is written as its
    literal. *)

Definition hex_char (n : N) : pychar :=
  if N.ltb n 10 then (48 + n)%N else (87 + n)%N.

Definition escape_char (c : pychar) : pystr :=
  if N.eqb c 34 then [92; 34]%N
  else if N.eqb c 92 then [92; 92]%N
  else if N.leb c 31 then [92; 117; 48; 48; hex_char (c / 16); hex_char (c mod 16)]%N
  else [c].

Definition text_of_str (s : pystr) : pystr :=
  dq ++ flat_map escape_char s ++ dq.

Fixpoint text_of (v : pyval) : pystr :=
  match v with
  | PNone => u "null"
  | PBool true => u "true"
  | PBool false => u "false"
  | PInt z => str_of_Z z
  | PFloat lit => lit
  | PStr s => text_of_str s
  | PList l =>
      u "[" ++ join (u ",") (List.map text_of l) ++ u "]"
  | PDict d =>
      u "{" ++ join (u ",")
                 (List.map (fun kv => text_of_str (fst kv) ++ u ":" ++ text_of (snd kv)) d)
      ++ u "}"
  end.

(** A JSON text for a value with the white space [w] wherever the
    grammar allows some: after an opening bracket or brace, around a
    colon and a comma, before a closing bracket or brace. *)
Fixpoint text_with (w : pystr) (v : pyval) : pystr :=
  match v with
  | PNone => u "null"
  | PBool true => u "true"
  | PBool false => u "false"
  | PInt z => str_of_Z z
  | PFloat lit => lit
  | PStr s => text_of_str s
  | PList [] => u "[" ++ w ++ u "]"
  | PList l =>
      u "["
      ++ (fix items (l : list pyval) : pystr :=
            match l with
            | [] => []
            | [x] => w ++ text_with w x ++ w ++ u "]"
            | x :: rest => w ++ text_with w x ++ w ++ u "," ++ items rest
            end) l
  | PDict [] => u "{" ++ w ++ u "}"
  | PDict d =>
      u "{"
      ++ (fix members (d : list (pystr * pyval)) : pystr :=
            match d with
            | [] => []
            | [kv] =>
                w ++ text_of_str (fst kv) ++ w ++ u ":" ++ w
                ++ text_with w (snd kv) ++ w ++ u "}"
            | kv :: rest =>
                w ++ text_of_str (fst kv) ++ w ++ u ":" ++ w
                ++ text_with w (snd kv) ++ w ++ u "," ++ members rest
            end) d
  end.

End Json.

(** ** Protocols of the values

    What the collectors and the orchestrator ask of the values they are
    handed: the [get] method, iteration, membership. *)

Definition no_attribute (v : pyval) (name : pystr) : exn :=
  Exn AttributeError
      (u "'" ++ type_name v ++ u "' object has no attribute '" ++ name
       ++ u "'").

(** [v.get(k, default)]: only a dict has the method; a key bound to
    [None] gives [None], not the default. *)
Definition py_get (v : pyval) (k : pystr) (default : pyval) : result pyval :=
  match v with
  | PDict d =>
      Ret (match dict_get d k with Some x => x | None => default end)
  | _ => Raise (no_attribute v (u "get"))
  end.

(** The items [for x in v] visits: the elements of a list, the
    characters of a text, the keys of a dict. *)
Definition py_iter (v : pyval) : result (list pyval) :=
  match v with
  | PList l => Ret l
  | PStr s => Ret (List.map (fun c => PStr [c]) s)
  | PDict d => Ret (List.map PStr (dict_keys d))
  | _ => Raise (Exn TypeError
                  (u "'" ++ type_name v ++ u "' object is not iterable"))
  end.

(** ** The web searcher *)

Module TavilySearcher.

(** What [TavilySearcher.__init__] keeps: the key given to the client. *)
Record searcher : Type := Searcher { tavily_key : pystr }.

(** [TavilySearcher.__init__] on the environment read by [os.getenv]. *)
Definition __init__ (getenv : pystr -> option pystr) : result searcher :=
  match getenv (u "TAVILY_API_KEY") with
  | Some (c :: key) => Ret (Searcher (c :: key))
  | _ => Raise (Exn ValueError
                    (u "TAVILY_API_KEY environment variable not set"))
  end.

Section Searcher.

(** [self.client.search(query=..., max_results=..., search_depth=...,
    include_domains=..., exclude_domains=...)]: the response of the
    service, or the exception of the call. *)
Variable client_search :
  pystr -> Z -> pystr -> list pystr -> list pystr -> result pyval.

(** [domains or []]. *)
Definition or_empty (domains : option (list pystr)) : list pystr :=
  match domains with
  | Some l => l
  | None => []
  end.

(** The dict built for one item, lines 60-66. *)
Definition result_of (item : pyval) : result pydict :=
  title <- py_get item (u "title") (PStr []) ;;
  url <- py_get item (u "url") (PStr []) ;;
  content <- py_get item (u "content") (PStr []) ;;
  score <- py_get item (u "score") (PInt 0) ;;
  published_date <- py_get item (u "published_date") (PStr []) ;;
  Ret [(u "title", title);
       (u "url", url);
       (u "content", content);
       (u "score", score);
       (u "published_date", published_date)].

(** The [try] body of [search], lines 50-70. *)
Definition search_body (keyword : pystr) (max_results : Z)
           (search_depth : pystr)
           (include_domains exclude_domains : option (list pystr))
  : result (list pydict) :=
  response <- client_search keyword max_results search_depth
                            (or_empty include_domains)
                            (or_empty exclude_domains) ;;
  items <- py_get response (u "results") (PList []) ;;
  items <- py_iter items ;;
  mapM result_of items.

(** [TavilySearcher.search]: the handler of line 72 answers every
    exception under [Exception] with the empty list. *)
Definition search (keyword : pystr) (max_results : Z) (search_depth : pystr)
           (include_domains exclude_domains : option (list pystr))
  : result (list pydict) :=
  match search_body keyword max_results search_depth
                    include_domains exclude_domains with
  | Ret results => Ret results
  | Raise e => if is_Exception e then Ret [] else Raise e
  end.

Definition technical_domains : list pystr :=
  [u "github.com"; u "gitlab.com"; u "pypi.org"; u "npmjs.com";
   u "arxiv.org"; u "huggingface.co"].

(** [TavilySearcher.search_tools_and_projects]. *)
Definition search_tools_and_projects (keyword : pystr) (max_results : Z)
  : result (list pydict) :=
  search (keyword ++ u " tools libraries frameworks projects")
         max_results (u "advanced") (Some technical_domains) None.

(** [TavilySearcher.search_ecosystem_overview]. *)
Definition search_ecosystem_overview (keyword : pystr) (max_results : Z)
  : result (list pydict) :=
  search (keyword ++ u " ecosystem landscape market map overview")
         max_results (u "advanced") None None.

(** [TavilySearcher.combine_searches]: the three entries of the dict
    literal are evaluated in order. *)
Definition combine_searches (keyword : pystr)
  : result (list (pystr * list pydict)) :=
  general <- search keyword 15 (u "advanced") None None ;;
  tools <- search_tools_and_projects keyword 15 ;;
  ecosystem <- search_ecosystem_overview keyword 10 ;;
  Ret [(u "general", general);
       (u "tools", tools);
       (u "ecosystem", ecosystem)].

End Searcher.

(** A service that answers every query with the same response, and one
    whose call raises. *)
Definition answering (response : pyval)
  : pystr -> Z -> pystr -> list pystr -> list pystr -> result pyval :=
  fun _ _ _ _ _ => Ret response.

Definition failing (e : exn)
  : pystr -> Z -> pystr -> list pystr -> list pystr -> result pyval :=
  fun _ _ _ _ _ => Raise e.

(** A service that fails on the queries for tools only. *)
Definition failing_on_tools (response : pyval) (e : exn)
  : pystr -> Z -> pystr -> list pystr -> list pystr -> result pyval :=
  fun _ _ _ include_domains _ =>
    match include_domains with
    | [] => Ret response
    | _ => Raise e
    end.

Definition item (title : pystr) (content : pyval) : pyval :=
  PDict [(u "url", PStr (u "https://example.com/" ++ title));
         (u "title", PStr title);
         (u "content", content);
         (u "score", PFloat (u "0.91"))].

Definition response (items : list pyval) : pyval :=
  PDict [(u "query", PStr (u "agentic AI"));
         (u "results", PList items);
         (u "response_time", PFloat (u "1.2"))].

End TavilySearcher.

(** ** The repository collector *)

Module GitHubCollector.

(** What the loop reads of a repository object of the client library.
    [get_topics] is a request of its own and may raise; the two dates
    are given by their [isoformat()], the license by its name. *)
Record repository : Type := Repository {
  name : pystr;
  full_name : pystr;
  description : option pystr;
  html_url : pystr;
  stargazers_count : Z;
  forks_count : Z;
  language : option pystr;
  get_topics : result (list pystr);
  created_at : pystr;
  updated_at : pystr;
  homepage : option pystr;
  license : option pystr }.

(** [s or the empty text]. *)
Definition or_empty_str (s : option pystr) : pystr :=
  match s with
  | Some t => t
  | None => []
  end.

(** A text that may be [None]. *)
Definition str_or_None (s : option pystr) : pyval :=
  match s with
  | Some t => PStr t
  | None => PNone
  end.

(** The dict literal of lines 80-93; [topics] is what the call of
    [get_topics] gave. *)
Definition repo_data (repo : repository) (topics : list pystr) : pydict :=
  [(u "name", PStr (name repo));
   (u "full_name", PStr (full_name repo));
   (u "description", PStr (or_empty_str (description repo)));
   (u "url", PStr (html_url repo));
   (u "stars", PInt (stargazers_count repo));
   (u "forks", PInt (forks_count repo));
   (u "language", str_or_None (language repo));
   (u "topics", PList (List.map PStr topics));
   (u "created_at", PStr (created_at repo));
   (u "updated_at", PStr (updated_at repo));
   (u "homepage", PStr (or_empty_str (homepage repo)));
   (u "license", str_or_None (license repo))].

(** The loop of lines 76-99 over what is left of the paginated list:
    each item is fetched ([Raise] when the request of its page fails)
    before the count is tested. *)
Fixpoint collect (max_results : Z) (repositories : list (result repository))
         (results : list pydict) (count : Z) : result (list pydict) :=
  match repositories with
  | [] => Ret results
  | next :: rest =>
      repo <- next ;;
      if (count >=? max_results)%Z then Ret results
      else
        topics <- get_topics repo ;;
        collect max_results rest (results ++ [repo_data repo topics])
                (count + 1)%Z
  end.

(** What [GitHubCollector.__init__] keeps: the token given to the
    client. *)
Record collector : Type := Collector { github_token : pystr }.

(** [GitHubCollector.__init__] on the environment read by [os.getenv];
    [get_rate_limit] is the request of [rate_limit_info], made with the
    token as soon as there is one. *)
Definition __init__ (getenv : pystr -> option pystr)
           (get_rate_limit : pystr -> result unit) : result collector :=
  match getenv (u "GITHUB_PAT") with
  | Some (c :: token) =>
      _ <- get_rate_limit (c :: token) ;;
      Ret (Collector (c :: token))
  | _ => Raise (Exn ValueError (u "GITHUB_PAT environment variable not set"))
  end.

Section Collector.

(** [self.github.search_repositories(query=..., sort=..., order=...)]:
    the items the paginated list yields, in order. *)
Variable github_search :
  pystr -> pystr -> pystr -> result (list (result repository)).

(** [(datetime.now() - timedelta(days=n)).strftime('%Y-%m-%d')]. *)
Variable start_date : Z -> result pystr.

(** [isinstance(e, GithubException)]. *)
Variable is_GithubException : exn -> bool.

(** The query of lines 55-62. *)
Definition query_of (keyword date : pystr) (min_stars : Z) : pystr :=
  join (u " ")
       ([keyword; u "created:>=" ++ date]
        ++ if (min_stars >? 0)%Z then [u "stars:>=" ++ str_of_Z min_stars]
           else []).

(** [GitHubCollector.search_repositories]. The date is computed before
    the [try]. *)
Definition search_repositories (keyword : pystr) (months_back : Z)
           (max_results : Z) (min_stars : Z) : result (list pydict) :=
  date <- start_date (months_back * 30)%Z ;;
  let query := query_of keyword date min_stars in
  match (repositories <- github_search query (u "stars") (u "desc") ;;
         collect max_results repositories [] 0) with
  | Ret results => Ret results
  | Raise e => if is_GithubException e then Ret [] else Raise e
  end.

(** A key of a dict must be hashable: a list and a dict are not. *)
Definition hashable (v : pyval) : result unit :=
  match v with
  | PList _ | PDict _ =>
      Raise (Exn TypeError (u "unhashable type: '" ++ type_name v ++ u "'"))
  | _ => Ret tt
  end.

(** [a == b] on hashable values: texts by their characters, [True] and
    [False] as 1 and 0, floats by their literal. *)
Definition key_eqb (a b : pyval) : bool :=
  match a, b with
  | PStr s, PStr t => pystr_eqb s t
  | PNone, PNone => true
  | PBool x, PBool y => Bool.eqb x y
  | PInt x, PInt y => Z.eqb x y
  | PBool x, PInt y => Z.eqb (if x then 1 else 0) y
  | PInt x, PBool y => Z.eqb x (if y then 1 else 0)
  | PFloat x, PFloat y => pystr_eqb x y
  | _, _ => false
  end.

(** [topic_counts.get(topic, default)]. *)
Fixpoint counts_get (topic_counts : list (pyval * Z)) (topic : pyval)
         (default : Z) : Z :=
  match topic_counts with
  | [] => default
  | (k, n) :: rest =>
      if key_eqb k topic then n else counts_get rest topic default
  end.

(** [topic_counts[topic] = topic_counts.get(topic, 0) + 1]: a key that
    is there keeps its place, a new one goes last. *)
Fixpoint bump (topic_counts : list (pyval * Z)) (topic : pyval)
  : list (pyval * Z) :=
  match topic_counts with
  | [] => [(topic, 1%Z)]
  | (k, n) :: rest =>
      if key_eqb k topic then (k, (n + 1)%Z) :: rest
      else (k, n) :: bump rest topic
  end.

(** The inner loop of line 123 over the topics of one repository. *)
Fixpoint count_each (topics : list pyval) (topic_counts : list (pyval * Z))
  : result (list (pyval * Z)) :=
  match topics with
  | [] => Ret topic_counts
  | topic :: rest =>
      _ <- hashable topic ;;
      count_each rest (bump topic_counts topic)
  end.

(** The loop of lines 122-124. *)
Fixpoint count_topics (repos : list pydict) (topic_counts : list (pyval * Z))
  : result (list (pyval * Z)) :=
  match repos with
  | [] => Ret topic_counts
  | repo :: rest =>
      topics <- py_iter (match dict_get repo (u "topics") with
                         | Some v => v
                         | None => PList []
                         end) ;;
      topic_counts <- count_each topics topic_counts ;;
      count_topics rest topic_counts
  end.

(** [sorted(items, key=lambda x: x[1], reverse=True)]: by falling count,
    items of equal count in the order they had. *)
Fixpoint insert_by_count (x : pyval * Z) (sorted : list (pyval * Z))
  : list (pyval * Z) :=
  match sorted with
  | [] => [x]
  | y :: rest =>
      if (snd x <? snd y)%Z then y :: insert_by_count x rest
      else x :: sorted
  end.

Definition sorted_by_count (items : list (pyval * Z)) : list (pyval * Z) :=
  fold_right insert_by_count [] items.

(** [GitHubCollector.get_trending_topics]: the search is made with the
    defaults of [months_back] and [min_stars]. *)
Definition get_trending_topics (keyword : pystr) (max_repos : Z)
  : result (list (pyval * Z)) :=
  repos <- search_repositories keyword 3 max_repos 0 ;;
  topic_counts <- count_topics repos [] ;;
  Ret (sorted_by_count topic_counts).

End Collector.

(** A service with the given items, a clock, and the class test on a
    marked message. *)
Definition serving (items : list (result repository))
  : pystr -> pystr -> pystr -> result (list (result repository)) :=
  fun _ _ _ => Ret items.

Definition since (date : pystr) : Z -> result pystr := fun _ => Ret date.

Definition rate_limited : exn :=
  Exn OtherException (u "403 API rate limit exceeded").

Definition is_rate_limited (e : exn) : bool :=
  pystr_eqb (exn_str e) (exn_str rate_limited).

Definition sample (n : nat) : repository :=
  {| name := u "repo-" ++ str_of_nat n;
     full_name := u "org/repo-" ++ str_of_nat n;
     description := None;
     html_url := u "https://github.com/org/repo-" ++ str_of_nat n;
     stargazers_count := Z.of_nat n;
     forks_count := 0;
     language := None;
     get_topics := Ret [u "ai"; u "agents"];
     created_at := u "2025-01-01T00:00:00";
     updated_at := u "2025-02-01T00:00:00";
     homepage := None;
     license := Some (u "MIT License") |}.

End GitHubCollector.

(** ** The orchestrator *)

(** [v[k]] for a text [k]: a dict is looked up; a text and a list take
    no text as an index; the other values are not subscriptable. *)
Definition py_subscript (v : pyval) (k : pystr) : result pyval :=
  match v with
  | PDict d => subscript d k
  | PStr _ =>
      Raise (Exn TypeError (u "string indices must be integers, not 'str'"))
  | PList _ =>
      Raise (Exn TypeError
               (u "list indices must be integers or slices, not str"))
  | _ => Raise (not_subscriptable v)
  end.

Fixpoint is_prefix (p s : pystr) : bool :=
  match p, s with
  | [], _ => true
  | a :: p', b :: s' => (N.eqb a b && is_prefix p' s')%bool
  | _ :: _, [] => false
  end.

Fixpoint is_infix (p s : pystr) : bool :=
  (is_prefix p s
   || match s with
      | [] => false
      | _ :: s' => is_infix p s'
      end)%bool.

(** [k in v] for a text [k]: a key of a dict, an item of a list, a part
    of a text. *)
Definition py_contains (v : pyval) (k : pystr) : result bool :=
  match v with
  | PDict d => Ret (dict_mem d k)
  | PList l =>
      Ret (existsb (fun x => match x with
                             | PStr s => pystr_eqb s k
                             | _ => false
                             end) l)
  | PStr s => Ret (is_infix k s)
  | _ => Raise (Exn TypeError
                  (u "argument of type '" ++ type_name v
                   ++ u "' is not iterable"))
  end.

(** [d.get(k, default)] on a dict. *)
Definition dict_get_or (d : pydict) (k : pystr) (default : pyval) : pyval :=
  match dict_get d k with
  | Some v => v
  | None => default
  end.

Module EcosystemMapper.

(** A run that prints or writes as it goes: what it has put out, in
    order, and how it ended. *)
Definition logged (L A : Type) : Type := (list L * result A)%type.

Definition done {L A : Type} (a : A) : logged L A := ([], Ret a).

Definition lift {L A : Type} (r : result A) : logged L A := ([], r).

Definition and_then {L A B : Type} (m : logged L A) (f : A -> logged L B)
  : logged L B :=
  match snd m with
  | Ret a => let r := f a in (fst m ++ fst r, snd r)
  | Raise e => (fst m, Raise e)
  end.

Notation "x <~ m ;; k" := (and_then m (fun x => k))
  (at level 61, m at next level, right associativity) : py_scope.

(** [for x in xs: body]. *)
Fixpoint for_each {L A : Type} (xs : list A) (body : A -> logged L unit)
  : logged L unit :=
  match xs with
  | [] => done tt
  | x :: rest => _ <~ body x ;; for_each rest body
  end.

(** [s.replace(old, new)] for one-character [old] and [new]. *)
Definition replace_char (old new : pychar) (s : pystr) : pystr :=
  List.map (fun c => if N.eqb c old then new else c) s.

(** [keyword.replace(" ", "_").replace("/", "-")], lines 107 and 126. *)
Definition safe_keyword (keyword : pystr) : pystr :=
  replace_char 47%N 45%N (replace_char 32%N 95%N keyword).

(** The three names joined to [outputs_dir]. *)
Definition raw_data_name (keyword timestamp : pystr) : pystr :=
  safe_keyword keyword ++ u "_raw_data_" ++ timestamp ++ u ".json".

Definition taxonomy_name (keyword timestamp : pystr) : pystr :=
  safe_keyword keyword ++ u "_taxonomy_" ++ timestamp ++ u ".json".

Definition latest_name (keyword : pystr) : pystr :=
  safe_keyword keyword ++ u "_taxonomy_latest.json".

(** ["="*80], U+274C and U+2022. *)
Definition rule : pystr := List.repeat 61%N 80.
Definition cross : pystr := [10060%N].
Definition bullet : pystr := [8226%N].

(** [print(text)]: the text is put on the log of the run. What
    standard output makes of the log is [on_stdout]. *)
Definition print (text : pystr) : logged pystr unit := ([text], Ret tt).

(** How a run that prints ends on standard output: the first text of
    its log that standard output cannot encode raises
    [UnicodeEncodeError] at the [print] that was given it, and ends the
    run there; when there is none, the run ends as the log says. *)
Definition on_stdout {A : Type} (run : logged pystr A) : result A :=
  match find (fun text => negb (encodable text)) (fst run) with
  | Some text => Raise (unicode_encode_error text)
  | None => snd run
  end.

Section Summary.

Variable repr_other : pyval -> pystr.

Abbreviation shown := (py_str repr_other).

(** The body of the inner loop, line 169. *)
Definition print_example (example : pyval) : logged pystr unit :=
  name <~ lift (py_subscript example (u "name")) ;;
  description <~ lift (py_get example (u "description") (PStr (u "N/A"))) ;;
  description60 <~ lift (slice_to 60 description) ;;
  print (u "     - " ++ shown name ++ u ": " ++ shown description60
         ++ u "...").

(** The body of the loop over the categories, lines 159-169. *)
Definition print_category (ic : nat * pyval) : logged pystr unit :=
  let category := snd ic in
  examples <~ lift (py_get category (u "examples") (PList [])) ;;
  examples_count <~ lift (py_len examples) ;;
  subcategories <~ lift (py_get category (u "subcategories") (PList [])) ;;
  subcategories_count <~ lift (py_len subcategories) ;;
  name <~ lift (py_subscript category (u "name")) ;;
  _ <~ print (nl ++ str_of_nat (fst ic) ++ u ". " ++ shown name) ;;
  description <~ lift (py_subscript category (u "description")) ;;
  _ <~ print (u "   Description: " ++ shown description) ;;
  _ <~ print (u "   Subcategories: " ++ str_of_nat subcategories_count) ;;
  _ <~ print (u "   Examples: " ++ str_of_nat examples_count) ;;
  examples <~ lift (py_get category (u "examples") (PList [])) ;;
  examples3 <~ lift (slice_to 3 examples) ;;
  examples3 <~ lift (py_iter examples3) ;;
  for_each examples3 print_example.

(** Lines 172-175. *)
Definition print_key_trends (taxonomy : pydict) : logged pystr unit :=
  if dict_mem taxonomy (u "key_trends") then
    _ <~ print (nl ++ u "Key Trends:") ;;
    key_trends <~ lift (subscript taxonomy (u "key_trends")) ;;
    key_trends <~ lift (py_iter key_trends) ;;
    for_each key_trends
             (fun trend => print (u "  " ++ bullet ++ u " " ++ shown trend))
  else done tt.

(** Lines 178-183. *)
Definition print_insights (taxonomy : pydict) : logged pystr unit :=
  if dict_mem taxonomy (u "insights") then
    insights <~ lift (subscript taxonomy (u "insights")) ;;
    _ <~ print (nl ++ u "Insights:") ;;
    maturity <~ lift (py_get insights (u "maturity_level") (PStr (u "N/A"))) ;;
    _ <~ print (u "  Maturity: " ++ shown maturity) ;;
    has_gaps <~ lift (py_contains insights (u "ecosystem_gaps")) ;;
    if has_gaps : bool then
      gaps <~ lift (py_subscript insights (u "ecosystem_gaps")) ;;
      gaps_count <~ lift (py_len gaps) ;;
      print (u "  Gaps identified: " ++ str_of_nat gaps_count)
    else done tt
  else done tt.

(** [EcosystemMapper._print_summary]: the texts given to [print], in
    order, and the exception that ended the function if one did. *)
Definition _print_summary (taxonomy : pydict) : logged pystr unit :=
  _ <~ print (nl ++ rule) ;;
  _ <~ print (u "TAXONOMY SUMMARY") ;;
  _ <~ print rule ;;
  if dict_mem taxonomy (u "error") then
    error <~ lift (subscript taxonomy (u "error")) ;;
    print (nl ++ cross ++ u " Error: " ++ shown error)
  else
    _ <~ print (nl ++ u "Ecosystem: "
                ++ shown (dict_get_or taxonomy (u "ecosystem_name")
                                      (PStr (u "Unknown")))) ;;
    _ <~ print (nl ++ u "Overview: "
                ++ shown (dict_get_or taxonomy (u "overview")
                                      (PStr (u "N/A")))) ;;
    let categories := dict_get_or taxonomy (u "categories") (PList []) in
    categories_count <~ lift (py_len categories) ;;
    _ <~ print (nl ++ u "Categories (" ++ str_of_nat categories_count
                ++ u "):") ;;
    categories <~ lift (py_iter categories) ;;
    _ <~ for_each (enumerate categories 1) print_category ;;
    _ <~ print_key_trends taxonomy ;;
    _ <~ print_insights taxonomy ;;
    print (nl ++ rule).

End Summary.

(** A file written under [outputs_dir]: its name and the value dumped
    into it. *)
Inductive saved : Type :=
| Saved (name : pystr) (content : pyval).

(** The dict of a value that is one. *)
Definition the_dict (v : pyval) : pydict :=
  match v with
  | PDict d => d
  | _ => []
  end.

(** The dict literal of lines 109-114. *)
Definition raw_data (keyword timestamp : pystr) (github_data : list pydict)
           (web_data : list (pystr * list pydict)) : pyval :=
  PDict [(u "keyword", PStr keyword);
         (u "timestamp", PStr timestamp);
         (u "github_repositories", PList (List.map PDict github_data));
         (u "web_results",
          PDict (List.map (fun cr => (fst cr, PList (List.map PDict (snd cr))))
                          web_data))].

(** The three modules of the orchestrator. *)
Record mapper : Type := Mapper {
  github_collector : GitHubCollector.collector;
  tavily_searcher : TavilySearcher.searcher;
  taxonomy_analyzer : analyzer }.

(** The constructor of the analyzer, under the name of its class. *)
Definition TaxonomyAnalyzer := __init__.

(** [EcosystemMapper.__init__]: the three modules are built in this
    order, then [outputs_dir.mkdir(exist_ok=True)] is called. *)
Definition __init__ (getenv : pystr -> option pystr)
           (get_rate_limit : pystr -> result unit) (mkdir : result unit)
  : result mapper :=
  collector <- GitHubCollector.__init__ getenv get_rate_limit ;;
  searcher <- TavilySearcher.__init__ getenv ;;
  analyzer <- TaxonomyAnalyzer getenv ;;
  _ <- mkdir ;;
  Ret (Mapper collector searcher analyzer).

Section Mapper.

Variable str_upper : pystr -> pystr.
Variable repr_other : pyval -> pystr.
Variable json_loads : pystr -> result pyval.
Variable json_dumps : pyval -> pystr.
Variable chat_content : pystr -> pystr -> Z -> result pyval.
Variable client_search :
  pystr -> Z -> pystr -> list pystr -> list pystr -> result pyval.
Variable github_search :
  pystr -> pystr -> pystr
  -> result (list (result GitHubCollector.repository)).
Variable start_date : Z -> result pystr.
Variable is_GithubException : exn -> bool.

(** [open(outputs_dir / name, "w", encoding="utf-8")] and the [json.dump]
    into the file: done, or the exception of the file system. *)
Variable write_file : pystr -> result unit.

(** [datetime.now().strftime("%Y%m%d_%H%M%S")] at the two places it is
    evaluated, lines 106 and 125. *)
Variable raw_timestamp : pystr.
Variable taxonomy_timestamp : pystr.

Definition save (name : pystr) (content : pyval) : logged saved unit :=
  match write_file name with
  | Ret _ => ([Saved name content], Ret tt)
  | Raise e => ([], Raise e)
  end.

(** [EcosystemMapper._save_raw_data]. *)
Definition _save_raw_data (keyword : pystr) (github_data : list pydict)
           (web_data : list (pystr * list pydict)) : logged saved unit :=
  save (raw_data_name keyword raw_timestamp)
       (raw_data keyword raw_timestamp github_data web_data).

(** [EcosystemMapper._save_taxonomy]: the dated file, then the latest
    one. *)
Definition _save_taxonomy (keyword : pystr) (taxonomy : pydict)
  : logged saved unit :=
  _ <~ save (taxonomy_name keyword taxonomy_timestamp) (PDict taxonomy) ;;
  save (latest_name keyword) (PDict taxonomy).

(** [EcosystemMapper.map_ecosystem]: the files written, in order, and the
    taxonomy returned or the exception raised. What [create_taxonomy]
    returns is a dict on every path; [the_dict] names it. Of
    [_print_summary] what is kept here is how its lookups end: standard
    output is taken to show its lines. *)
Definition map_ecosystem (keyword : pystr) (max_github_repos : Z)
           (months_back : Z) (enrich save_raw : bool)
  : logged saved pydict :=
  github_data <~ lift (GitHubCollector.search_repositories
                         github_search start_date is_GithubException
                         keyword months_back max_github_repos 0) ;;
  web_data <~ lift (TavilySearcher.combine_searches client_search keyword) ;;
  _ <~ (if save_raw then _save_raw_data keyword github_data web_data
        else done tt) ;;
  taxonomy <~ lift (create_taxonomy str_upper repr_other json_loads
                                    chat_content keyword github_data
                                    web_data) ;;
  let taxonomy := the_dict taxonomy in
  taxonomy <~ (if (enrich && negb (dict_mem taxonomy (u "error")))%bool
               then lift (enrich_taxonomy json_loads json_dumps chat_content
                                          taxonomy)
               else done taxonomy) ;;
  _ <~ _save_taxonomy keyword taxonomy ;;
  _ <~ lift (snd (_print_summary repr_other taxonomy)) ;;
  done taxonomy.

End Mapper.

(** A file system that takes every file. *)
Definition writable : pystr -> result unit := fun _ => Ret tt.

End EcosystemMapper.

(** ** Sample data

    A concrete library and concrete inputs, on which the statements
    below are instantiated. *)

Module Sample.

(** [str.upper] on ASCII text. *)
Definition ascii_upper (s : pystr) : pystr :=
  List.map (fun c => if (N.leb 97 c && N.leb c 122)%bool then (c - 32)%N else c) s.

(** A [repr] for the values the samples never render. *)
Definition opaque_repr (v : pyval) : pystr := u "<" ++ type_name v ++ u ">".

(** A backend whose completion has the given content. *)
Definition answering (content : pyval) : pystr -> pystr -> Z -> result pyval :=
  fun _ _ _ => Ret content.

(** A backend whose call raises. *)
Definition failing (e : exn) : pystr -> pystr -> Z -> result pyval :=
  fun _ _ _ => Raise e.

Definition timeout_error : exn := Exn OtherException (u "Request timed out.").

(** A repository record as the collector builds it. *)
Definition repo (full_name : pystr) (stars : Z) : pydict :=
  [(u "name", PStr full_name);
   (u "full_name", PStr full_name);
   (u "description", PStr (u "A framework for building AI agents"));
   (u "url", PStr (u "https://example.com/" ++ full_name));
   (u "stars", PInt stars);
   (u "forks", PInt 0);
   (u "language", PStr (u "Python"));
   (u "topics", PList [PStr (u "ai"); PStr (u "agents"); PStr (u "llm")])].

(** A web result as the searcher builds it. *)
Definition web_result (title : pystr) : pydict :=
  [(u "title", PStr title);
   (u "url", PStr (u "https://example.com/article"));
   (u "content", PStr (u "Agentic AI refers to AI systems that can act autonomously..."));
   (u "score", PInt 1);
   (u "published_date", PStr [])].

(** Records numbered from [start], [n] of them. *)
Definition repos (start n : nat) : list pydict :=
  List.map (fun i => repo (u "org/repo-" ++ str_of_nat i) (Z.of_nat i)) (seq start n).

Definition web_results (n : nat) : list pydict :=
  List.map (fun i => web_result (u "Article " ++ str_of_nat i)) (seq 1 n).

(** The five records of the first end-to-end scenario. *)
Definition five_repos : list pydict :=
  [repo (u "a/one") 100; repo (u "b/two") 200; repo (u "c/three") 50;
   repo (u "d/four") 400; repo (u "e/five") 10].

(** A record without [full_name]. *)
Definition nameless_repo : pydict :=
  [(u "description", PStr (u "no name")); (u "stars", PInt 1)].

(** Thirty-one records, the last of which has no [full_name]. *)
Definition thirty_one_repos : list pydict := repos 1 30 ++ [nameless_repo].

(** A result set whose first category holds sixteen results. *)
Definition crowded_web : list (pystr * list pydict) :=
  [(u "general", web_results 16); (u "tools", web_results 2)].

(** A taxonomy with one category. *)
Definition taxonomy : pydict :=
  [(u "ecosystem_name", PStr (u "agentic AI"));
   (u "overview", PStr (u "Tools for building autonomous agents."));
   (u "categories",
    PList [PDict [(u "name", PStr (u "Frameworks"));
                  (u "description", PStr (u "Libraries for agent loops"));
                  (u "subcategories", PList [PStr (u "Planning"); PStr (u "Memory")]);
                  (u "examples",
                   PList [PDict [(u "name", PStr (u "agent-framework"));
                                 (u "description", PStr (u "A framework"));
                                 (u "url", PStr (u "https://example.com/agent-framework"));
                                 (u "type", PStr (u "open-source"))]]);
                  (u "relationships", PList [PStr (u "Built on LLM APIs")])]]);
   (u "key_trends", PList [PStr (u "Tool use")]);
   (u "emerging_areas", PList [PStr (u "Multi-agent systems")])].

(** [n] arrays inside one another, around an empty one. *)
Definition nested (n : nat) : pyval :=
  Nat.iter n (fun v => PList [v]) (PList []).

(** The taxonomy with one more key, which holds arrays nested deeper
    than the recursion limit of the interpreter. *)
Definition deep_taxonomy : pydict :=
  taxonomy ++ [(u "notes", nested 1000)].

(** An insights document. *)
Definition insights : pyval :=
  PDict [(u "maturity_level", PStr (u "emerging"));
         (u "maturity_analysis", PStr (u "Early but fast-moving"));
         (u "ecosystem_gaps", PList [PStr (u "Evaluation")])].

(** A record whose description is the given text. *)
Definition described (description : pystr) : pydict :=
  [(u "full_name", PStr (u "org/long"));
   (u "description", PStr description);
   (u "stars", PInt 7);
   (u "language", PNone);
   (u "topics", PList [])].

End Sample.

(** The value of a computation that returned. *)
Definition value_of {A : Type} (default : A) (r : result A) : A :=
  match r with
  | Ret a => a
  | Raise _ => default
  end.

(** ** A sample run

    The orchestrator on the sample services: one repository, one web
    result for each search, a backend that answers every call with the
    same content, the decoder and the serializer of this file. *)

Module RunSample.

Definition client :=
  TavilySearcher.answering
    (TavilySearcher.response
       [TavilySearcher.item (u "Agents") (PStr (u "Agentic AI ..."))]).

Definition github :=
  GitHubCollector.serving [Ret (GitHubCollector.sample 1)].

Definition clock := GitHubCollector.since (u "2025-01-01").

Definition github_data : list pydict :=
  value_of [] (GitHubCollector.search_repositories
                 github clock GitHubCollector.is_rate_limited
                 (u "agentic AI") 3 50 0).

Definition web_data : list (pystr * list pydict) :=
  value_of [] (TavilySearcher.combine_searches client (u "agentic AI")).

(** A web result whose content the service gave as [null]. *)
Definition null_client :=
  TavilySearcher.answering
    (TavilySearcher.response [TavilySearcher.item (u "Agents") PNone]).

Definition null_web_data : list (pystr * list pydict) :=
  value_of [] (TavilySearcher.combine_searches null_client (u "agentic AI")).

(** An object the parser lets through: it has [categories], a list, and
    the one category is a text. *)
Definition loose_taxonomy : pydict :=
  [(u "ecosystem_name", PStr (u "agentic AI"));
   (u "categories", PList [PStr (u "Frameworks")])].

Definition run (search : pystr -> Z -> pystr -> list pystr -> list pystr
                         -> result pyval)
           (content : pyval) (enrich save_raw : bool)
  : EcosystemMapper.logged EcosystemMapper.saved pydict :=
  EcosystemMapper.map_ecosystem
    Sample.ascii_upper Sample.opaque_repr Json.loads Json.text_of
    (Sample.answering content) search github clock
    GitHubCollector.is_rate_limited EcosystemMapper.writable
    (u "20250101_120000") (u "20250101_120500")
    (u "agentic AI") 50 3 enrich save_raw.

End RunSample.

(** ** Statements about the summary *)

(** The four lines of a repository, lines 109-112, given the texts its
    fields are shown as. *)
Definition repo_text (i : nat)
           (full_name stars description topics language : pystr) : pystr :=
  str_of_nat i ++ u ". " ++ full_name ++ u " (" ++ stars ++ star_glyph
  ++ u ")" ++ nl
  ++ u "   Description: " ++ description ++ nl
  ++ u "   Topics: " ++ topics ++ nl
  ++ u "   Language: " ++ language ++ nl.

(** The three lines of a web result, lines 120-122, given the texts its
    fields are shown as. *)
Definition result_text (i : nat) (title url content : pystr) : pystr :=
  str_of_nat i ++ u ". " ++ title ++ nl
  ++ u "   URL: " ++ url ++ nl
  ++ u "   Content: " ++ content ++ u "..." ++ nl.

(** [part] is what the first loop appends for the record [repo] under
    the number [i]: the record has the five keys, its topics can be
    sliced and joined, and the part shows the fields as [str] does. *)
Definition repo_rendered (repr_other : pyval -> pystr) (i : nat)
           (repo : pydict) (part : pystr) : Prop :=
  exists full_name stars description topics topics5 joined language,
    dict_get repo (u "full_name") = Some full_name /\
    dict_get repo (u "stars") = Some stars /\
    dict_get repo (u "description") = Some description /\
    dict_get repo (u "topics") = Some topics /\
    slice_to 5 topics = Ret topics5 /\
    str_join (u ", ") topics5 = Ret joined /\
    dict_get repo (u "language") = Some language /\
    part = repo_text i (py_str repr_other full_name)
                     (py_str repr_other stars)
                     (py_str repr_other description) joined
                     (py_str repr_other language).

(** A record with the types the collector gives its fields: a text, an
    integer, a text, a list of texts, and a text or [None]. *)
Definition typed_repo (repo : pydict) (full_name : pystr) (stars : Z)
           (description : pystr) (topics : list pystr)
           (language : option pystr) : Prop :=
  dict_get repo (u "full_name") = Some (PStr full_name) /\
  dict_get repo (u "stars") = Some (PInt stars) /\
  dict_get repo (u "description") = Some (PStr description) /\
  dict_get repo (u "topics") = Some (PList (List.map PStr topics)) /\
  dict_get repo (u "language")
  = Some (match language with Some l => PStr l | None => PNone end).

Definition language_text (language : option pystr) : pystr :=
  match language with Some l => l | None => u "None" end.

(** [part] is what the second loop appends for the result [r] under the
    number [i]. *)
Definition result_rendered (repr_other : pyval -> pystr) (i : nat)
           (r : pydict) (part : pystr) : Prop :=
  exists title url content shown,
    dict_get r (u "title") = Some title /\
    dict_get r (u "url") = Some url /\
    dict_get r (u "content") = Some content /\
    slice_to 200 content = Ret shown /\
    part = result_text i (py_str repr_other title) (py_str repr_other url)
                       (py_str repr_other shown).

(** A result whose three fields are texts. *)
Definition typed_result (r : pydict) (title url content : pystr) : Prop :=
  dict_get r (u "title") = Some (PStr title) /\
  dict_get r (u "url") = Some (PStr url) /\
  dict_get r (u "content") = Some (PStr content).

(** What the loop over one category appends: the header of the category,
    then one part for each of its first 15 results, in their order; a
    result whose fields are texts shows its title, its url and the first
    200 characters of its content followed by three dots. *)
Definition category_rendered (str_upper : pystr -> pystr)
  (repr_other : pyval -> pystr) (cr : pystr * list pydict) (ps : list pystr)
  : Prop :=
  exists rs,
    ps = (nl ++ u "=== WEB RESULTS: " ++ str_upper (fst cr) ++ u " ==="
          ++ nl) :: rs /\
    length rs = Nat.min 15 (length (snd cr)) /\
    (forall i r,
        i < 15 -> nth_error (snd cr) i = Some r ->
        result_rendered repr_other (S i) r (nth i rs []) /\
        forall title url content,
          typed_result r title url content ->
          nth i rs [] = result_text (S i) title url (firstn 200 content)).

(** Two categories with the same name and the same first 15 results. *)
Definition same_first_15 (cr cr' : pystr * list pydict) : Prop :=
  fst cr' = fst cr /\ firstn 15 (snd cr') = firstn 15 (snd cr).

(** What the loop over one category appends, counted: one header and
    one part for each of its first 15 results. *)
Definition category_counted (str_upper : pystr -> pystr)
  (cr : pystr * list pydict) (ps : list pystr) : Prop :=
  exists rs,
    ps = (nl ++ u "=== WEB RESULTS: " ++ str_upper (fst cr) ++ u " ==="
          ++ nl) :: rs /\
    length rs = Nat.min 15 (length (snd cr)).


(** ** Statements about the parser *)

(** The result of decoding is not a document: the decoder raised, or it
    gave a value that is not an object (an array, a number, a string, a
    boolean, null). *)
Definition not_a_document (r : result pyval) : Prop :=
  match r with
  | Ret (PDict _) => False
  | Ret _ => True
  | Raise e => is_Exception e = true
  end.

(** The run-time test for an ErrorResult: a dict with the key [error]. *)
Definition is_error_result (v : pyval) : bool :=
  match v with
  | PDict d => dict_mem d (u "error")
  | _ => false
  end.

(** The Taxonomy shape, as the OUTPUT FORMAT of the prompt describes
    it. *)
Definition is_str (v : pyval) : bool :=
  match v with PStr _ => true | _ => false end.

Definition str_field (d : pydict) (k : pystr) : bool :=
  match dict_get d k with Some (PStr _) => true | _ => false end.

Definition str_list_field (d : pydict) (k : pystr) : bool :=
  match dict_get d k with Some (PList l) => forallb is_str l | _ => false end.

Definition is_example (v : pyval) : bool :=
  match v with
  | PDict d =>
      str_field d (u "name") && str_field d (u "description")
      && str_field d (u "url") && str_field d (u "type")
  | _ => false
  end.

Definition is_category (v : pyval) : bool :=
  match v with
  | PDict d =>
      str_field d (u "name") && str_field d (u "description")
      && str_list_field d (u "subcategories")
      && match dict_get d (u "examples") with
         | Some (PList l) => forallb is_example l
         | _ => false
         end
      && str_list_field d (u "relationships")
  | _ => false
  end.

Definition is_taxonomy (d : pydict) : bool :=
  str_field d (u "ecosystem_name") && str_field d (u "overview")
  && match dict_get d (u "categories") with
     | Some (PList l) => forallb is_category l
     | _ => false
     end
  && str_list_field d (u "key_trends")
  && str_list_field d (u "emerging_areas").

(** ** Statements about the decoder *)

(** The values a taxonomy is made of: text, lists and objects (and the
    constants), the keys of an object being distinct. *)
Fixpoint distinct (ks : list pystr) : bool :=
  match ks with
  | [] => true
  | k :: rest =>
      negb (existsb (pystr_eqb k) rest) && distinct rest
  end.

Fixpoint textual (v : pyval) : bool :=
  match v with
  | PNone | PBool _ | PStr _ => true
  | PInt _ | PFloat _ => false
  | PList l => forallb textual l
  | PDict d =>
      distinct (List.map fst d) && forallb (fun kv => textual (snd kv)) d
  end.

(** Fuel that is enough to decode the text of a value. *)
Fixpoint weight (v : pyval) : nat :=
  match v with
  | PList l => S (list_sum (List.map (fun x => S (weight x)) l))
  | PDict d => S (list_sum (List.map (fun kv => S (weight (snd kv))) d))
  | _ => 1
  end.

(** How deep the arrays and objects of a value are nested. *)
Fixpoint nesting (v : pyval) : nat :=
  match v with
  | PList l => S (list_max (List.map nesting l))
  | PDict d => S (list_max (List.map (fun kv => nesting (snd kv)) d))
  | _ => 0
  end.

(** White space. *)
Definition blank (w : pystr) : bool := forallb Json.is_ws w.

(** [str_body s t]: the text [t], put between two quotes, is a string
    literal of the grammar for the text [s]. A character stands for
    itself unless it is a quote, a backslash or a control character; it
    can be written as a one-letter escape, when it has one, or as the
    escape [u] with four hexadecimal digits of either case; a character
    above U+FFFF can be written as the pair of such escapes for its two
    surrogates. (The one literal left out is an escape for a high
    surrogate that no escape for a low surrogate follows.) *)
Inductive str_body : pystr -> pystr -> Prop :=
| body_end : str_body [] []
| body_plain c s t :
    N.leb c 31 = false -> N.eqb c 34 = false -> N.eqb c 92 = false ->
    str_body s t -> str_body (c :: s) (c :: t)
| body_escape e c s t :
    Json.simple_escape e = Some c ->
    str_body s t -> str_body (c :: s) (92%N :: e :: t)
| body_unicode a b c d n s t :
    Json.hex4 a b c d = Some n -> Json.is_high_surrogate n = false ->
    str_body s t ->
    str_body (n :: s) (92%N :: 117%N :: a :: b :: c :: d :: t)
| body_pair a b c d a' b' c' d' hi lo s t :
    Json.hex4 a b c d = Some hi -> Json.is_high_surrogate hi = true ->
    Json.hex4 a' b' c' d' = Some lo -> Json.is_low_surrogate lo = true ->
    str_body s t ->
    str_body
      ((65536 + N.lor (N.shiftl (hi - 55296) 10) (lo - 56320))%N :: s)
      (92%N :: 117%N :: a :: b :: c :: d
       :: 92%N :: 117%N :: a' :: b' :: c' :: d' :: t).

(** [written v t]: [t] is a text of the grammar for the value [v], with
    any white space where the grammar allows it. [written_items v l t]:
    [t] is what follows the bracket that opens the array of [v] and then
    [l], up to the closing bracket; [written_members k v d t] likewise
    for the object whose first member is [k: v]. *)
Inductive written : pyval -> pystr -> Prop :=
| written_null : written PNone (u "null")
| written_true : written (PBool true) (u "true")
| written_false : written (PBool false) (u "false")
| written_str s t :
    str_body s t -> written (PStr s) (dq ++ t ++ dq)
| written_empty_list w :
    blank w = true -> written (PList []) (u "[" ++ w ++ u "]")
| written_list v l t :
    written_items v l t -> written (PList (v :: l)) (u "[" ++ t)
| written_empty_dict w :
    blank w = true -> written (PDict []) (u "{" ++ w ++ u "}")
| written_dict k v d t :
    written_members k v d t -> written (PDict ((k, v) :: d)) (u "{" ++ t)

with written_items : pyval -> list pyval -> pystr -> Prop :=
| items_last v t w1 w2 :
    blank w1 = true -> blank w2 = true -> written v t ->
    written_items v [] (w1 ++ t ++ w2 ++ u "]")
| items_more v v' l t w1 w2 ts :
    blank w1 = true -> blank w2 = true -> written v t ->
    written_items v' l ts ->
    written_items v (v' :: l) (w1 ++ t ++ w2 ++ u "," ++ ts)

with written_members : pystr -> pyval -> pydict -> pystr -> Prop :=
| members_last k v kt t w1 w2 w3 w4 :
    blank w1 = true -> blank w2 = true -> blank w3 = true ->
    blank w4 = true -> str_body k kt -> written v t ->
    written_members k v []
      (w1 ++ dq ++ kt ++ dq ++ w2 ++ u ":" ++ w3 ++ t ++ w4 ++ u "}")
| members_more k v k' v' d kt t w1 w2 w3 w4 ts :
    blank w1 = true -> blank w2 = true -> blank w3 = true ->
    blank w4 = true -> str_body k kt -> written v t ->
    written_members k' v' d ts ->
    written_members k v ((k', v') :: d)
      (w1 ++ dq ++ kt ++ dq ++ w2 ++ u ":" ++ w3 ++ t ++ w4 ++ u ","
       ++ ts).

(** A document: one value between white space. *)
Definition document (v : pyval) (raw : pystr) : Prop :=
  exists w1 t w2,
    blank w1 = true /\ blank w2 = true /\ written v t /\
    raw = w1 ++ t ++ w2.

Scheme written_mut := Minimality for written Sort Prop
  with written_items_mut := Minimality for written_items Sort Prop
  with written_members_mut := Minimality for written_members Sort Prop.

Combined Scheme written_mutind
  from written_mut, written_items_mut, written_members_mut.

(** The text opens with a quote, a bracket, a brace or the first letter
    of a constant. *)
Definition opens_value (s : pystr) : Prop :=
  match s with
  | c :: _ => In c [34; 91; 123; 110; 116; 102]%N
  | [] => False
  end.

(** With fuel for [v], the decoder reads [v] back from a text of it,
    whatever follows, when it has the levels [v] takes; it raises
    [RecursionError] when it has fewer. *)
Definition reads (v : pyval) (t : pystr) : Prop :=
  textual v = true ->
  forall fuel depth rest,
    weight v <= fuel ->
    (nesting v <= depth ->
     Json.scan_value fuel depth (t ++ rest) = Json.Scanned v rest)
    /\ (depth < nesting v ->
        exists what,
          Json.scan_value fuel depth (t ++ rest) = Json.Failed (Json.recursion_error what)).

Definition reads_items (v : pyval) (l : list pyval) (t : pystr) : Prop :=
  forallb textual (v :: l) = true ->
  forall fuel depth rest,
    list_sum (List.map (fun x => S (weight x)) (v :: l)) <= fuel ->
    exists s1,
      Json.skip_ws (t ++ rest) = s1 /\ opens_value s1 /\
      (list_max (List.map nesting (v :: l)) <= depth ->
       Json.scan_elements fuel depth s1 = Json.Scanned (v :: l) rest)
      /\ (depth < list_max (List.map nesting (v :: l)) ->
          exists what,
            Json.scan_elements fuel depth s1 = Json.Failed (Json.recursion_error what)).

Definition reads_members (k : pystr) (v : pyval) (d : pydict) (t : pystr)
  : Prop :=
  forallb (fun kv => textual (snd kv)) ((k, v) :: d) = true ->
  forall fuel depth rest,
    list_sum (List.map (fun kv => S (weight (snd kv))) ((k, v) :: d))
    <= fuel ->
    exists r,
      Json.skip_ws (t ++ rest) = 34%N :: r /\
      (list_max (List.map (fun kv => nesting (snd kv)) ((k, v) :: d))
       <= depth ->
       Json.scan_members fuel depth r = Json.Scanned ((k, v) :: d) rest)
      /\ (depth
          < list_max (List.map (fun kv => nesting (snd kv)) ((k, v) :: d)) ->
          exists what,
            Json.scan_members fuel depth r = Json.Failed (Json.recursion_error what)).

(** ** Statements about well-formed records *)

(** The value under [topics] can be sliced and joined: a text, or a list
    whose first five items are texts. *)
Definition topics_joinable (v : pyval) : bool :=
  match v with
  | PStr _ => true
  | PList l => forallb is_str (firstn 5 l)
  | _ => false
  end.

(** The record has what the f-string of a repository reads. *)
Definition repo_renders (repo : pydict) : bool :=
  dict_mem repo (u "full_name") && dict_mem repo (u "stars")
  && dict_mem repo (u "description")
  && match dict_get repo (u "topics") with
     | Some topics => topics_joinable topics
     | None => false
     end
  && dict_mem repo (u "language").

(** The value under [content] can be sliced. *)
Definition sliceable (v : pyval) : bool :=
  match v with
  | PStr _ | PList _ => true
  | _ => false
  end.

(** The record has what the f-string of a web result reads. *)
Definition result_renders (r : pydict) : bool :=
  dict_mem r (u "title") && dict_mem r (u "url")
  && match dict_get r (u "content") with
     | Some content => sliceable content
     | None => false
     end.

(** The records the two loops of the summary builder visit. *)
Definition summary_inputs_render (github_data : list pydict)
           (web_data : list (pystr * list pydict)) : bool :=
  forallb repo_renders (firstn 30 github_data)
  && forallb (fun cr => forallb result_renders (firstn 15 (snd cr))) web_data.

(** What a slice [v[:n]] keeps of a text or a list. *)
Definition trim (n : nat) (v : pyval) : pyval :=
  match v with
  | PStr s => PStr (firstn n s)
  | PList l => PList (firstn n l)
  | _ => v
  end.

(** The record with the value under [k], when there is one, cut to its
    first [n] items. *)
Definition trim_field (k : pystr) (n : nat) (d : pydict) : pydict :=
  match dict_get d k with
  | Some v => dict_set d k (trim n v)
  | None => d
  end.

(** The part of the collected data the two loops of the summary builder
    read: thirty repositories with five topics each, fifteen results a
    category with 200 characters of content each. *)
Definition visited_repos (github_data : list pydict) : list pydict :=
  List.map (trim_field (u "topics") 5) (firstn 30 github_data).

Definition visited_web (web_data : list (pystr * list pydict))
  : list (pystr * list pydict) :=
  List.map (fun cr => (fst cr,
                       List.map (trim_field (u "content") 200)
                                (firstn 15 (snd cr))))
           web_data.

(** The values [len] accepts. *)
Definition countable (v : pyval) : bool :=
  match v with
  | PStr _ | PList _ | PDict _ => true
  | _ => false
  end.

(** The one check the parser makes of a decoded value: it is an object,
    and what it has under [categories], if anything, has a length. *)
Definition passes_count (v : pyval) : bool :=
  match v with
  | PDict d =>
      match dict_get d (u "categories") with
      | Some c => countable c
      | None => true
      end
  | _ => false
  end.

(** ** Statements about the web searcher *)

Definition is_dict (v : pyval) : bool :=
  match v with PDict _ => true | _ => false end.

(** A record as [search] builds it: the five keys, in this order. *)
Definition is_search_record (r : pydict) : Prop :=
  exists title url content score published_date,
    r = [(u "title", title);
         (u "url", url);
         (u "content", content);
         (u "score", score);
         (u "published_date", published_date)].

(** ** Statements about the repository collector *)

(** A record as [search_repositories] builds it. *)
Definition is_repo_record (r : pydict) : Prop :=
  exists repo topics, r = GitHubCollector.repo_data repo topics.

(** The items are repositories whose topics can be fetched. *)
Definition fetched (items : list (result GitHubCollector.repository))
           (repos : list (GitHubCollector.repository * list pystr)) : Prop :=
  Forall2 (fun item rt =>
             item = Ret (fst rt)
             /\ GitHubCollector.get_topics (fst rt) = Ret (snd rt))
          items repos.

Definition records_of (repos : list (GitHubCollector.repository * list pystr))
  : list pydict :=
  List.map (fun rt => GitHubCollector.repo_data (fst rt) (snd rt)) repos.

(** ** Statements about the orchestrator *)

(** What [_print_summary] can read of the value under [insights]: an
    object whose [ecosystem_gaps], if it has any, has a length. *)
Definition insights_readable (taxonomy : pydict) : bool :=
  match dict_get taxonomy (u "insights") with
  | None => true
  | Some (PDict insights) =>
      match dict_get insights (u "ecosystem_gaps") with
      | Some gaps => countable gaps
      | None => true
      end
  | Some _ => false
  end.

(** The classes of the exceptions of subscripts, slices, lengths and
    method calls. *)
Definition is_lookup_error (e : exn) : bool :=
  match exn_cls e with
  | KeyError | TypeError | AttributeError => true
  | _ => false
  end.

(** The variable is set to a text that is not empty. *)
Definition is_set (getenv : pystr -> option pystr) (name : pystr) : bool :=
  match getenv name with
  | Some (_ :: _) => true
  | _ => false
  end.

Definition not_set (name : pystr) : exn :=
  Exn ValueError (name ++ u " environment variable not set").

(** An environment with the given variables, all set to one text. *)
Definition environment (names : list pystr) : pystr -> option pystr :=
  fun name => if existsb (pystr_eqb name) names then Some (u "secret")
              else None.

(** * Properties *)
Lemma pystr_eqb_eq a b : pystr_eqb a b = true <-> a = b.
Proof.
  unfold pystr_eqb. destruct (list_eq_dec N.eq_dec a b); split; congruence.
Qed.

Lemma pystr_eqb_refl a : pystr_eqb a a = true.
Proof. apply pystr_eqb_eq. reflexivity. Qed.

Lemma pystr_eqb_neq a b : a <> b -> pystr_eqb a b = false.
Proof.
  intros H. destruct (pystr_eqb a b) eqn:E; [|reflexivity].
  apply pystr_eqb_eq in E. contradiction.
Qed.

(** ** Loops *)

Lemma bind_ret_inv {A B : Type} (m : result A) (f : A -> result B) (b : B) :
  bind m f = Ret b -> exists a, m = Ret a /\ f a = Ret b.
Proof.
  destruct m as [a|e]; simpl; intros H; [|discriminate].
  exists a. split; [reflexivity|exact H].
Qed.

Lemma mapM_ret_Forall2 {A B : Type} (f : A -> result B) (xs : list A) :
  forall ys, mapM f xs = Ret ys -> Forall2 (fun x y => f x = Ret y) xs ys.
Proof.
  induction xs as [|x xs IH]; simpl; intros ys H.
  - injection H as <-. constructor.
  - apply bind_ret_inv in H. destruct H as (y & Hy & H).
    apply bind_ret_inv in H. destruct H as (ys' & Hys & H).
    injection H as <-. constructor; [exact Hy | apply IH; exact Hys].
Qed.

Lemma Forall2_mapM_ret {A B : Type} (f : A -> result B) (xs : list A) ys :
  Forall2 (fun x y => f x = Ret y) xs ys -> mapM f xs = Ret ys.
Proof.
  induction 1 as [|x y xs ys Hxy _ IH]; simpl; [reflexivity|].
  rewrite Hxy. simpl. rewrite IH. reflexivity.
Qed.

Lemma mapM_length {A B : Type} (f : A -> result B) (xs : list A) ys :
  mapM f xs = Ret ys -> length ys = length xs.
Proof.
  intros H. apply mapM_ret_Forall2 in H.
  symmetry. eapply Forall2_length; eassumption.
Qed.

Lemma mapM_nth {A B : Type} (f : A -> result B) (xs : list A) ys i x d :
  mapM f xs = Ret ys -> nth_error xs i = Some x -> f x = Ret (nth i ys d).
Proof.
  intros H. apply mapM_ret_Forall2 in H. revert i.
  induction H as [|x0 y xs ys Hxy _ IH]; intros [|i] Hi; simpl in *;
    try discriminate.
  - injection Hi as <-. exact Hxy.
  - apply IH. exact Hi.
Qed.

Lemma enumerate_length {A : Type} (xs : list A) start :
  length (enumerate xs start) = length xs.
Proof.
  revert start. induction xs as [|x xs IH]; intros start; simpl;
    [reflexivity | rewrite IH; reflexivity].
Qed.

Lemma enumerate_nth_error {A : Type} (xs : list A) start i x :
  nth_error xs i = Some x ->
  nth_error (enumerate xs start) i = Some (start + i, x).
Proof.
  revert start i. induction xs as [|x0 xs IH]; intros start [|i] H;
    simpl in *; try discriminate.
  - injection H as <-. rewrite Nat.add_0_r. reflexivity.
  - rewrite (IH (S start) i H). f_equal. f_equal. lia.
Qed.

Lemma firstn_app_exact {A : Type} n (l extra : list A) :
  n <= length l -> firstn n (firstn n l ++ extra) = firstn n l.
Proof.
  intros H. rewrite firstn_app.
  rewrite firstn_firstn, Nat.min_id.
  rewrite length_firstn, Nat.min_l by exact H.
  rewrite Nat.sub_diag. simpl. apply app_nil_r.
Qed.

Lemma subscript_ret_inv (d : pydict) k v :
  subscript d k = Ret v -> dict_get d k = Some v.
Proof.
  unfold subscript. destruct (dict_get d k); intros H;
    [injection H as <-; reflexivity | discriminate].
Qed.

Lemma join_items_texts i (ts : list pystr) :
  join_items i (List.map PStr ts) = Ret ts.
Proof.
  revert i. induction ts as [|t ts IH]; intros i; simpl; [reflexivity|].
  rewrite IH. reflexivity.
Qed.

Section SummaryFacts.

Variable str_upper : pystr -> pystr.
Variable repr_other : pyval -> pystr.

Abbreviation summary := (_prepare_data_summary str_upper repr_other).
Abbreviation render1 := (render_repo repr_other).
Abbreviation render2 := (render_result repr_other).

(** The summary is a function of the first 30 records only. *)
Lemma repo_parts_firstn (github_data extra : list pydict) :
  30 <= length github_data ->
  repo_parts repr_other (firstn 30 github_data ++ extra)
  = repo_parts repr_other github_data.
Proof.
  intros H. unfold repo_parts. rewrite firstn_app_exact by exact H.
  reflexivity.
Qed.

Lemma repo_parts_same (github_data github_data' : list pydict) :
  firstn 30 github_data' = firstn 30 github_data ->
  repo_parts repr_other github_data' = repo_parts repr_other github_data.
Proof. intros H. unfold repo_parts. rewrite H. reflexivity. Qed.

Lemma summary_inv github_data web_data text :
  summary github_data web_data = Ret text ->
  exists rp wp,
    repo_parts repr_other github_data = Ret rp /\
    web_parts str_upper repr_other web_data = Ret wp /\
    text = join nl (github_header :: rp ++ wp).
Proof.
  unfold _prepare_data_summary, summary_parts. intros H.
  apply bind_ret_inv in H. destruct H as (parts & H & Ht).
  apply bind_ret_inv in H. destruct H as (rp & Hrp & H).
  apply bind_ret_inv in H. destruct H as (wp & Hwp & H).
  injection H as <-. injection Ht as <-.
  exists rp, wp. repeat split; assumption.
Qed.

(** What a rendered repository is made of. *)
Lemma render_repo_inv i (repo : pydict) part :
  render1 i repo = Ret part -> repo_rendered repr_other i repo part.
Proof.
  unfold render_repo. intros H.
  apply bind_ret_inv in H. destruct H as (full_name & Hf & H).
  apply bind_ret_inv in H. destruct H as (stars & Hs & H).
  apply bind_ret_inv in H. destruct H as (description & Hd & H).
  apply bind_ret_inv in H. destruct H as (topics & Ht & H).
  apply bind_ret_inv in H. destruct H as (topics5 & Ht5 & H).
  apply bind_ret_inv in H. destruct H as (joined & Hj & H).
  apply bind_ret_inv in H. destruct H as (language & Hl & H).
  injection H as <-.
  exists full_name, stars, description, topics, topics5, joined, language.
  repeat split; try (apply subscript_ret_inv; assumption); assumption.
Qed.

(** On a record with the types of the collector the part shows the
    fields themselves. *)
Lemma repo_rendered_typed i (repo : pydict) part
      full_name stars description topics language :
  repo_rendered repr_other i repo part ->
  typed_repo repo full_name stars description topics language ->
  part = repo_text i full_name (str_of_Z stars) description
                   (join (u ", ") (firstn 5 topics))
                   (language_text language).
Proof.
  intros (fn & st & de & tp & tp5 & joined & la
          & Hf & Hs & Hd & Ht & Ht5 & Hj & Hl & ->)
         (Tf & Ts & Td & Tt & Tl).
  rewrite Tf in Hf. injection Hf as <-.
  rewrite Ts in Hs. injection Hs as <-.
  rewrite Td in Hd. injection Hd as <-.
  rewrite Tt in Ht. injection Ht as <-.
  rewrite Tl in Hl. injection Hl as <-.
  assert (E : tp5 = PList (List.map PStr (firstn 5 topics))).
  { rewrite <- firstn_map. cbn [slice_to] in Ht5. congruence. }
  subst tp5. cbn [str_join] in Hj.
  rewrite join_items_texts in Hj. cbn [bind] in Hj. injection Hj as <-.
  destruct language; reflexivity.
Qed.

(** The parts of the first loop, one by one. *)
Lemma repo_parts_nth github_data rp i repo :
  repo_parts repr_other github_data = Ret rp ->
  i < 30 -> nth_error github_data i = Some repo ->
  repo_rendered repr_other (S i) repo (nth i rp []).
Proof.
  intros Hrp Hi Hnth. unfold repo_parts in Hrp.
  assert (Hf : nth_error (firstn 30 github_data) i = Some repo).
  { rewrite nth_error_firstn.
    destruct (Nat.ltb_spec i 30); [exact Hnth | lia]. }
  apply (enumerate_nth_error _ 1) in Hf.
  apply render_repo_inv.
  exact (@mapM_nth _ _ _ _ rp i (1 + i, repo) [] Hrp Hf).
Qed.

Lemma repo_parts_length github_data rp :
  repo_parts repr_other github_data = Ret rp ->
  length rp = Nat.min 30 (length github_data).
Proof.
  unfold repo_parts. intros Hrp. apply mapM_length in Hrp.
  rewrite Hrp, enumerate_length, length_firstn. reflexivity.
Qed.


End SummaryFacts.


Section WebFacts.

Variable str_upper : pystr -> pystr.
Variable repr_other : pyval -> pystr.

Abbreviation render2' := (render_result repr_other).
Abbreviation shown_str := (py_str repr_other).
Abbreviation summary1 := (_prepare_data_summary str_upper repr_other).

(** What a rendered web result is made of. *)
Lemma render_result_inv i (r : pydict) line :
  render2' i r = Ret line ->
  exists title url content shown,
    dict_get r (u "title") = Some title /\
    dict_get r (u "url") = Some url /\
    dict_get r (u "content") = Some content /\
    slice_to 200 content = Ret shown /\
    line = str_of_nat i ++ u ". " ++ shown_str title ++ nl
           ++ u "   URL: " ++ shown_str url ++ nl
           ++ u "   Content: " ++ shown_str shown ++ u "..." ++ nl.
Proof.
  unfold render_result. intros H.
  apply bind_ret_inv in H. destruct H as (title & Ht & H).
  apply bind_ret_inv in H. destruct H as (url & Hu & H).
  apply bind_ret_inv in H. destruct H as (content & Hc & H).
  apply bind_ret_inv in H. destruct H as (shown & Hs & H).
  injection H as <-.
  exists title, url, content, shown.
  repeat split; try (apply subscript_ret_inv; assumption); assumption.
Qed.

Lemma render_result_rendered i (r : pydict) line :
  render2' i r = Ret line -> result_rendered repr_other i r line.
Proof.
  intros H. apply render_result_inv in H.
  destruct H as (title & url & content & shown & Ht & Hu & Hc & Hs & ->).
  exists title, url, content, shown. repeat split; assumption.
Qed.

Lemma result_rendered_typed i (r : pydict) part title url content :
  result_rendered repr_other i r part ->
  typed_result r title url content ->
  part = result_text i title url (firstn 200 content).
Proof.
  intros (t & l & c & shown & Ht & Hu & Hc & Hs & ->) (Tt & Tu & Tc).
  rewrite Tt in Ht. injection Ht as <-.
  rewrite Tu in Hu. injection Hu as <-.
  rewrite Tc in Hc. injection Hc as <-.
  assert (E : shown = PStr (firstn 200 content))
    by (cbn [slice_to] in Hs; congruence).
  subst shown. reflexivity.
Qed.

Lemma category_parts_firstn (c : pystr) (results extra : list pydict) :
  15 <= length results ->
  category_parts str_upper repr_other (c, firstn 15 results ++ extra)
  = category_parts str_upper repr_other (c, results).
Proof.
  intros H. unfold category_parts. cbn [fst snd].
  rewrite firstn_app_exact by exact H. reflexivity.
Qed.

Lemma category_parts_same cr cr' :
  same_first_15 cr cr' ->
  category_parts str_upper repr_other cr'
  = category_parts str_upper repr_other cr.
Proof.
  intros [Hc Hr]. unfold category_parts. rewrite Hc, Hr. reflexivity.
Qed.

Lemma web_parts_same web_data web_data' :
  Forall2 same_first_15 web_data web_data' ->
  web_parts str_upper repr_other web_data'
  = web_parts str_upper repr_other web_data.
Proof.
  intros H. unfold web_parts. f_equal.
  induction H as [|cr cr' web web' Hcr _ IH]; [reflexivity|].
  cbn [mapM]. rewrite (category_parts_same Hcr), IH. reflexivity.
Qed.

Lemma category_parts_rendered cr ps :
  category_parts str_upper repr_other cr = Ret ps ->
  category_rendered str_upper repr_other cr ps.
Proof.
  destruct cr as [c results]. intros H.
  unfold category_parts in H. cbn [fst snd] in H.
  apply bind_ret_inv in H. destruct H as (rs & Hrs & H).
  injection H as <-. exists rs. cbn [fst snd].
  assert (Hlen : length rs = Nat.min 15 (length results)).
  { apply mapM_length in Hrs.
    rewrite Hrs, enumerate_length, length_firstn. reflexivity. }
  split; [reflexivity|]. split; [exact Hlen|].
  intros i r Hi Hnth.
  assert (Hf : nth_error (firstn 15 results) i = Some r).
  { rewrite nth_error_firstn.
    destruct (Nat.ltb_spec i 15); [exact Hnth | lia]. }
  apply (enumerate_nth_error _ 1) in Hf.
  pose proof (@mapM_nth _ _ _ _ rs i (1 + i, r) [] Hrs Hf) as Hline.
  cbn [fst snd] in Hline. apply render_result_rendered in Hline.
  split; [exact Hline|].
  intros title url content Htyped.
  exact (result_rendered_typed Hline Htyped).
Qed.

Lemma category_parts_counted cr ps :
  category_parts str_upper repr_other cr = Ret ps ->
  category_counted str_upper cr ps.
Proof.
  intros H. apply category_parts_rendered in H.
  destruct H as (rs & Hps & Hlen & _). exists rs. split; assumption.
Qed.

(** What the second loop appends, category by category. *)
Lemma web_parts_inv (web_data : list (pystr * list pydict)) wp :
  web_parts str_upper repr_other web_data = Ret wp ->
  exists pss,
    mapM (category_parts str_upper repr_other) web_data = Ret pss /\
    wp = concat pss.
Proof.
  unfold web_parts. intros H.
  apply bind_ret_inv in H. destruct H as (pss & Hpss & H).
  injection H as <-. exists pss. split; [exact Hpss | reflexivity].
Qed.

Lemma web_parts_rendered (web_data : list (pystr * list pydict)) pss :
  mapM (category_parts str_upper repr_other) web_data = Ret pss ->
  Forall2 (category_rendered str_upper repr_other) web_data pss.
Proof.
  intros Hpss. apply mapM_ret_Forall2 in Hpss.
  induction Hpss as [|cr ps web pss Hcr _ IH].
  - constructor.
  - constructor; [apply category_parts_rendered; exact Hcr | exact IH].
Qed.


End WebFacts.


(** ** The parser *)

Section ParserFacts.

Variable str_upper : pystr -> pystr.
Variable repr_other : pyval -> pystr.
Variable json_loads : pystr -> result pyval.
Variable chat_content : pystr -> pystr -> Z -> result pyval.

Abbreviation summary' := (_prepare_data_summary str_upper repr_other).
Abbreviation create :=
  (create_taxonomy str_upper repr_other json_loads chat_content).
Abbreviation parse := (parse_taxonomy json_loads).
Abbreviation handlers := (create_handlers repr_other).

(** [create_taxonomy] once the summary is built. *)
Lemma create_after_summary keyword github_data web_data text :
  summary' github_data web_data = Ret text ->
  create keyword github_data web_data =
  match chat_content taxonomy_system
                     (_build_taxonomy_prompt keyword text) 4000 with
  | Raise e => handlers None e
  | Ret result_ =>
      match parse result_ with
      | Ret taxonomy => Ret taxonomy
      | Raise e => handlers (Some result_) e
      end
  end.
Proof. intros H. unfold create_taxonomy. rewrite H. reflexivity. Qed.

(** An exception of the summary leaves [create_taxonomy]. *)
Lemma create_summary_raises keyword github_data web_data e :
  summary' github_data web_data = Raise e ->
  create keyword github_data web_data = Raise e.
Proof. intros H. unfold create_taxonomy. rewrite H. reflexivity. Qed.

(** Only a dict passes the [print] of line 85. *)
Lemma categories_count_ret_dict v n :
  categories_count v = Ret n -> exists d, v = PDict d.
Proof.
  destruct v; simpl; intros H; try discriminate. eexists. reflexivity.
Qed.

Lemma categories_count_raises_exception v e :
  categories_count v = Raise e ->
  is_Exception e = true /\ is_JSONDecodeError e = false.
Proof.
  destruct v as [| | | | | |d]; simpl; intros H;
    try (injection H as <-; split; reflexivity).
  destruct (dict_get d (u "categories")) as [[| | | | | |]|]; simpl in H;
    try discriminate; injection H as <-; split; reflexivity.
Qed.

(** The first handler on a text that standard output can encode, and on
    one it cannot. *)
Lemma create_parse_failure keyword github_data web_data text raw e :
  summary' github_data web_data = Ret text ->
  chat_content taxonomy_system
               (_build_taxonomy_prompt keyword text) 4000 = Ret (PStr raw) ->
  json_loads raw = Raise e ->
  is_JSONDecodeError e = true ->
  create keyword github_data web_data
  = if encodable raw
    then Ret (PDict [(u "error", PStr (u "Failed to parse taxonomy"));
                     (u "raw_response", PStr raw)])
    else Raise (unicode_encode_error raw).
Proof.
  intros Hs Hc Hl He.
  rewrite (create_after_summary keyword _ _ Hs), Hc.
  unfold parse_taxonomy, loads_content. rewrite Hl. cbn [bind].
  unfold create_handlers. rewrite He. cbn [py_str]. unfold stdout_write.
  destruct (encodable raw); reflexivity.
Qed.

(** C3. The code on a text that does not parse. When the backend gives a
    text that standard output can encode and decoding it raises a
    JSONDecodeError, [create_taxonomy] returns the dict with the fixed
    tag [Failed to parse taxonomy] under [error] and the text itself
    under [raw_response]; so it does on the literal [not json at all],
    which the decoder of this file refuses. On a text that holds a
    surrogate code point the [print] of line 91 raises
    UnicodeEncodeError inside the handler, and that exception leaves
    [create_taxonomy]: nothing is returned for the text [not json ]
    followed by U+D800. *)
Theorem C3_parse_failure_print_of_raw_text_can_raise :
  (forall keyword github_data web_data text raw e,
     summary' github_data web_data = Ret text ->
     chat_content taxonomy_system
                  (_build_taxonomy_prompt keyword text) 4000 = Ret (PStr raw) ->
     json_loads raw = Raise e ->
     is_JSONDecodeError e = true ->
     (encodable raw = true ->
      create keyword github_data web_data =
      Ret (PDict [(u "error", PStr (u "Failed to parse taxonomy"));
                  (u "raw_response", PStr raw)]))
     /\ (encodable raw = false ->
         create keyword github_data web_data
         = Raise (unicode_encode_error raw)))
  /\ Json.loads (u "not json at all") = Raise Json.decode_error
  /\ Json.loads (u "not json " ++ [55296%N]) = Raise Json.decode_error
  /\ create_taxonomy Sample.ascii_upper Sample.opaque_repr Json.loads
       (Sample.answering (PStr (u "not json " ++ [55296%N])))
       (u "agentic AI") Sample.five_repos []
     = Raise (Exn UnicodeEncodeError
                  (u "'utf-8' codec can't encode character '"
                   ++ backslash
                   ++ u "ud800' in position 9: surrogates not allowed")).
Proof.
  split; [|split; [|split]].
  - intros keyword github_data web_data text raw e Hs Hc Hl He.
    rewrite (create_parse_failure _ _ Hs Hc Hl He).
    split; intros ->; reflexivity.
  - vm_compute. reflexivity.
  - vm_compute. reflexivity.
  - vm_compute. reflexivity.
Qed.

(** C2. The code on a text that does not decode to a document (decoding
    raises, or gives an array, a number, a string, a boolean or null).
    [create_taxonomy] returns a dict with the key [error], and never the
    decoded value, unless decoding raised a JSONDecodeError on a text
    that standard output cannot encode: then the [print] of line 91
    raises UnicodeEncodeError and no ErrorResult is returned, as on the
    text [not json ] followed by U+D800. *)
Theorem C2_non_document_print_of_raw_text_can_raise :
  (forall keyword github_data web_data text raw,
     summary' github_data web_data = Ret text ->
     chat_content taxonomy_system
                  (_build_taxonomy_prompt keyword text) 4000 = Ret (PStr raw) ->
     not_a_document (json_loads raw) ->
     (forall e, json_loads raw = Raise e -> is_JSONDecodeError e = true ->
                encodable raw = true) ->
     exists d,
       create keyword github_data web_data = Ret (PDict d) /\
       dict_mem d (u "error") = true /\
       (forall v, json_loads raw = Ret v ->
                  create keyword github_data web_data <> Ret v))
  /\ not_a_document (Json.loads (u "not json " ++ [55296%N]))
  /\ (forall v,
        create_taxonomy Sample.ascii_upper Sample.opaque_repr Json.loads
          (Sample.answering (PStr (u "not json " ++ [55296%N])))
          (u "agentic AI") Sample.five_repos []
        <> Ret v).
Proof.
  split; [|split].
  - intros keyword github_data web_data text raw Hs Hc Hn Henc.
    destruct (json_loads raw) as [v|e] eqn:Hl.
    + rewrite (create_after_summary keyword _ _ Hs), Hc.
      unfold parse_taxonomy, loads_content. rewrite Hl. cbn [bind].
      destruct v; try contradiction; simpl;
        (eexists; split; [reflexivity|]; split; [reflexivity|];
         intros v Hv; injection Hv as <-; discriminate).
    + destruct (is_JSONDecodeError e) eqn:He.
      * rewrite (create_parse_failure _ _ Hs Hc Hl He).
        rewrite (Henc e eq_refl He).
        eexists; split; [reflexivity|]; split; [reflexivity|].
        intros v Hv; discriminate.
      * rewrite (create_after_summary keyword _ _ Hs), Hc.
        unfold parse_taxonomy, loads_content. rewrite Hl. cbn [bind].
        unfold create_handlers. rewrite He.
        simpl in Hn. rewrite Hn.
        eexists; split; [reflexivity|]; split; [reflexivity|].
        intros v Hv; discriminate.
  - vm_compute. reflexivity.
  - intros v H. vm_compute in H. discriminate.
Qed.


(** A text that decodes to a document of the Taxonomy shape: the
    document is returned as it is. *)
Lemma create_returns_decoded_taxonomy :
  forall keyword github_data web_data text raw d,
    summary' github_data web_data = Ret text ->
    chat_content taxonomy_system
                 (_build_taxonomy_prompt keyword text) 4000 = Ret (PStr raw) ->
    json_loads raw = Ret (PDict d) ->
    is_taxonomy d = true ->
    create keyword github_data web_data = Ret (PDict d)
    /\ exists categories,
         dict_get d (u "categories") = Some (PList categories)
         /\ forallb is_category categories = true
         /\ categories_count (PDict d) = Ret (length categories).
Proof.
  intros keyword github_data web_data text raw d Hs Hc Hl Ht.
  unfold is_taxonomy in Ht.
  destruct (dict_get d (u "categories")) as [[| | | | |cats|]|] eqn:Hcats;
    try (rewrite !andb_false_r in Ht; simpl in Ht; discriminate).
  assert (Hcount : categories_count (PDict d) = Ret (length cats)).
  { simpl. rewrite Hcats. reflexivity. }
  split.
  - rewrite (create_after_summary keyword _ _ Hs), Hc.
    unfold parse_taxonomy, loads_content. rewrite Hl. cbn [bind].
    rewrite Hcount. reflexivity.
  - exists cats. repeat split; [|exact Hcount].
    apply andb_prop in Ht. destruct Ht as [Ht _].
    apply andb_prop in Ht. destruct Ht as [Ht _].
    apply andb_prop in Ht. destruct Ht as [_ Ht]. exact Ht.
Qed.

(** C10. The summary is built before the [try]: an exception it raises
    leaves [create_taxonomy]; a repository record without [full_name],
    or a web result without [url], makes [create_taxonomy] raise a
    KeyError, whatever the backend does; and whenever [create_taxonomy]
    returns, the summary was built. *)
Theorem C10_summary_failure_escapes_create_taxonomy :
  (forall keyword github_data web_data e,
     summary' github_data web_data = Raise e ->
     create keyword github_data web_data = Raise e)
  /\ (forall keyword web_data,
        create keyword [Sample.nameless_repo] web_data
        = Raise (Exn KeyError (u "'full_name'")))
  /\ (forall keyword,
        create keyword [] [(u "general", [[(u "title", PStr (u "t"))]])]
        = Raise (Exn KeyError (u "'url'")))
  /\ (forall keyword github_data web_data v,
        create keyword github_data web_data = Ret v ->
        exists text, summary' github_data web_data = Ret text).
Proof.
  split; [|split; [|split]].
  - intros. apply create_summary_raises. assumption.
  - intros. apply create_summary_raises. reflexivity.
  - intros. apply create_summary_raises. reflexivity.
  - intros keyword github_data web_data v H.
    destruct (summary' github_data web_data) as [text|e] eqn:Hs.
    + exists text. reflexivity.
    + rewrite (create_summary_raises keyword _ _ Hs) in H. discriminate.
Qed.

(** The leniency of the parser: an object is returned as it is, also
    when it has none of the keys of a taxonomy. *)
Lemma create_accepts_sparse_document keyword github_data web_data text raw :
  summary' github_data web_data = Ret text ->
  chat_content taxonomy_system
               (_build_taxonomy_prompt keyword text) 4000 = Ret (PStr raw) ->
  json_loads raw = Ret (PDict []) ->
  create keyword github_data web_data = Ret (PDict []).
Proof.
  intros Hs Hc Hl. rewrite (create_after_summary keyword _ _ Hs), Hc.
  unfold parse_taxonomy, loads_content. rewrite Hl. reflexivity.
Qed.

(** A text that decodes to an array is refused by the second handler:
    the error is the AttributeError of line 85, and the text is not
    attached. *)
Lemma create_array_error keyword github_data web_data text raw l :
  summary' github_data web_data = Ret text ->
  chat_content taxonomy_system
               (_build_taxonomy_prompt keyword text) 4000 = Ret (PStr raw) ->
  json_loads raw = Ret (PList l) ->
  create keyword github_data web_data
  = Ret (PDict [(u "error",
                 PStr (u "'list' object has no attribute 'get'"))]).
Proof.
  intros Hs Hc Hl. rewrite (create_after_summary keyword _ _ Hs), Hc.
  unfold parse_taxonomy, loads_content. rewrite Hl. reflexivity.
Qed.

(** A JSONDecodeError raised by the call of the backend itself reaches
    the first handler while [result] is not assigned: the handler raises
    UnboundLocalError, which leaves [create_taxonomy]. *)
Lemma create_backend_decode_error keyword github_data web_data text e :
  summary' github_data web_data = Ret text ->
  chat_content taxonomy_system
               (_build_taxonomy_prompt keyword text) 4000 = Raise e ->
  is_JSONDecodeError e = true ->
  create keyword github_data web_data = Raise unbound_result.
Proof.
  intros Hs Hc He. rewrite (create_after_summary keyword _ _ Hs), Hc.
  unfold create_handlers. rewrite He. reflexivity.
Qed.

End ParserFacts.

(** A missing credential is refused when the analyzer is built, before
    any call of [create_taxonomy]. *)
Lemma init_without_key (getenv : pystr -> option pystr) :
  getenv (u "OPENROUTER_API_KEY") = None ->
  __init__ getenv
  = Raise (Exn ValueError
               (u "OPENROUTER_API_KEY environment variable not set")).
Proof. intros H. unfold __init__. rewrite H. reflexivity. Qed.

(** The parser on the sample data, with the decoder of this file. *)

Lemma C3_parse_failure_witness :
  (encodable (u "not json at all") = true ->
   create_taxonomy Sample.ascii_upper Sample.opaque_repr Json.loads
     (Sample.answering (PStr (u "not json at all")))
     (u "agentic AI") Sample.five_repos []
   = Ret (PDict [(u "error", PStr (u "Failed to parse taxonomy"));
                 (u "raw_response", PStr (u "not json at all"))]))
  /\ (encodable (u "not json at all") = false ->
      create_taxonomy Sample.ascii_upper Sample.opaque_repr Json.loads
        (Sample.answering (PStr (u "not json at all")))
        (u "agentic AI") Sample.five_repos []
      = Raise (unicode_encode_error (u "not json at all"))).
Proof.
  apply (proj1 (C3_parse_failure_print_of_raw_text_can_raise
                  Sample.ascii_upper Sample.opaque_repr Json.loads
                  (Sample.answering (PStr (u "not json at all")))))
    with (text := value_of [] (_prepare_data_summary
                    Sample.ascii_upper Sample.opaque_repr
                    Sample.five_repos []))
         (e := Json.decode_error);
    vm_compute; reflexivity.
Defined.

Lemma C2_non_document_witness :
  exists d,
    create_taxonomy Sample.ascii_upper Sample.opaque_repr Json.loads
      (Sample.answering (PStr (u "[1, 2]")))
      (u "agentic AI") Sample.five_repos [] = Ret (PDict d)
    /\ dict_mem d (u "error") = true
    /\ (forall v, Json.loads (u "[1, 2]") = Ret v ->
          create_taxonomy Sample.ascii_upper Sample.opaque_repr Json.loads
            (Sample.answering (PStr (u "[1, 2]")))
            (u "agentic AI") Sample.five_repos [] <> Ret v).
Proof.
  apply (proj1 (C2_non_document_print_of_raw_text_can_raise
                  Sample.ascii_upper Sample.opaque_repr Json.loads
                  (Sample.answering (PStr (u "[1, 2]")))))
    with (text := value_of [] (_prepare_data_summary
                    Sample.ascii_upper Sample.opaque_repr
                    Sample.five_repos []));
    [vm_compute; reflexivity | vm_compute; reflexivity | vm_compute; exact I
     | intros e H; vm_compute in H; discriminate].
Defined.



Lemma C10_summary_failure_witness :
  create_taxonomy Sample.ascii_upper Sample.opaque_repr Json.loads
    (Sample.answering (PStr (Json.text_of (PDict Sample.taxonomy))))
    (u "agentic AI") (Sample.repos 1 3 ++ [Sample.nameless_repo]) []
  = Raise (Exn KeyError (u "'full_name'")).
Proof.
  apply (proj1 (C10_summary_failure_escapes_create_taxonomy
                  Sample.ascii_upper Sample.opaque_repr Json.loads
                  (Sample.answering
                     (PStr (Json.text_of (PDict Sample.taxonomy)))))).
  vm_compute. reflexivity.
Defined.

(** ** The enrichment merger *)

Lemma dict_set_fresh (d : pydict) k v :
  dict_mem d k = false -> dict_set d k v = d ++ [(k, v)].
Proof.
  unfold dict_mem. induction d as [|[k' v'] d IH]; simpl; [reflexivity|].
  destruct (pystr_eqb k' k); [discriminate|].
  intros H. rewrite (IH H). reflexivity.
Qed.

Lemma dict_get_set_other (d : pydict) k v k' :
  k' <> k -> dict_get (dict_set d k v) k' = dict_get d k'.
Proof.
  intros Hne. induction d as [|[k0 v0] d IH]; simpl.
  - rewrite pystr_eqb_neq by congruence. reflexivity.
  - destruct (pystr_eqb k0 k) eqn:Ek; simpl.
    + apply pystr_eqb_eq in Ek. subst k0.
      rewrite pystr_eqb_neq by congruence. reflexivity.
    + destruct (pystr_eqb k0 k'); [reflexivity | exact IH].
Qed.

Lemma dict_get_set_same (d : pydict) k v :
  dict_get (dict_set d k v) k = Some v.
Proof.
  induction d as [|[k0 v0] d IH]; simpl.
  - rewrite pystr_eqb_refl. reflexivity.
  - destruct (pystr_eqb k0 k) eqn:Ek; simpl; rewrite Ek;
      [reflexivity | exact IH].
Qed.

Section EnrichFacts.

Variable json_loads : pystr -> result pyval.
Variable json_dumps : pyval -> pystr.
Variable chat_content : pystr -> pystr -> Z -> result pyval.

Abbreviation enrich := (enrich_taxonomy json_loads json_dumps chat_content).
Abbreviation enrich_call taxonomy :=
  (chat_content enrich_system
                (enrich_prompt (json_dumps (PDict taxonomy))) 2000).

(** An ErrorResult is returned as it is, without a call. *)
Lemma enrich_error_result taxonomy :
  dict_mem taxonomy (u "error") = true -> enrich taxonomy = Ret taxonomy.
Proof. intros H. unfold enrich_taxonomy. rewrite H. reflexivity. Qed.

(** C4. For a taxonomy that is not an ErrorResult, when the call of the
    backend raises, or the decoding of its answer does, with an exception
    under [Exception], [enrich_taxonomy] returns the taxonomy it was
    given: the same keys with the same values, [insights] bound exactly
    when it was before; it does not raise. *)
Theorem C4_enrichment_failure_returns_input :
  forall (taxonomy : pydict) e,
    dict_mem taxonomy (u "error") = false ->
    (enrich_call taxonomy = Raise e
     \/ exists content,
          enrich_call taxonomy = Ret content
          /\ loads_content json_loads content = Raise e) ->
    is_Exception e = true ->
    enrich taxonomy = Ret taxonomy
    /\ (forall k, dict_get (value_of [] (enrich taxonomy)) k
                  = dict_get taxonomy k)
    /\ dict_mem (value_of [] (enrich taxonomy)) (u "insights")
       = dict_mem taxonomy (u "insights").
Proof.
  intros taxonomy e Herr Hfail He.
  assert (H : enrich taxonomy = Ret taxonomy).
  { unfold enrich_taxonomy, enrich_body. rewrite Herr.
    destruct Hfail as [Hc | (content & Hc & Hl)]; rewrite Hc; simpl;
      [|rewrite Hl; simpl]; rewrite He; reflexivity. }
  rewrite H. simpl. repeat split.
Qed.

(** C5. For a taxonomy that is not an ErrorResult and has no [insights]
    key, when the backend answers and the answer decodes,
    [enrich_taxonomy] returns the taxonomy with one more key, [insights],
    put last and holding the decoded answer; every other key, [categories]
    among them, has the value it had. *)
Theorem C5_enrichment_success_adds_only_insights :
  forall (taxonomy : pydict) content insights,
    dict_mem taxonomy (u "error") = false ->
    dict_mem taxonomy (u "insights") = false ->
    enrich_call taxonomy = Ret content ->
    loads_content json_loads content = Ret insights ->
    exists enriched,
      enrich taxonomy = Ret enriched
      /\ enriched = taxonomy ++ [(u "insights", insights)]
      /\ dict_keys enriched = dict_keys taxonomy ++ [u "insights"]
      /\ dict_get enriched (u "insights") = Some insights
      /\ (forall k, k <> u "insights" ->
                    dict_get enriched k = dict_get taxonomy k)
      /\ dict_get enriched (u "categories")
         = dict_get taxonomy (u "categories").
Proof.
  intros taxonomy content insights Herr Hins Hc Hl.
  exists (dict_set taxonomy (u "insights") insights).
  split.
  { unfold enrich_taxonomy, enrich_body. rewrite Herr, Hc. simpl.
    rewrite Hl. reflexivity. }
  split; [apply dict_set_fresh; exact Hins|].
  split.
  { rewrite (dict_set_fresh _ _ insights Hins). unfold dict_keys.
    rewrite map_app. reflexivity. }
  split; [apply dict_get_set_same|].
  split.
  - intros k Hk. apply dict_get_set_other. exact Hk.
  - apply dict_get_set_other. intros H.
    apply (f_equal (@length _)) in H. vm_compute in H. discriminate.
Qed.

End EnrichFacts.

Lemma C4_enrichment_failure_witness :
  enrich_taxonomy Json.loads Json.text_of
    (Sample.failing Sample.timeout_error) Sample.taxonomy
  = Ret Sample.taxonomy.
Proof.
  apply (C4_enrichment_failure_returns_input
           Json.loads Json.text_of (Sample.failing Sample.timeout_error)
           Sample.taxonomy (e := Sample.timeout_error));
    [vm_compute; reflexivity | left; reflexivity | reflexivity].
Defined.

Lemma C5_enrichment_success_witness :
  exists enriched,
    enrich_taxonomy Json.loads Json.text_of
      (Sample.answering (PStr (Json.text_of Sample.insights)))
      Sample.taxonomy = Ret enriched
    /\ enriched = Sample.taxonomy ++ [(u "insights", Sample.insights)].
Proof.
  destruct (C5_enrichment_success_adds_only_insights
              Json.loads Json.text_of
              (Sample.answering (PStr (Json.text_of Sample.insights)))
              Sample.taxonomy
              (content := PStr (Json.text_of Sample.insights))
              (insights := Sample.insights))
    as (enriched & H1 & H2 & _);
    [vm_compute; reflexivity | vm_compute; reflexivity
     | reflexivity | vm_compute; reflexivity |].
  exists enriched. split; assumption.
Defined.

(** ** The size of the summary *)

Lemma join_length_le sep (parts : list pystr) L :
  (forall p, In p parts -> length p <= L) ->
  length (join sep parts) <= (L + length sep) * length parts.
Proof.
  induction parts as [|p parts IH]; intros H; simpl; [lia|].
  assert (Hp : length p <= L) by (apply H; left; reflexivity).
  assert (Hrest : length (join sep parts) <= (L + length sep) * length parts)
    by (apply IH; intros q Hq; apply H; right; exact Hq).
  destruct parts as [|q parts]; [simpl in *; lia|].
  rewrite !length_app. lia.
Qed.

Lemma concat_length_le {A : Type} (ls : list (list A)) n :
  Forall (fun l => length l <= n) ls ->
  length (concat ls) <= n * length ls.
Proof.
  induction 1 as [|l ls Hl _ IH]; simpl; [lia|].
  rewrite length_app. lia.
Qed.

Section SizeFacts.

Variable str_upper : pystr -> pystr.
Variable repr_other : pyval -> pystr.

Abbreviation summary2 := (_prepare_data_summary str_upper repr_other).

Lemma web_parts_counted (web_data : list (pystr * list pydict)) pss :
  mapM (category_parts str_upper repr_other) web_data = Ret pss ->
  Forall2 (category_counted str_upper) web_data pss.
Proof.
  intros Hpss. apply mapM_ret_Forall2 in Hpss.
  induction Hpss as [|cr ps web pss Hcr _ IH].
  - constructor.
  - constructor; [exact (category_parts_counted _ _ _ Hcr) | exact IH].
Qed.

Lemma counted_length (web_data : list (pystr * list pydict)) pss :
  Forall2 (category_counted str_upper) web_data pss ->
  length (concat pss) <= 16 * length web_data.
Proof.
  intros H. rewrite (Forall2_length H).
  apply concat_length_le.
  induction H as [|cr ps web pss Hcr _ IH]; [constructor|].
  constructor; [|exact IH].
  destruct Hcr as (rs & -> & Hlen).
  change (S (length rs) <= 16). rewrite Hlen. lia.
Qed.


End SizeFacts.


(** A description is rendered whole, so no bound on the length of the
    summary holds for all inputs: a record with a description of
    [bound + 1] characters gives a longer summary. *)
Lemma summary_of_described (description : pystr) :
  exists before after,
    _prepare_data_summary Sample.ascii_upper Sample.opaque_repr
      [Sample.described description] []
    = Ret (before ++ description ++ after).
Proof.
  eexists (github_header ++ nl ++ u "1. org/long (7" ++ star_glyph
           ++ u ")" ++ nl ++ u "   Description: ").
  eexists. reflexivity.
Qed.


(** ** The decoder on the text of a value *)

Section PyvalInduction.

Variable P : pyval -> Prop.
Hypothesis HNone : P PNone.
Hypothesis HBool : forall b, P (PBool b).
Hypothesis HInt : forall z, P (PInt z).
Hypothesis HFloat : forall lit, P (PFloat lit).
Hypothesis HStr : forall s, P (PStr s).
Hypothesis HList : forall l, Forall P l -> P (PList l).
Hypothesis HDict : forall d, Forall (fun kv => P (snd kv)) d -> P (PDict d).

Fixpoint pyval_nested_ind (v : pyval) : P v :=
  match v with
  | PNone => HNone
  | PBool b => HBool b
  | PInt z => HInt z
  | PFloat lit => HFloat lit
  | PStr s => HStr s
  | PList l =>
      HList ((fix all (l : list pyval) : Forall P l :=
                match l with
                | [] => Forall_nil _
                | x :: rest => Forall_cons _ (pyval_nested_ind x) (all rest)
                end) l)
  | PDict d =>
      HDict ((fix all (d : list (pystr * pyval))
                : Forall (fun kv => P (snd kv)) d :=
                match d with
                | [] => Forall_nil _
                | kv :: rest =>
                    Forall_cons _ (pyval_nested_ind (snd kv)) (all rest)
                end) d)
  end.

End PyvalInduction.

Module JsonFacts.

Import Json.

(** *** White space *)

Lemma skip_ws_blank w s : blank w = true -> skip_ws (w ++ s) = skip_ws s.
Proof.
  unfold blank. induction w as [|c w IH]; intros H; [reflexivity|].
  cbn [forallb] in H. apply andb_prop in H. destruct H as [Hc Hw].
  cbn [app skip_ws]. rewrite Hc. exact (IH Hw).
Qed.

Lemma skip_ws_only w : blank w = true -> skip_ws w = [].
Proof.
  intros H. rewrite <- (app_nil_r w). rewrite (@skip_ws_blank _ _ H).
  reflexivity.
Qed.

Lemma skip_ws_none c rest : is_ws c = false -> skip_ws (c :: rest) = c :: rest.
Proof. intros H. cbn [skip_ws]. rewrite H. reflexivity. Qed.

Lemma opens_value_skip_ws s : opens_value s -> skip_ws s = s.
Proof.
  destruct s as [|c s]; simpl; [tauto|].
  intros [<-|[<-|[<-|[<-|[<-|[<-|[]]]]]]]; reflexivity.
Qed.

Lemma is_ws_cases c :
  is_ws c = true -> c = 32%N \/ c = 9%N \/ c = 10%N \/ c = 13%N.
Proof.
  unfold is_ws. intros H.
  apply orb_prop in H. destruct H as [H|H]; [|right; right; right].
  - apply orb_prop in H. destruct H as [H|H]; [|right; right; left].
    + apply orb_prop in H. destruct H as [H|H]; [left | right; left];
        apply N.eqb_eq; exact H.
    + apply N.eqb_eq; exact H.
  - apply N.eqb_eq; exact H.
Qed.

(** *** Strings *)

Lemma scan_string_plain c rest :
  N.eqb c 34 = false -> N.eqb c 92 = false -> N.leb c 31 = false ->
  scan_string (c :: rest)
  = match scan_string rest with
    | Scanned t r => Scanned (c :: t) r
    | other => other
    end.
Proof.
  intros H1 H2 H3. cbn [scan_string]. rewrite H1, H2, H3. reflexivity.
Qed.

Lemma scan_string_simple_escape e ch rest :
  N.eqb e 117 = false -> simple_escape e = Some ch ->
  scan_string (92%N :: e :: rest)
  = match scan_string rest with
    | Scanned t r => Scanned (ch :: t) r
    | other => other
    end.
Proof.
  intros H1 H2. cbn [scan_string]. cbn [N.eqb Pos.eqb].
  rewrite H1, H2. reflexivity.
Qed.

Lemma scan_string_control_escape a b c d uni rest :
  hex4 a b c d = Some uni -> is_high_surrogate uni = false ->
  scan_string (92%N :: 117%N :: a :: b :: c :: d :: rest)
  = match scan_string rest with
    | Scanned t r => Scanned (uni :: t) r
    | other => other
    end.
Proof.
  intros H1 H2. cbn [scan_string]. cbn [N.eqb Pos.eqb].
  rewrite H1, H2. reflexivity.
Qed.

Lemma scan_string_u a b c d rest2 :
  scan_string (92%N :: 117%N :: a :: b :: c :: d :: rest2)
  = match hex4 a b c d with
    | None => Malformed
    | Some uni =>
        let plain :=
          match scan_string rest2 with
          | Scanned t r => Scanned (uni :: t) r
          | other => other
          end in
        if is_high_surrogate uni then
          match rest2 with
          | 92%N :: 117%N :: a2 :: b2 :: c2 :: d2 :: rest3 =>
              match hex4 a2 b2 c2 d2 with
              | None => Malformed
              | Some uni2 =>
                  if is_low_surrogate uni2 then
                    match scan_string rest3 with
                    | Scanned t r =>
                        Scanned ((65536 + (N.lor (N.shiftl (uni - 55296) 10)
                                                 (uni2 - 56320)))%N :: t) r
                    | other => other
                    end
                  else plain
              end
          | 92%N :: 117%N :: _ => Malformed
          | _ => plain
          end
        else plain
    end.
Proof. reflexivity. Qed.

Lemma scan_string_pair a b c d a' b' c' d' hi lo rest :
  hex4 a b c d = Some hi -> is_high_surrogate hi = true ->
  hex4 a' b' c' d' = Some lo -> is_low_surrogate lo = true ->
  scan_string (92%N :: 117%N :: a :: b :: c :: d
               :: 92%N :: 117%N :: a' :: b' :: c' :: d' :: rest)
  = match scan_string rest with
    | Scanned t r =>
        Scanned ((65536 + N.lor (N.shiftl (hi - 55296) 10) (lo - 56320))%N
                 :: t) r
    | other => other
    end.
Proof.
  intros H1 H2 H3 H4. rewrite scan_string_u, H1. cbv zeta. rewrite H2.
  cbv iota beta. rewrite H3, H4. reflexivity.
Qed.

Lemma simple_escape_not_u e c : simple_escape e = Some c -> N.eqb e 117 = false.
Proof.
  intros H. destruct (N.eqb e 117) eqn:E; [|reflexivity].
  apply N.eqb_eq in E. subst e. vm_compute in H. discriminate.
Qed.

(** A string is read back from each of its literals. *)
Lemma scan_string_body s t :
  str_body s t -> forall rest, scan_string (t ++ 34%N :: rest) = Scanned s rest.
Proof.
  induction 1 as [| c s t H1 H2 H3 _ IH | e c s t He _ IH
                  | a b c d n s t Hh Hs _ IH
                  | a b c d a' b' c' d' hi lo s t Hh Hs Hl Hls _ IH];
    intros rest.
  - reflexivity.
  - cbn [app]. rewrite scan_string_plain by assumption.
    rewrite IH. reflexivity.
  - cbn [app].
    rewrite (@scan_string_simple_escape e c _ (@simple_escape_not_u e c He) He).
    rewrite IH. reflexivity.
  - cbn [app]. rewrite (@scan_string_control_escape a b c d n _ Hh Hs).
    rewrite IH. reflexivity.
  - cbn [app]. rewrite (@scan_string_pair a b c d a' b' c' d' hi lo _ Hh Hs Hl Hls).
    rewrite IH. reflexivity.
Qed.

Lemma escape_of_control c :
  (c <= 31)%N ->
  hex4 48%N 48%N (hex_char (c / 16)) (hex_char (c mod 16)) = Some c
  /\ is_high_surrogate c = false.
Proof.
  intros H.
  assert (Hn : exists n, n < 32 /\ c = N.of_nat n).
  { exists (N.to_nat c). split; [lia | rewrite N2Nat.id; reflexivity]. }
  destruct Hn as (n & Hn & ->). clear H.
  do 32 (destruct n as [|n]; [split; vm_compute; reflexivity|]).
  lia.
Qed.

(** The literal the serializer writes is one of them. *)
Lemma str_body_escaped s : str_body s (flat_map escape_char s).
Proof.
  induction s as [|c s IH]; [constructor|].
  cbn [flat_map]. unfold escape_char at 1.
  destruct (N.eqb c 34) eqn:E1.
  { apply N.eqb_eq in E1. subst c. cbn [app].
    apply body_escape; [reflexivity | exact IH]. }
  destruct (N.eqb c 92) eqn:E2.
  { apply N.eqb_eq in E2. subst c. cbn [app].
    apply body_escape; [reflexivity | exact IH]. }
  destruct (N.leb c 31) eqn:E3.
  { apply N.leb_le in E3. destruct (@escape_of_control c E3) as [Hh Hs].
    cbn [app]. apply body_unicode; assumption. }
  cbn [app]. apply body_plain; assumption.
Qed.

(** *** One turn of each loop of the decoder *)

Lemma scan_value_string f d rest :
  scan_value (S f) d (34%N :: rest) = scan_map PStr (scan_string rest).
Proof. reflexivity. Qed.

Lemma scan_value_array_empty f d rest r :
  skip_ws rest = 93%N :: r ->
  scan_value (S f) (S d) (91%N :: rest) = Scanned (PList []) r.
Proof.
  intros H. cbn [scan_value]. cbn [N.eqb Pos.eqb]. rewrite H. reflexivity.
Qed.

Lemma scan_value_array_open f d rest s1 :
  skip_ws rest = s1 -> opens_value s1 ->
  scan_value (S f) (S d) (91%N :: rest)
  = scan_map PList (scan_elements f d s1).
Proof.
  intros H Ho. cbn [scan_value]. cbn [N.eqb Pos.eqb]. rewrite H.
  destruct s1 as [|c s1]; simpl opens_value in Ho; [tauto|].
  destruct Ho as [<-|[<-|[<-|[<-|[<-|[<-|[]]]]]]]; reflexivity.
Qed.

Lemma scan_value_object_empty f d rest r :
  skip_ws rest = 125%N :: r ->
  scan_value (S f) (S d) (123%N :: rest) = Scanned (PDict []) r.
Proof.
  intros H. cbn [scan_value]. cbn [N.eqb Pos.eqb]. rewrite H. reflexivity.
Qed.

Lemma scan_value_object_open f d rest r :
  skip_ws rest = 34%N :: r ->
  scan_value (S f) (S d) (123%N :: rest)
  = scan_map
      (fun pairs =>
         PDict (fold_left (fun d kv => dict_set d (fst kv) (snd kv))
                          pairs []))
      (scan_members f d r).
Proof.
  intros H. cbn [scan_value]. cbn [N.eqb Pos.eqb]. rewrite H. reflexivity.
Qed.

Lemma scan_elements_close f d s v r r1 :
  scan_value f d s = Scanned v r -> skip_ws r = 93%N :: r1 ->
  scan_elements (S f) d s = Scanned [v] r1.
Proof.
  intros H1 H2. cbn [scan_elements]. rewrite H1, H2. reflexivity.
Qed.

Lemma scan_elements_comma f d s v r r1 :
  scan_value f d s = Scanned v r -> skip_ws r = 44%N :: r1 ->
  scan_elements (S f) d s
  = scan_map (cons v) (scan_elements f d (skip_ws r1)).
Proof.
  intros H1 H2. cbn [scan_elements]. rewrite H1, H2. reflexivity.
Qed.

Lemma scan_elements_fail f d s e :
  scan_value f d s = Failed e -> scan_elements (S f) d s = Failed e.
Proof. intros H. cbn [scan_elements]. rewrite H. reflexivity. Qed.

Lemma scan_members_close f d s key r r1 v r2 r3 :
  scan_string s = Scanned key r -> skip_ws r = 58%N :: r1 ->
  scan_value f d (skip_ws r1) = Scanned v r2 -> skip_ws r2 = 125%N :: r3 ->
  scan_members (S f) d s = Scanned [(key, v)] r3.
Proof.
  intros H1 H2 H3 H4. cbn [scan_members].
  rewrite H1, H2, H3, H4. reflexivity.
Qed.

Lemma scan_members_comma f d s key r r1 v r2 r3 r4 :
  scan_string s = Scanned key r -> skip_ws r = 58%N :: r1 ->
  scan_value f d (skip_ws r1) = Scanned v r2 -> skip_ws r2 = 44%N :: r3 ->
  skip_ws r3 = 34%N :: r4 ->
  scan_members (S f) d s
  = scan_map (cons (key, v)) (scan_members f d r4).
Proof.
  intros H1 H2 H3 H4 H5. cbn [scan_members].
  rewrite H1, H2, H3, H4, H5. reflexivity.
Qed.

Lemma scan_members_fail f d s key r r1 e :
  scan_string s = Scanned key r -> skip_ws r = 58%N :: r1 ->
  scan_value f d (skip_ws r1) = Failed e ->
  scan_members (S f) d s = Failed e.
Proof.
  intros H1 H2 H3. cbn [scan_members]. rewrite H1, H2, H3. reflexivity.
Qed.

(** *** Building a dict from pairs with distinct keys keeps the pairs *)

Lemma dict_mem_app (d1 d2 : pydict) k :
  dict_mem (d1 ++ d2) k = (dict_mem d1 k || dict_mem d2 k)%bool.
Proof.
  unfold dict_mem. induction d1 as [|[k1 v1] d1 IH]; simpl; [reflexivity|].
  destruct (pystr_eqb k1 k); [reflexivity | exact IH].
Qed.

Lemma fold_dict_set_distinct (d acc : pydict) :
  (forall k, In k (List.map fst d) -> dict_mem acc k = false) ->
  distinct (List.map fst d) = true ->
  fold_left (fun a kv => dict_set a (fst kv) (snd kv)) d acc = acc ++ d.
Proof.
  revert acc. induction d as [|[k v] d IH]; intros acc Hacc Hd.
  - simpl. rewrite app_nil_r. reflexivity.
  - cbn [fold_left fst snd]. cbn [List.map fst distinct] in Hd.
    apply andb_prop in Hd. destruct Hd as [Hk Hd].
    rewrite dict_set_fresh by (apply Hacc; left; reflexivity).
    rewrite IH; [rewrite <- app_assoc; reflexivity | | exact Hd].
    intros k' Hk'. rewrite dict_mem_app.
    rewrite (Hacc k') by (right; exact Hk'). cbn [orb].
    unfold dict_mem. cbn [dict_get].
    destruct (pystr_eqb k k') eqn:E; [|reflexivity].
    apply pystr_eqb_eq in E. subst k'.
    apply negb_true_iff in Hk.
    assert (Hin : existsb (pystr_eqb k) (List.map fst d) = true).
    { apply existsb_exists. exists k. split;
        [exact Hk' | apply pystr_eqb_refl]. }
    congruence.
Qed.

(** *** The decoder on the texts of a value *)

Lemma written_opens v t rest : written v t -> opens_value (t ++ rest).
Proof. destruct 1; simpl; tauto. Qed.

Lemma reads_constant v t :
  nesting v = 0 -> weight v = 1 ->
  (forall f d rest, scan_value (S f) d (t ++ rest) = Scanned v rest) ->
  reads v t.
Proof.
  intros Hn Hw H _ fuel depth rest Hf. rewrite Hw in Hf.
  destruct fuel as [|f]; [lia|]. split; [intros _; apply H | lia].
Qed.

Lemma reads_str s t : str_body s t -> reads (PStr s) (dq ++ t ++ dq).
Proof.
  intros Hb. apply reads_constant; [reflexivity | reflexivity|].
  intros f d rest. rewrite <- !app_assoc.
  change (dq ++ t ++ dq ++ rest) with (34%N :: (t ++ 34%N :: rest)).
  rewrite scan_value_string, (@scan_string_body _ _ Hb). reflexivity.
Qed.

Lemma reads_empty_list w : blank w = true -> reads (PList []) (u "[" ++ w ++ u "]").
Proof.
  intros Hw _ fuel depth rest Hf.
  destruct fuel as [|f]; [simpl in Hf; lia|].
  rewrite <- !app_assoc.
  change (u "[" ++ w ++ u "]" ++ rest) with (91%N :: (w ++ 93%N :: rest)).
  change (nesting (PList [])) with 1.
  destruct depth as [|d].
  - split; [lia|]. intros _. exists (u "array"). reflexivity.
  - split; [|lia]. intros _. apply scan_value_array_empty.
    rewrite (@skip_ws_blank _ _ Hw). reflexivity.
Qed.

Lemma reads_empty_dict w : blank w = true -> reads (PDict []) (u "{" ++ w ++ u "}").
Proof.
  intros Hw _ fuel depth rest Hf.
  destruct fuel as [|f]; [simpl in Hf; lia|].
  rewrite <- !app_assoc.
  change (u "{" ++ w ++ u "}" ++ rest) with (123%N :: (w ++ 125%N :: rest)).
  change (nesting (PDict [])) with 1.
  destruct depth as [|d].
  - split; [lia|]. intros _. exists (u "object"). reflexivity.
  - split; [|lia]. intros _. apply scan_value_object_empty.
    rewrite (@skip_ws_blank _ _ Hw). reflexivity.
Qed.

Lemma reads_list v l t : reads_items v l t -> reads (PList (v :: l)) (u "[" ++ t).
Proof.
  intros IH Ht fuel depth rest Hf.
  change (textual (PList (v :: l))) with (forallb textual (v :: l)) in Ht.
  change (weight (PList (v :: l)))
    with (S (list_sum (List.map (fun x => S (weight x)) (v :: l)))) in Hf.
  change (nesting (PList (v :: l)))
    with (S (list_max (List.map nesting (v :: l)))).
  destruct fuel as [|f]; [lia|].
  change ((u "[" ++ t) ++ rest) with (91%N :: (t ++ rest)).
  destruct depth as [|d].
  - split; [lia|]. intros _. exists (u "array"). reflexivity.
  - destruct (IH Ht f d rest) as (s1 & Hs1 & Ho & Hok & Hdeep); [lia|].
    rewrite (@scan_value_array_open f d _ _ Hs1 Ho). split.
    + intros Hd. rewrite Hok by lia. reflexivity.
    + intros Hd. destruct Hdeep as (what & ->); [lia|].
      exists what. reflexivity.
Qed.

Lemma reads_dict k v d t :
  reads_members k v d t -> reads (PDict ((k, v) :: d)) (u "{" ++ t).
Proof.
  intros IH Ht fuel depth rest Hf.
  change (textual (PDict ((k, v) :: d)))
    with (distinct (List.map fst ((k, v) :: d))
          && forallb (fun kv => textual (snd kv)) ((k, v) :: d))%bool in Ht.
  apply andb_prop in Ht. destruct Ht as [Hkeys Hvals].
  change (weight (PDict ((k, v) :: d)))
    with (S (list_sum (List.map (fun kv => S (weight (snd kv)))
                                ((k, v) :: d)))) in Hf.
  change (nesting (PDict ((k, v) :: d)))
    with (S (list_max (List.map (fun kv => nesting (snd kv))
                                ((k, v) :: d)))).
  destruct fuel as [|f]; [lia|].
  change ((u "{" ++ t) ++ rest) with (123%N :: (t ++ rest)).
  destruct depth as [|dp].
  - split; [lia|]. intros _. exists (u "object"). reflexivity.
  - destruct (IH Hvals f dp rest) as (r & Hr & Hok & Hdeep); [lia|].
    rewrite (@scan_value_object_open f dp _ _ Hr). split.
    + intros Hd. rewrite Hok by lia. cbn [scan_map].
      rewrite fold_dict_set_distinct; [reflexivity | | exact Hkeys].
      intros k0 _. reflexivity.
    + intros Hd. destruct Hdeep as (what & ->); [lia|].
      exists what. reflexivity.
Qed.

Lemma reads_items_last v t w1 w2 :
  blank w1 = true -> blank w2 = true -> written v t -> reads v t ->
  reads_items v [] (w1 ++ t ++ w2 ++ u "]").
Proof.
  intros Hw1 Hw2 Hv IHv Ht fuel depth rest Hf.
  cbn [forallb] in Ht. apply andb_prop in Ht. destruct Ht as [Htv _].
  change (list_sum (List.map (fun x => S (weight x)) [v]))
    with (S (weight v) + 0) in Hf.
  change (list_max (List.map nesting [v])) with (Nat.max (nesting v) 0).
  destruct fuel as [|f]; [lia|].
  exists (t ++ w2 ++ u "]" ++ rest).
  split.
  { rewrite <- !app_assoc. rewrite (@skip_ws_blank _ _ Hw1).
    apply opens_value_skip_ws. exact (@written_opens _ _ _ Hv). }
  split; [exact (@written_opens _ _ _ Hv)|].
  destruct (IHv Htv f depth (w2 ++ u "]" ++ rest)) as [Hok Hdeep]; [lia|].
  split.
  - intros Hd. apply scan_elements_close with (r := w2 ++ u "]" ++ rest).
    + apply Hok. lia.
    + rewrite (@skip_ws_blank _ _ Hw2). reflexivity.
  - intros Hd. destruct Hdeep as (what & Hw); [lia|].
    exists what. apply scan_elements_fail. exact Hw.
Qed.

Lemma reads_items_more v v' l t w1 w2 ts :
  blank w1 = true -> blank w2 = true -> written v t -> reads v t ->
  reads_items v' l ts ->
  reads_items v (v' :: l) (w1 ++ t ++ w2 ++ u "," ++ ts).
Proof.
  intros Hw1 Hw2 Hv IHv IHl Ht fuel depth rest Hf.
  change (forallb textual (v :: v' :: l))
    with (textual v && forallb textual (v' :: l))%bool in Ht.
  apply andb_prop in Ht. destruct Ht as [Htv Htl].
  change (list_sum (List.map (fun x => S (weight x)) (v :: v' :: l)))
    with (S (weight v)
          + list_sum (List.map (fun x => S (weight x)) (v' :: l))) in Hf.
  change (list_max (List.map nesting (v :: v' :: l)))
    with (Nat.max (nesting v) (list_max (List.map nesting (v' :: l)))).
  destruct fuel as [|f]; [lia|].
  destruct (IHl Htl f depth rest) as (s1 & Hs1 & Ho1 & Hok1 & Hdeep1); [lia|].
  exists (t ++ w2 ++ u "," ++ ts ++ rest).
  split.
  { rewrite <- !app_assoc. rewrite (@skip_ws_blank _ _ Hw1).
    apply opens_value_skip_ws. exact (@written_opens _ _ _ Hv). }
  split; [exact (@written_opens _ _ _ Hv)|].
  destruct (IHv Htv f depth (w2 ++ u "," ++ ts ++ rest)) as [Hok Hdeep];
    [lia|].
  assert (Hskip : skip_ws (w2 ++ u "," ++ ts ++ rest) = 44%N :: (ts ++ rest)).
  { rewrite (@skip_ws_blank _ _ Hw2). reflexivity. }
  split.
  - intros Hd.
    rewrite (@scan_elements_comma f depth _ _ _ _ (Hok ltac:(lia)) Hskip).
    rewrite Hs1, Hok1 by lia. reflexivity.
  - intros Hd. destruct (Nat.le_gt_cases (nesting v) depth) as [Hle|Hgt].
    + rewrite (@scan_elements_comma f depth _ _ _ _ (Hok Hle) Hskip), Hs1.
      destruct Hdeep1 as (what & ->); [lia|]. exists what. reflexivity.
    + destruct Hdeep as (what & Hw); [lia|].
      exists what. apply scan_elements_fail. exact Hw.
Qed.

Lemma member_start w1 kt tail rest :
  blank w1 = true ->
  skip_ws ((w1 ++ dq ++ kt ++ dq ++ tail) ++ rest)
  = 34%N :: (kt ++ 34%N :: (tail ++ rest)).
Proof.
  intros Hw1. rewrite <- !app_assoc. rewrite (@skip_ws_blank _ _ Hw1).
  reflexivity.
Qed.

Lemma reads_members_last k v kt t w1 w2 w3 w4 :
  blank w1 = true -> blank w2 = true -> blank w3 = true ->
  blank w4 = true -> str_body k kt -> written v t -> reads v t ->
  reads_members k v []
    (w1 ++ dq ++ kt ++ dq ++ w2 ++ u ":" ++ w3 ++ t ++ w4 ++ u "}").
Proof.
  intros Hw1 Hw2 Hw3 Hw4 Hk Hv IHv Ht fuel depth rest Hf.
  cbn [forallb snd] in Ht. apply andb_prop in Ht. destruct Ht as [Htv _].
  change (list_sum (List.map (fun kv => S (weight (snd kv))) [(k, v)]))
    with (S (weight v) + 0) in Hf.
  change (list_max (List.map (fun kv => nesting (snd kv)) [(k, v)]))
    with (Nat.max (nesting v) 0).
  destruct fuel as [|f]; [lia|].
  eexists. split; [apply member_start; exact Hw1|].
  rewrite <- !app_assoc.
  assert (Hcolon : skip_ws (w2 ++ u ":" ++ w3 ++ t ++ w4 ++ u "}" ++ rest)
                   = 58%N :: (w3 ++ t ++ w4 ++ u "}" ++ rest)).
  { rewrite (@skip_ws_blank _ _ Hw2). reflexivity. }
  assert (Hval : skip_ws (w3 ++ t ++ w4 ++ u "}" ++ rest)
                 = t ++ w4 ++ u "}" ++ rest).
  { rewrite (@skip_ws_blank _ _ Hw3). apply opens_value_skip_ws.
    exact (@written_opens _ _ _ Hv). }
  destruct (IHv Htv f depth (w4 ++ u "}" ++ rest)) as [Hok Hdeep]; [lia|].
  split.
  - intros Hd. eapply scan_members_close.
    + apply (@scan_string_body _ _ Hk).
    + exact Hcolon.
    + rewrite Hval. apply Hok. lia.
    + rewrite (@skip_ws_blank _ _ Hw4). reflexivity.
  - intros Hd. destruct Hdeep as (what & Hw); [lia|].
    exists what. eapply scan_members_fail.
    + apply (@scan_string_body _ _ Hk).
    + exact Hcolon.
    + rewrite Hval. exact Hw.
Qed.

Lemma reads_members_more k v k' v' d kt t w1 w2 w3 w4 ts :
  blank w1 = true -> blank w2 = true -> blank w3 = true ->
  blank w4 = true -> str_body k kt -> written v t -> reads v t ->
  reads_members k' v' d ts ->
  reads_members k v ((k', v') :: d)
    (w1 ++ dq ++ kt ++ dq ++ w2 ++ u ":" ++ w3 ++ t ++ w4 ++ u "," ++ ts).
Proof.
  intros Hw1 Hw2 Hw3 Hw4 Hk Hv IHv IHd Ht fuel depth rest Hf.
  change (forallb (fun kv => textual (snd kv)) ((k, v) :: (k', v') :: d))
    with (textual v
          && forallb (fun kv => textual (snd kv)) ((k', v') :: d))%bool in Ht.
  apply andb_prop in Ht. destruct Ht as [Htv Htd].
  change (list_sum (List.map (fun kv => S (weight (snd kv)))
                             ((k, v) :: (k', v') :: d)))
    with (S (weight v)
          + list_sum (List.map (fun kv => S (weight (snd kv)))
                               ((k', v') :: d))) in Hf.
  change (list_max (List.map (fun kv => nesting (snd kv))
                             ((k, v) :: (k', v') :: d)))
    with (Nat.max (nesting v)
            (list_max (List.map (fun kv => nesting (snd kv))
                                ((k', v') :: d)))).
  destruct fuel as [|f]; [lia|].
  destruct (IHd Htd f depth rest) as (r4 & Hr4 & Hok4 & Hdeep4); [lia|].
  eexists. split; [apply member_start; exact Hw1|].
  rewrite <- !app_assoc.
  assert (Hcolon : skip_ws (w2 ++ u ":" ++ w3 ++ t ++ w4 ++ u "," ++ ts
                            ++ rest)
                   = 58%N :: (w3 ++ t ++ w4 ++ u "," ++ ts ++ rest)).
  { rewrite (@skip_ws_blank _ _ Hw2). reflexivity. }
  assert (Hval : skip_ws (w3 ++ t ++ w4 ++ u "," ++ ts ++ rest)
                 = t ++ w4 ++ u "," ++ ts ++ rest).
  { rewrite (@skip_ws_blank _ _ Hw3). apply opens_value_skip_ws.
    exact (@written_opens _ _ _ Hv). }
  assert (Hcomma : skip_ws (w4 ++ u "," ++ ts ++ rest)
                   = 44%N :: (ts ++ rest)).
  { rewrite (@skip_ws_blank _ _ Hw4). reflexivity. }
  destruct (IHv Htv f depth (w4 ++ u "," ++ ts ++ rest)) as [Hok Hdeep];
    [lia|].
  split.
  - intros Hd.
    rewrite (@scan_members_comma f depth _ _ _ _ _ _ _ _
               (@scan_string_body _ _ Hk _) Hcolon
               (eq_trans (f_equal (scan_value f depth) Hval)
                         (Hok ltac:(lia)))
               Hcomma Hr4).
    rewrite Hok4 by lia. reflexivity.
  - intros Hd. destruct (Nat.le_gt_cases (nesting v) depth) as [Hle|Hgt].
    + rewrite (@scan_members_comma f depth _ _ _ _ _ _ _ _
                 (@scan_string_body _ _ Hk _) Hcolon
                 (eq_trans (f_equal (scan_value f depth) Hval) (Hok Hle))
                 Hcomma Hr4).
      destruct Hdeep4 as (what & ->); [lia|]. exists what. reflexivity.
    + destruct Hdeep as (what & Hw); [lia|].
      exists what. eapply scan_members_fail.
      * apply (@scan_string_body _ _ Hk).
      * exact Hcolon.
      * rewrite Hval. exact Hw.
Qed.

(** The decoder on every text of a value. *)
Lemma scan_written :
  (forall v t, written v t -> reads v t)
  /\ (forall v l t, written_items v l t -> reads_items v l t)
  /\ (forall k v d t, written_members k v d t -> reads_members k v d t).
Proof.
  apply written_mutind.
  - apply reads_constant; reflexivity.
  - apply reads_constant; reflexivity.
  - apply reads_constant; reflexivity.
  - intros s t Hb. exact (@reads_str _ _ Hb).
  - intros w Hw. exact (@reads_empty_list _ Hw).
  - intros v l t _ IH. exact (@reads_list _ _ _ IH).
  - intros w Hw. exact (@reads_empty_dict _ Hw).
  - intros k v d t _ IH. exact (@reads_dict _ _ _ _ IH).
  - intros v t w1 w2 Hw1 Hw2 Hv IHv. exact (@reads_items_last _ _ _ _ Hw1 Hw2 Hv IHv).
  - intros v v' l t w1 w2 ts Hw1 Hw2 Hv IHv _ IHl.
    exact (@reads_items_more _ _ _ _ _ _ _ Hw1 Hw2 Hv IHv IHl).
  - intros k v kt t w1 w2 w3 w4 Hw1 Hw2 Hw3 Hw4 Hk Hv IHv.
    exact (@reads_members_last _ _ _ _ _ _ _ _ Hw1 Hw2 Hw3 Hw4 Hk Hv IHv).
  - intros k v k' v' d kt t w1 w2 w3 w4 ts Hw1 Hw2 Hw3 Hw4 Hk Hv IHv _ IHd.
    exact (@reads_members_more _ _ _ _ _ _ _ _ _ _ _ _ Hw1 Hw2 Hw3 Hw4 Hk Hv IHv IHd).
Qed.

(** *** The fuel [loads_within] starts with is enough *)

Lemma list_sum_cons a l : list_sum (a :: l) = a + list_sum l.
Proof. reflexivity. Qed.

Lemma weight_written :
  (forall v t, written v t -> weight v <= length t)
  /\ (forall v l t,
        written_items v l t ->
        list_sum (List.map (fun x => S (weight x)) (v :: l)) <= length t)
  /\ (forall k v d t,
        written_members k v d t ->
        list_sum (List.map (fun kv => S (weight (snd kv))) ((k, v) :: d))
        <= length t).
Proof.
  apply written_mutind; intros;
    cbn [weight List.map snd] in *;
    rewrite ?length_app;
    repeat match goal with
           | |- context [list_sum (_ :: _)] => rewrite list_sum_cons
           | H : context [list_sum (_ :: _)] |- _ =>
               rewrite list_sum_cons in H
           end;
    change (list_sum []) with 0 in *;
    change (length dq) with 1;
    cbn [length u List.map list_ascii_of_string] in *;
    lia.
Qed.

(** *** Documents *)

Lemma loads_within_first limit (c : pychar) (r : pystr) :
  In c [32; 9; 10; 13; 34; 91; 123; 110; 116; 102]%N ->
  loads_within limit (c :: r)
  = match scan_value (2 * length (c :: r) + 2) limit (skip_ws (c :: r)) with
    | Scanned v r' =>
        match skip_ws r' with
        | [] => Ret v
        | _ :: _ => Raise decode_error
        end
    | Malformed => Raise decode_error
    | Failed e => Raise e
    | Exhausted => Raise (recursion_error [])
    end.
Proof.
  intros H. repeat (destruct H as [<-|H]; [reflexivity|]). contradiction.
Qed.

Lemma document_first v raw :
  document v raw ->
  exists c r,
    raw = c :: r /\ In c [32; 9; 10; 13; 34; 91; 123; 110; 116; 102]%N.
Proof.
  intros (w1 & t & w2 & Hw1 & _ & Hv & ->).
  destruct w1 as [|c w1].
  - pose proof (@written_opens _ _ w2 Hv) as Ho. cbn [app].
    destruct (t ++ w2) as [|c r]; simpl in Ho; [tauto|].
    exists c, r. split; [reflexivity|]. simpl. tauto.
  - exists c, (w1 ++ t ++ w2). split; [reflexivity|].
    unfold blank in Hw1. cbn [forallb] in Hw1.
    apply andb_prop in Hw1. destruct Hw1 as [Hc _].
    apply is_ws_cases in Hc.
    destruct Hc as [->|[->|[->| ->]]]; simpl; tauto.
Qed.

(** A document of a textual value is decoded to the value when the
    decoder has the levels the value takes, and is refused with
    [RecursionError] when it has fewer. *)
Lemma loads_document limit v raw :
  document v raw -> textual v = true ->
  (nesting v <= limit -> loads_within limit raw = Ret v)
  /\ (limit < nesting v ->
      exists what, loads_within limit raw = Raise (recursion_error what)).
Proof.
  intros Hdoc Ht.
  destruct (@document_first _ _ Hdoc) as (c & r & Hraw & Hc).
  destruct Hdoc as (w1 & t & w2 & Hw1 & Hw2 & Hv & Hsplit).
  assert (Hskip : skip_ws raw = t ++ w2).
  { rewrite Hsplit, (@skip_ws_blank _ _ Hw1).
    apply opens_value_skip_ws. exact (@written_opens _ _ _ Hv). }
  assert (Hfuel : weight v <= 2 * length raw + 2).
  { pose proof (proj1 weight_written _ _ Hv) as Hw.
    rewrite Hsplit, !length_app. lia. }
  destruct (proj1 scan_written _ _ Hv Ht (2 * length raw + 2) limit w2 Hfuel)
    as [Hok Hdeep].
  rewrite <- Hskip in Hok, Hdeep.
  rewrite Hraw in *. rewrite (@loads_within_first limit c r Hc).
  split.
  - intros Hd. rewrite (Hok Hd), (@skip_ws_only _ Hw2). reflexivity.
  - intros Hd. destruct (Hdeep Hd) as (what & ->).
    exists what. reflexivity.
Qed.

(** *** The serializers write documents *)

Lemma written_text_with w (v : pyval) :
  blank w = true -> textual v = true -> written v (text_with w v).
Proof.
  intros Hw.
  induction v as [| b | z | lit | s | l IH | d IH] using pyval_nested_ind;
    intros Ht; try discriminate.
  - constructor.
  - destruct b; constructor.
  - apply written_str. apply str_body_escaped.
  - destruct l as [|v0 l]; [apply written_empty_list; exact Hw|].
    cbn [text_with]. apply written_list.
    change (textual (PList (v0 :: l))) with (forallb textual (v0 :: l)) in Ht.
    revert v0 IH Ht. induction l as [|v1 l IHl]; intros v0 IH Ht.
    + inversion IH as [|? ? Hv0 _]; subst.
      cbn [forallb] in Ht. apply andb_prop in Ht. destruct Ht as [Ht0 _].
      apply items_last; [exact Hw | exact Hw | exact (Hv0 Ht0)].
    + inversion IH as [|? ? Hv0 IH']; subst.
      change (forallb textual (v0 :: v1 :: l))
        with (textual v0 && forallb textual (v1 :: l))%bool in Ht.
      apply andb_prop in Ht. destruct Ht as [Ht0 Ht].
      apply items_more; [exact Hw | exact Hw | exact (Hv0 Ht0)|].
      exact (IHl v1 IH' Ht).
  - destruct d as [|[k0 v0] d]; [apply written_empty_dict; exact Hw|].
    cbn [text_with]. apply written_dict.
    change (textual (PDict ((k0, v0) :: d)))
      with (distinct (List.map fst ((k0, v0) :: d))
            && forallb (fun kv => textual (snd kv)) ((k0, v0) :: d))%bool
      in Ht.
    apply andb_prop in Ht. destruct Ht as [_ Ht].
    revert k0 v0 IH Ht. induction d as [|[k1 v1] d IHd]; intros k0 v0 IH Ht.
    + inversion IH as [|? ? Hv0 _]; subst. cbn [snd] in Hv0.
      cbn [forallb snd] in Ht. apply andb_prop in Ht. destruct Ht as [Ht0 _].
      unfold text_of_str. cbn [fst snd]. rewrite <- !app_assoc.
      apply members_last; try exact Hw;
        [apply str_body_escaped | exact (Hv0 Ht0)].
    + inversion IH as [|? ? Hv0 IH']; subst. cbn [snd] in Hv0.
      change (forallb (fun kv => textual (snd kv))
                      ((k0, v0) :: (k1, v1) :: d))
        with (textual v0
              && forallb (fun kv => textual (snd kv)) ((k1, v1) :: d))%bool
        in Ht.
      apply andb_prop in Ht. destruct Ht as [Ht0 Ht].
      unfold text_of_str at 1. cbn [fst snd]. rewrite <- !app_assoc.
      apply members_more; try exact Hw;
        [apply str_body_escaped | exact (Hv0 Ht0)|].
      exact (IHd k1 v1 IH' Ht).
Qed.

Lemma document_text_with w (v : pyval) :
  blank w = true -> textual v = true -> document v (w ++ text_with w v ++ w).
Proof.
  intros Hw Ht. exists w, (text_with w v), w.
  repeat split; try exact Hw. exact (@written_text_with w v Hw Ht).
Qed.

End JsonFacts.




(** * Further properties *)

(** ** When the summary builder returns *)

Lemma join_items_returns_iff (l : list pyval) i :
  (exists ss, join_items i l = Ret ss) <-> forallb is_str l = true.
Proof.
  revert i. induction l as [|v l IH]; intros i; simpl.
  - split; [reflexivity | intros _; eexists; reflexivity].
  - destruct v; simpl;
      try (split; [intros [ss H]; discriminate | discriminate]).
    rewrite <- (IH (S i)). split.
    + intros [ss H]. apply bind_ret_inv in H.
      destruct H as (ss' & H & _). exists ss'. exact H.
    + intros [ss H]. rewrite H. eexists. reflexivity.
Qed.

Lemma join_items_raises_TypeError (l : list pyval) i e :
  join_items i l = Raise e -> exn_cls e = TypeError.
Proof.
  revert i. induction l as [|v l IH]; intros i; simpl; [discriminate|].
  destruct v; simpl; try (intros H; injection H as <-; reflexivity).
  destruct (join_items (S i) l) as [ss|e'] eqn:E; simpl; [discriminate|].
  intros H. injection H as <-. exact (IH _ E).
Qed.

Section RenderFacts.

Variable str_upper : pystr -> pystr.
Variable repr_other : pyval -> pystr.

(** The f-string of a repository returns exactly on the records that
    have the five keys it reads and whose topics can be joined. *)
Lemma render_repo_returns_iff i (repo : pydict) :
  (exists part, render_repo repr_other i repo = Ret part)
  <-> repo_renders repo = true.
Proof.
  unfold render_repo, repo_renders, subscript, dict_mem.
  destruct (dict_get repo (u "full_name")); cbn [bind andb];
    [|split; [intros [part H]; discriminate | discriminate]].
  destruct (dict_get repo (u "stars")); cbn [bind andb];
    [|split; [intros [part H]; discriminate | discriminate]].
  destruct (dict_get repo (u "description")); cbn [bind andb];
    [|split; [intros [part H]; discriminate | discriminate]].
  destruct (dict_get repo (u "topics")) as [topics|]; cbn [bind andb];
    [|split; [intros [part H]; discriminate | discriminate]].
  destruct topics as [| | | | s | l | d];
    cbn [bind andb slice_to str_join topics_joinable];
    try (split; [intros [part H]; discriminate | discriminate]).
  - destruct (dict_get repo (u "language")); cbn [bind andb];
      [split; [reflexivity | intros _; eexists; reflexivity]
      |split; [intros [part H]; discriminate | discriminate]].
  - set (l5 := firstn 5 l).
    destruct (join_items 0 l5) as [ss|e] eqn:E; cbn [bind].
    + assert (Hs : forallb is_str l5 = true)
        by (apply (join_items_returns_iff _ 0); exists ss; exact E).
      rewrite Hs. cbn [andb].
      destruct (dict_get repo (u "language")); cbn [bind andb];
        [split; [reflexivity | intros _; eexists; reflexivity]
        |split; [intros [part H]; discriminate | discriminate]].
    + split; [intros [part H]; discriminate|].
      intros H. apply andb_prop in H. destruct H as [H _].
      apply (join_items_returns_iff _ 0) in H. destruct H as [ss H].
      congruence.
Qed.

Lemma render_result_returns_iff i (r : pydict) :
  (exists part, render_result repr_other i r = Ret part)
  <-> result_renders r = true.
Proof.
  unfold render_result, result_renders, subscript, dict_mem.
  destruct (dict_get r (u "title")); cbn [bind andb];
    [|split; [intros [part H]; discriminate | discriminate]].
  destruct (dict_get r (u "url")); cbn [bind andb];
    [|split; [intros [part H]; discriminate | discriminate]].
  destruct (dict_get r (u "content")) as [content|]; cbn [bind andb];
    [|split; [intros [part H]; discriminate | discriminate]].
  destruct content; cbn [bind slice_to sliceable];
    try (split; [intros [part H]; discriminate | discriminate]);
    (split; [reflexivity | intros _; eexists; reflexivity]).
Qed.

(** A loop returns exactly when each of its turns does. *)
Lemma mapM_returns_iff {A B : Type} (f : A -> result B) (ok : A -> bool)
      (xs : list A) :
  (forall x, (exists y, f x = Ret y) <-> ok x = true) ->
  (exists ys, mapM f xs = Ret ys) <-> forallb ok xs = true.
Proof.
  intros Hok. induction xs as [|x xs IH]; simpl.
  - split; [reflexivity | intros _; eexists; reflexivity].
  - split.
    + intros [ys H]. apply bind_ret_inv in H. destruct H as (y & Hy & H).
      apply bind_ret_inv in H. destruct H as (ys' & Hys & _).
      apply andb_true_intro. split;
        [apply Hok; exists y; exact Hy | apply IH; exists ys'; exact Hys].
    + intros H. apply andb_prop in H. destruct H as [H1 H2].
      apply Hok in H1. apply IH in H2.
      destruct H1 as [y Hy]. destruct H2 as [ys Hys].
      rewrite Hy. simpl. rewrite Hys. eexists. reflexivity.
Qed.

Lemma enumerate_returns_iff {A B : Type} (f : nat * A -> result B)
      (ok : A -> bool) (xs : list A) start :
  (forall i x, (exists y, f (i, x) = Ret y) <-> ok x = true) ->
  (exists ys, mapM f (enumerate xs start) = Ret ys) <-> forallb ok xs = true.
Proof.
  intros Hok. revert start. induction xs as [|x xs IH]; intros start; simpl.
  - split; [reflexivity | intros _; eexists; reflexivity].
  - split.
    + intros [ys H]. apply bind_ret_inv in H. destruct H as (y & Hy & H).
      apply bind_ret_inv in H. destruct H as (ys' & Hys & _).
      apply andb_true_intro. split;
        [apply (Hok start); exists y; exact Hy
        | apply (IH (S start)); exists ys'; exact Hys].
    + intros H. apply andb_prop in H. destruct H as [H1 H2].
      apply (Hok start) in H1. apply (IH (S start)) in H2.
      destruct H1 as [y Hy]. destruct H2 as [ys Hys].
      rewrite Hy. simpl. rewrite Hys. eexists. reflexivity.
Qed.

Lemma repo_parts_returns_iff (github_data : list pydict) :
  (exists rp, repo_parts repr_other github_data = Ret rp)
  <-> forallb repo_renders (firstn 30 github_data) = true.
Proof.
  unfold repo_parts. apply enumerate_returns_iff.
  intros i x. apply render_repo_returns_iff.
Qed.

Lemma category_parts_returns_iff (cr : pystr * list pydict) :
  (exists ps, category_parts str_upper repr_other cr = Ret ps)
  <-> forallb result_renders (firstn 15 (snd cr)) = true.
Proof.
  unfold category_parts.
  rewrite <- (enumerate_returns_iff
                (fun ir => render_result repr_other (fst ir) (snd ir))
                result_renders (firstn 15 (snd cr)) 1
                (fun i x => render_result_returns_iff i x)).
  split.
  - intros [ps H]. apply bind_ret_inv in H.
    destruct H as (rs & H & _). exists rs. exact H.
  - intros [rs H]. rewrite H. eexists. reflexivity.
Qed.

Lemma web_parts_returns_iff (web_data : list (pystr * list pydict)) :
  (exists wp, web_parts str_upper repr_other web_data = Ret wp)
  <-> forallb (fun cr => forallb result_renders (firstn 15 (snd cr)))
              web_data = true.
Proof.
  unfold web_parts.
  rewrite <- (mapM_returns_iff (category_parts str_upper repr_other)
                (fun cr => forallb result_renders (firstn 15 (snd cr)))
                web_data category_parts_returns_iff).
  split.
  - intros [wp H]. apply bind_ret_inv in H.
    destruct H as (pss & H & _). exists pss. exact H.
  - intros [pss H]. rewrite H. eexists. reflexivity.
Qed.

(** X1. The summary builder returns exactly when every record it visits
    can be rendered: each of the first 30 repositories has the keys
    [full_name], [stars], [description], [topics] and [language], with
    topics that are a text or a list whose first five items are texts;
    and each of the first 15 results of every category has [title], [url]
    and a [content] that is a text or a list. What comes after the 30th
    repository or the 15th result of a category is not looked at. *)
Theorem summary_returns_iff_inputs_render :
  forall (github_data : list pydict) (web_data : list (pystr * list pydict)),
    (exists text,
        _prepare_data_summary str_upper repr_other github_data web_data
        = Ret text)
    <-> summary_inputs_render github_data web_data = true.
Proof.
  intros github_data web_data.
  pose proof (repo_parts_returns_iff github_data) as Hrepo.
  pose proof (web_parts_returns_iff web_data) as Hweb.
  unfold summary_inputs_render, _prepare_data_summary, summary_parts.
  split.
  - intros [text H]. apply bind_ret_inv in H. destruct H as (parts & H & _).
    apply bind_ret_inv in H. destruct H as (rp & Hrp & H).
    apply bind_ret_inv in H. destruct H as (wp & Hwp & _).
    apply andb_true_intro. split;
      [apply Hrepo; exists rp; exact Hrp | apply Hweb; exists wp; exact Hwp].
  - intros H. apply andb_prop in H. destruct H as [H1 H2].
    apply Hrepo in H1. apply Hweb in H2.
    destruct H1 as [rp Hrp]. destruct H2 as [wp Hwp].
    rewrite Hrp. simpl. rewrite Hwp. eexists. reflexivity.
Qed.

End RenderFacts.

(** ** What the summary builder raises, and what it reads *)

Lemma mapM_raise_inv {A B : Type} (f : A -> result B) (xs : list A) e :
  mapM f xs = Raise e -> exists x, In x xs /\ f x = Raise e.
Proof.
  induction xs as [|x xs IH]; simpl; [discriminate|].
  destruct (f x) as [y|e'] eqn:Hx; simpl.
  - destruct (mapM f xs) as [ys|e'] eqn:Hxs; simpl; [discriminate|].
    intros H. injection H as <-.
    destruct (IH eq_refl) as (x' & Hin & Hx').
    exists x'. split; [right; exact Hin | exact Hx'].
  - intros H. injection H as <-. exists x. split; [left; reflexivity|exact Hx].
Qed.

Lemma mapM_ext_in {A B : Type} (f g : A -> result B) (xs : list A) :
  (forall x, In x xs -> f x = g x) -> mapM f xs = mapM g xs.
Proof.
  induction xs as [|x xs IH]; intros H; simpl; [reflexivity|].
  rewrite (H x) by (left; reflexivity).
  rewrite IH by (intros y Hy; apply H; right; exact Hy). reflexivity.
Qed.

Lemma mapM_map {A B C : Type} (f : B -> result C) (g : A -> B) xs :
  mapM f (List.map g xs) = mapM (fun x => f (g x)) xs.
Proof.
  induction xs as [|x xs IH]; simpl; [reflexivity|].
  rewrite IH. reflexivity.
Qed.

Lemma enumerate_map {A B : Type} (g : A -> B) (xs : list A) start :
  enumerate (List.map g xs) start
  = List.map (fun ix => (fst ix, g (snd ix))) (enumerate xs start).
Proof.
  revert start. induction xs as [|x xs IH]; intros start; simpl;
    [reflexivity | rewrite IH; reflexivity].
Qed.

Lemma firstn_map_firstn {A B : Type} (g : A -> B) n (xs : list A) :
  firstn n (List.map g (firstn n xs)) = List.map g (firstn n xs).
Proof.
  rewrite firstn_map, firstn_firstn, Nat.min_id. reflexivity.
Qed.

Lemma slice_to_trim n v : slice_to n (trim n v) = slice_to n v.
Proof.
  destruct v; simpl; try reflexivity;
    rewrite firstn_firstn, Nat.min_id; reflexivity.
Qed.

Lemma subscript_trim_field_other k n (d : pydict) k' :
  k' <> k -> subscript (trim_field k n d) k' = subscript d k'.
Proof.
  intros Hne. unfold subscript, trim_field.
  destruct (dict_get d k) as [v|]; [|reflexivity].
  rewrite dict_get_set_other by exact Hne. reflexivity.
Qed.

Lemma subscript_trim_field_same k n (d : pydict) :
  subscript (trim_field k n d) k
  = (v <- subscript d k ;; Ret (trim n v)).
Proof.
  unfold subscript, trim_field.
  destruct (dict_get d k) as [v|] eqn:E; simpl.
  - rewrite dict_get_set_same. reflexivity.
  - rewrite E. reflexivity.
Qed.

Ltac keys_differ :=
  let H := fresh "H" in
  intros H; apply (f_equal (fun k => pystr_eqb k (u "topics"))) in H;
  vm_compute in H; discriminate.

Ltac keys_differ' :=
  let H := fresh "H" in
  intros H; apply (f_equal (fun k => pystr_eqb k (u "content"))) in H;
  vm_compute in H; discriminate.

Section ReadFacts.

Variable str_upper : pystr -> pystr.
Variable repr_other : pyval -> pystr.

Lemma render_repo_raises i (repo : pydict) e :
  render_repo repr_other i repo = Raise e ->
  exn_cls e = KeyError \/ exn_cls e = TypeError.
Proof.
  unfold render_repo, subscript.
  destruct (dict_get repo (u "full_name")); cbn [bind];
    [|intros H; injection H as <-; left; reflexivity].
  destruct (dict_get repo (u "stars")); cbn [bind];
    [|intros H; injection H as <-; left; reflexivity].
  destruct (dict_get repo (u "description")); cbn [bind];
    [|intros H; injection H as <-; left; reflexivity].
  destruct (dict_get repo (u "topics")) as [topics|]; cbn [bind];
    [|intros H; injection H as <-; left; reflexivity].
  destruct topics as [| | | | s | l | d];
    cbn [bind slice_to str_join];
    try (intros H; injection H as <-; right; reflexivity).
  - destruct (dict_get repo (u "language")); cbn [bind];
      [discriminate | intros H; injection H as <-; left; reflexivity].
  - set (l5 := firstn 5 l).
    destruct (join_items 0 l5) as [ss|e'] eqn:E; cbn [bind].
    + destruct (dict_get repo (u "language")); cbn [bind];
        [discriminate | intros H; injection H as <-; left; reflexivity].
    + intros H. injection H as <-. right.
      exact (join_items_raises_TypeError _ _ E).
Qed.

Lemma render_result_raises i (r : pydict) e :
  render_result repr_other i r = Raise e ->
  exn_cls e = KeyError \/ exn_cls e = TypeError.
Proof.
  unfold render_result, subscript.
  destruct (dict_get r (u "title")); cbn [bind];
    [|intros H; injection H as <-; left; reflexivity].
  destruct (dict_get r (u "url")); cbn [bind];
    [|intros H; injection H as <-; left; reflexivity].
  destruct (dict_get r (u "content")) as [content|]; cbn [bind];
    [|intros H; injection H as <-; left; reflexivity].
  destruct content; cbn [bind slice_to];
    try discriminate; intros H; injection H as <-; right; reflexivity.
Qed.

Lemma category_parts_raises cr e :
  category_parts str_upper repr_other cr = Raise e ->
  exn_cls e = KeyError \/ exn_cls e = TypeError.
Proof.
  unfold category_parts.
  destruct (mapM _ _) as [rs|e'] eqn:E; cbn [bind]; [discriminate|].
  intros H. injection H as <-.
  apply mapM_raise_inv in E. destruct E as ([i r] & _ & E).
  exact (render_result_raises _ _ E).
Qed.

Lemma web_parts_raises web_data e :
  web_parts str_upper repr_other web_data = Raise e ->
  exn_cls e = KeyError \/ exn_cls e = TypeError.
Proof.
  unfold web_parts.
  destruct (mapM _ _) as [pss|e'] eqn:E; cbn [bind]; [discriminate|].
  intros H. injection H as <-.
  apply mapM_raise_inv in E. destruct E as (cr & _ & E).
  exact (category_parts_raises _ E).
Qed.

(** X2. The summary builder raises nothing but a KeyError (a record
    lacks a key it reads) or a TypeError (a value it slices or joins is
    of the wrong type). *)
Theorem summary_raises_KeyError_or_TypeError :
  forall (github_data : list pydict) (web_data : list (pystr * list pydict))
         e,
    _prepare_data_summary str_upper repr_other github_data web_data
    = Raise e ->
    exn_cls e = KeyError \/ exn_cls e = TypeError.
Proof.
  intros github_data web_data e.
  unfold _prepare_data_summary, summary_parts.
  destruct (repo_parts repr_other github_data) as [rp|e'] eqn:Hrp;
    cbn [bind].
  - destruct (web_parts str_upper repr_other web_data) as [wp|e'] eqn:Hwp;
      cbn [bind]; [discriminate|].
    intros H. injection H as <-. exact (web_parts_raises _ Hwp).
  - intros H. injection H as <-. unfold repo_parts in Hrp.
    apply mapM_raise_inv in Hrp. destruct Hrp as ([i repo] & _ & E).
    exact (render_repo_raises _ _ E).
Qed.

Lemma render_repo_trim i (repo : pydict) :
  render_repo repr_other i (trim_field (u "topics") 5 repo)
  = render_repo repr_other i repo.
Proof.
  unfold render_repo.
  rewrite subscript_trim_field_other by keys_differ.
  destruct (subscript repo (u "full_name")); cbn [bind]; [|reflexivity].
  rewrite subscript_trim_field_other by keys_differ.
  destruct (subscript repo (u "stars")); cbn [bind]; [|reflexivity].
  rewrite subscript_trim_field_other by keys_differ.
  destruct (subscript repo (u "description")); cbn [bind]; [|reflexivity].
  rewrite subscript_trim_field_same.
  destruct (subscript repo (u "topics")) as [topics|]; cbn [bind];
    [|reflexivity].
  rewrite slice_to_trim.
  destruct (slice_to 5 topics) as [topics5|]; cbn [bind]; [|reflexivity].
  destruct (str_join (u ", ") topics5); cbn [bind]; [|reflexivity].
  rewrite subscript_trim_field_other by keys_differ. reflexivity.
Qed.

Lemma render_result_trim i (r : pydict) :
  render_result repr_other i (trim_field (u "content") 200 r)
  = render_result repr_other i r.
Proof.
  unfold render_result.
  rewrite subscript_trim_field_other by keys_differ'.
  destruct (subscript r (u "title")); cbn [bind]; [|reflexivity].
  rewrite subscript_trim_field_other by keys_differ'.
  destruct (subscript r (u "url")); cbn [bind]; [|reflexivity].
  rewrite subscript_trim_field_same.
  destruct (subscript r (u "content")) as [content|]; cbn [bind];
    [|reflexivity].
  rewrite slice_to_trim. reflexivity.
Qed.

Lemma repo_parts_visited github_data :
  repo_parts repr_other (visited_repos github_data)
  = repo_parts repr_other github_data.
Proof.
  unfold repo_parts, visited_repos.
  rewrite firstn_map_firstn, enumerate_map, mapM_map.
  apply mapM_ext_in. intros [i repo] _. cbn [fst snd].
  apply render_repo_trim.
Qed.

Lemma category_parts_visited (cr : pystr * list pydict) :
  category_parts str_upper repr_other
    (fst cr, List.map (trim_field (u "content") 200) (firstn 15 (snd cr)))
  = category_parts str_upper repr_other cr.
Proof.
  unfold category_parts. cbn [fst snd].
  rewrite firstn_map_firstn, enumerate_map, mapM_map.
  rewrite (mapM_ext_in
             (fun x : nat * pydict =>
                render_result repr_other
                  (fst (fst x, trim_field (u "content") 200 (snd x)))
                  (snd (fst x, trim_field (u "content") 200 (snd x))))
             (fun ir => render_result repr_other (fst ir) (snd ir))).
  - reflexivity.
  - intros [i r] _. cbn [fst snd]. apply render_result_trim.
Qed.

Lemma web_parts_visited web_data :
  web_parts str_upper repr_other (visited_web web_data)
  = web_parts str_upper repr_other web_data.
Proof.
  unfold web_parts, visited_web. rewrite mapM_map.
  rewrite (mapM_ext_in
             (fun cr : pystr * list pydict =>
                category_parts str_upper repr_other
                  (fst cr,
                   List.map (trim_field (u "content") 200)
                            (firstn 15 (snd cr))))
             (category_parts str_upper repr_other)).
  - reflexivity.
  - intros cr _. apply category_parts_visited.
Qed.

(** X3. The summary builder reads nothing past its four bounds: the
    text it returns, or the exception it raises, is the same on the
    collected data and on what is left of them when only the first 30
    repositories with their first five topics, and the first 15 results
    of each category with the first 200 characters of their content, are
    kept. *)
Theorem summary_reads_only_visited_part :
  forall (github_data : list pydict) (web_data : list (pystr * list pydict)),
    _prepare_data_summary str_upper repr_other
      (visited_repos github_data) (visited_web web_data)
    = _prepare_data_summary str_upper repr_other github_data web_data.
Proof.
  intros github_data web_data.
  unfold _prepare_data_summary, summary_parts.
  rewrite repo_parts_visited, web_parts_visited. reflexivity.
Qed.

End ReadFacts.

Lemma summary_raises_witness :
  exn_cls (Exn KeyError (u "'full_name'")) = KeyError
  \/ exn_cls (Exn KeyError (u "'full_name'")) = TypeError.
Proof.
  apply (summary_raises_KeyError_or_TypeError
           Sample.ascii_upper Sample.opaque_repr
           [Sample.nameless_repo] []).
  vm_compute. reflexivity.
Defined.

(** ** What the parser returns and raises *)

Section ParserMore.

Variable str_upper : pystr -> pystr.
Variable repr_other : pyval -> pystr.
Variable json_loads : pystr -> result pyval.
Variable chat_content : pystr -> pystr -> Z -> result pyval.

Abbreviation summary3 := (_prepare_data_summary str_upper repr_other).
Abbreviation create3 :=
  (create_taxonomy str_upper repr_other json_loads chat_content).
Abbreviation answer3 keyword text :=
  (chat_content taxonomy_system (_build_taxonomy_prompt keyword text) 4000).

Lemma create_handlers_ret_error result_ e v :
  create_handlers repr_other result_ e = Ret v ->
  exists d, v = PDict d /\ dict_mem d (u "error") = true.
Proof.
  unfold create_handlers.
  destruct (is_JSONDecodeError e).
  - destruct result_ as [r|]; [|discriminate].
    destruct (stdout_write (py_str repr_other r)); cbn [bind];
      [|discriminate].
    intros H. injection H as <-. eexists. split; reflexivity.
  - destruct (is_Exception e); [|discriminate].
    intros H. injection H as <-. eexists. split; reflexivity.
Qed.

Lemma loads_content_ret content v :
  loads_content json_loads content = Ret v ->
  exists raw, content = PStr raw /\ json_loads raw = Ret v.
Proof.
  destruct content; simpl; try discriminate.
  intros H. eexists. split; [reflexivity | exact H].
Qed.

(** X4. Whatever [create_taxonomy] returns is a dict, and it is of one
    of two kinds: it has the key [error], or it is the object the answer
    of the backend decodes to. *)
Theorem create_returns_error_or_decoded_object :
  forall keyword github_data web_data v,
    create3 keyword github_data web_data = Ret v ->
    exists d,
      v = PDict d /\
      (dict_mem d (u "error") = true
       \/ exists text raw,
            summary3 github_data web_data = Ret text /\
            answer3 keyword text = Ret (PStr raw) /\
            json_loads raw = Ret (PDict d)).
Proof.
  intros keyword github_data web_data v.
  unfold create_taxonomy.
  destruct (summary3 github_data web_data) as [text|e] eqn:Hs; cbn [bind];
    [|discriminate].
  destruct (answer3 keyword text) as [content|e] eqn:Hc.
  - unfold parse_taxonomy.
    destruct (loads_content json_loads content) as [t|e] eqn:Hl; cbn [bind].
    + destruct (categories_count t) as [n|e] eqn:Hn; cbn [bind].
      * intros H. injection H as <-.
        apply categories_count_ret_dict in Hn. destruct Hn as (d & ->).
        apply loads_content_ret in Hl. destruct Hl as (raw & -> & Hl).
        exists d. split; [reflexivity|]. right.
        exists text, raw. repeat split; assumption.
      * intros H. apply create_handlers_ret_error in H.
        destruct H as (d & -> & H). exists d. split; [reflexivity|].
        left. exact H.
    + intros H. apply create_handlers_ret_error in H.
      destruct H as (d & -> & H). exists d. split; [reflexivity|].
      left. exact H.
  - intros H. apply create_handlers_ret_error in H.
    destruct H as (d & -> & H). exists d. split; [reflexivity|].
    left. exact H.
Qed.

Lemma create_handlers_raise result_ e e' :
  create_handlers repr_other result_ e = Raise e' ->
  (e' = e /\ is_Exception e = false)
  \/ (e' = unbound_result /\ result_ = None /\ is_JSONDecodeError e = true)
  \/ (exists r, result_ = Some r /\ is_JSONDecodeError e = true
                /\ encodable (py_str repr_other r) = false
                /\ e' = unicode_encode_error (py_str repr_other r)).
Proof.
  unfold create_handlers.
  destruct (is_JSONDecodeError e) eqn:Hj.
  - destruct result_ as [r|].
    + unfold stdout_write.
      destruct (encodable (py_str repr_other r)) eqn:Henc; cbn [bind];
        [discriminate|].
      intros H. injection H as <-. right. right.
      exists r. repeat split. exact Henc.
    + intros H. injection H as <-. right. left. repeat split.
  - destruct (is_Exception e) eqn:He; [discriminate|].
    intros H. injection H as <-. left. split; reflexivity.
Qed.

(** A JSONDecodeError of the [try] body, once [result] is bound, is the
    decoder's, on a text. *)
Lemma parse_taxonomy_decode_error content e :
  parse_taxonomy json_loads content = Raise e ->
  is_JSONDecodeError e = true ->
  exists raw, content = PStr raw /\ json_loads raw = Raise e.
Proof.
  unfold parse_taxonomy. intros H He.
  destruct content as [| | | | raw | |]; cbn [loads_content bind] in H;
    try (injection H as <-; discriminate).
  destruct (json_loads raw) as [t|e0] eqn:Hl; cbn [bind] in H.
  - destruct (categories_count t) as [n|e0] eqn:Hn; cbn [bind] in H;
      [discriminate|].
    injection H as <-.
    apply categories_count_raises_exception in Hn.
    destruct Hn as [_ Hn]. rewrite Hn in He. discriminate.
  - injection H as <-. exists raw. split; [reflexivity | exact Hl].
Qed.



End ParserMore.

Lemma create_returns_witness :
  exists d,
    PDict Sample.taxonomy = PDict d /\
    (dict_mem d (u "error") = true
     \/ exists text raw,
          _prepare_data_summary Sample.ascii_upper Sample.opaque_repr
            Sample.five_repos [] = Ret text /\
          Sample.answering (PStr (Json.text_of (PDict Sample.taxonomy)))
            taxonomy_system
            (_build_taxonomy_prompt (u "agentic AI") text) 4000
          = Ret (PStr raw) /\
          Json.loads raw = Ret (PDict d)).
Proof.
  apply (create_returns_error_or_decoded_object
           Sample.ascii_upper Sample.opaque_repr Json.loads
           (Sample.answering (PStr (Json.text_of (PDict Sample.taxonomy))))
           (u "agentic AI") Sample.five_repos []).
  vm_compute. reflexivity.
Defined.



(** ** What the enrichment merger keeps *)

Lemma dict_keys_set (d : pydict) k v :
  dict_keys (dict_set d k v)
  = if dict_mem d k then dict_keys d else dict_keys d ++ [k].
Proof.
  unfold dict_keys, dict_mem.
  induction d as [|[k0 v0] d IH]; simpl; [reflexivity|].
  destruct (pystr_eqb k0 k) eqn:E; simpl; [reflexivity|].
  rewrite IH. destruct (dict_get d k); reflexivity.
Qed.

Lemma dict_set_length_mem (d : pydict) k v :
  dict_mem d k = true -> length (dict_set d k v) = length d.
Proof.
  intros H. rewrite <- (length_map fst (dict_set d k v)).
  change (List.map fst (dict_set d k v)) with (dict_keys (dict_set d k v)).
  rewrite dict_keys_set, H. apply length_map.
Qed.

Section EnrichMore.

Variable json_loads : pystr -> result pyval.
Variable json_dumps : pyval -> pystr.
Variable chat_content : pystr -> pystr -> Z -> result pyval.

Abbreviation enrich2 := (enrich_taxonomy json_loads json_dumps chat_content).
Abbreviation enrich_call2 taxonomy :=
  (chat_content enrich_system
                (enrich_prompt (json_dumps (PDict taxonomy))) 2000).

Lemma enrich_body_ret taxonomy enriched :
  enrich_body json_loads json_dumps chat_content taxonomy = Ret enriched ->
  exists insights, enriched = dict_set taxonomy (u "insights") insights.
Proof.
  unfold enrich_body.
  destruct (enrich_call2 taxonomy) as [content|e]; cbn [bind];
    [|discriminate].
  destruct (loads_content json_loads content) as [insights|e]; cbn [bind];
    [|discriminate].
  intros H. injection H as <-. exists insights. reflexivity.
Qed.

(** X7. On every path on which [enrich_taxonomy] returns, the dict it
    returns has, under every key other than [insights], what the
    argument had; its keys are those of the argument in their order,
    with [insights] added last when it was not among them; and an
    argument with the key [error] comes back as it is. *)
Theorem enrich_changes_only_insights :
  forall (taxonomy enriched : pydict),
    enrich2 taxonomy = Ret enriched ->
    (forall k, k <> u "insights" ->
               dict_get enriched k = dict_get taxonomy k)
    /\ (dict_keys enriched = dict_keys taxonomy
        \/ (dict_mem taxonomy (u "insights") = false /\
            dict_keys enriched = dict_keys taxonomy ++ [u "insights"]))
    /\ (dict_mem taxonomy (u "error") = true -> enriched = taxonomy).
Proof.
  intros taxonomy enriched. unfold enrich_taxonomy.
  destruct (dict_mem taxonomy (u "error")) eqn:Herr.
  - intros H. injection H as <-. repeat split. left. reflexivity.
  - destruct (enrich_body json_loads json_dumps chat_content taxonomy)
      as [t|e] eqn:Hb.
    + intros H. injection H as <-.
      apply enrich_body_ret in Hb. destruct Hb as (insights & ->).
      split; [|split].
      * intros k Hk. apply dict_get_set_other. exact Hk.
      * rewrite dict_keys_set.
        destruct (dict_mem taxonomy (u "insights"));
          [left; reflexivity | right; split; reflexivity].
      * discriminate.
    + destruct (is_Exception e); [|discriminate].
      intros H. injection H as <-. split; [|split].
      * reflexivity.
      * left. reflexivity.
      * discriminate.
Qed.

(** X8. [enrich_taxonomy] lets no exception under [Exception] out: what
    it raises was raised by the backend or the decoder, is outside
    [Exception], and the argument had no [error] key. *)
Theorem enrich_raises_nothing_under_Exception :
  forall (taxonomy : pydict) e,
    enrich2 taxonomy = Raise e ->
    is_Exception e = false
    /\ dict_mem taxonomy (u "error") = false
    /\ (enrich_call2 taxonomy = Raise e
        \/ exists content,
             enrich_call2 taxonomy = Ret content
             /\ loads_content json_loads content = Raise e).
Proof.
  intros taxonomy e. unfold enrich_taxonomy, enrich_body.
  destruct (dict_mem taxonomy (u "error")); [discriminate|].
  destruct (enrich_call2 taxonomy) as [content|e0] eqn:Hc; cbn [bind].
  - destruct (loads_content json_loads content) as [insights|e0] eqn:Hl;
      cbn [bind]; [discriminate|].
    destruct (is_Exception e0) eqn:He; [discriminate|].
    intros H. injection H as <-. repeat split; [exact He|].
    right. exists content. split; [reflexivity | exact Hl].
  - destruct (is_Exception e0) eqn:He; [discriminate|].
    intros H. injection H as <-. repeat split; [exact He|].
    left. reflexivity.
Qed.

(** X9. A taxonomy that already has [insights] keeps its keys, their
    order and their number when the enrichment succeeds: the new value
    takes the place of the old one, which is lost, and it is whatever the
    answer decoded to, an object or not. *)
Theorem enrich_replaces_insights_in_place :
  forall (taxonomy : pydict) content insights,
    dict_mem taxonomy (u "error") = false ->
    dict_mem taxonomy (u "insights") = true ->
    enrich_call2 taxonomy = Ret content ->
    loads_content json_loads content = Ret insights ->
    exists enriched,
      enrich2 taxonomy = Ret enriched
      /\ dict_keys enriched = dict_keys taxonomy
      /\ length enriched = length taxonomy
      /\ dict_get enriched (u "insights") = Some insights
      /\ (forall k, k <> u "insights" ->
                    dict_get enriched k = dict_get taxonomy k).
Proof.
  intros taxonomy content insights Herr Hins Hc Hl.
  exists (dict_set taxonomy (u "insights") insights).
  split.
  { unfold enrich_taxonomy, enrich_body. rewrite Herr, Hc. cbn [bind].
    rewrite Hl. reflexivity. }
  split; [rewrite dict_keys_set, Hins; reflexivity|].
  split; [apply dict_set_length_mem; exact Hins|].
  split; [apply dict_get_set_same|].
  intros k Hk. apply dict_get_set_other. exact Hk.
Qed.

End EnrichMore.

Lemma enrich_changes_witness :
  (forall k, k <> u "insights" ->
             dict_get (Sample.taxonomy ++ [(u "insights", Sample.insights)]) k
             = dict_get Sample.taxonomy k)
  /\ (dict_keys (Sample.taxonomy ++ [(u "insights", Sample.insights)])
      = dict_keys Sample.taxonomy
      \/ (dict_mem Sample.taxonomy (u "insights") = false /\
          dict_keys (Sample.taxonomy ++ [(u "insights", Sample.insights)])
          = dict_keys Sample.taxonomy ++ [u "insights"]))
  /\ (dict_mem Sample.taxonomy (u "error") = true ->
      Sample.taxonomy ++ [(u "insights", Sample.insights)]
      = Sample.taxonomy).
Proof.
  apply (enrich_changes_only_insights
           Json.loads Json.text_of
           (Sample.answering (PStr (Json.text_of Sample.insights)))).
  vm_compute. reflexivity.
Defined.

Lemma enrich_raises_witness :
  is_Exception (Exn BaseOnly (u "KeyboardInterrupt")) = false
  /\ dict_mem Sample.taxonomy (u "error") = false
  /\ (Sample.failing (Exn BaseOnly (u "KeyboardInterrupt")) enrich_system
        (enrich_prompt (Json.text_of (PDict Sample.taxonomy))) 2000
      = Raise (Exn BaseOnly (u "KeyboardInterrupt"))
      \/ exists content,
           Sample.failing (Exn BaseOnly (u "KeyboardInterrupt"))
             enrich_system
             (enrich_prompt (Json.text_of (PDict Sample.taxonomy))) 2000
           = Ret content
           /\ loads_content Json.loads content
              = Raise (Exn BaseOnly (u "KeyboardInterrupt"))).
Proof.
  apply (enrich_raises_nothing_under_Exception
           Json.loads Json.text_of
           (Sample.failing (Exn BaseOnly (u "KeyboardInterrupt")))
           Sample.taxonomy).
  reflexivity.
Defined.

Lemma enrich_replaces_witness :
  exists enriched,
    enrich_taxonomy Json.loads Json.text_of
      (Sample.answering (PStr (u "[1, 2]")))
      (Sample.taxonomy ++ [(u "insights", Sample.insights)])
    = Ret enriched
    /\ dict_keys enriched
       = dict_keys (Sample.taxonomy ++ [(u "insights", Sample.insights)])
    /\ length enriched
       = length (Sample.taxonomy ++ [(u "insights", Sample.insights)])
    /\ dict_get enriched (u "insights") = Some (PList [PInt 1; PInt 2])
    /\ (forall k, k <> u "insights" ->
                  dict_get enriched k
                  = dict_get
                      (Sample.taxonomy ++ [(u "insights", Sample.insights)])
                      k).
Proof.
  apply (enrich_replaces_insights_in_place
           Json.loads Json.text_of
           (Sample.answering (PStr (u "[1, 2]")))
           (Sample.taxonomy ++ [(u "insights", Sample.insights)])
           (content := PStr (u "[1, 2]")));
    vm_compute; reflexivity.
Defined.

(** ** The web searcher *)

Lemma py_get_raises v k default e :
  py_get v k default = Raise e -> exn_cls e = AttributeError.
Proof.
  destruct v; simpl; intros H; try discriminate;
    injection H as <-; reflexivity.
Qed.

Lemma py_get_ret_dict v k default x :
  py_get v k default = Ret x -> exists d, v = PDict d.
Proof.
  destruct v; simpl; intros H; try discriminate. eexists. reflexivity.
Qed.

Lemma py_iter_raises v e :
  py_iter v = Raise e -> exn_cls e = TypeError.
Proof.
  destruct v; simpl; intros H; try discriminate;
    injection H as <-; reflexivity.
Qed.

Lemma in_firstn_in {A : Type} n (l : list A) x :
  In x (firstn n l) -> In x l.
Proof.
  revert l. induction n as [|n IH]; intros [|y l]; simpl; try tauto.
  intros [H | H]; [left; exact H | right; exact (IH _ H)].
Qed.

Lemma in_enumerate_in {A : Type} (xs : list A) start i x :
  In (i, x) (enumerate xs start) -> In x xs.
Proof.
  revert start. induction xs as [|y xs IH]; intros start; simpl; [tauto|].
  intros [H | H]; [left; congruence | right; exact (IH _ H)].
Qed.

Abbreviation result_of := TavilySearcher.result_of.
Abbreviation or_empty := TavilySearcher.or_empty.

Lemma result_of_dict (d : pydict) :
  exists r, result_of (PDict d) = Ret r /\ is_search_record r.
Proof.
  eexists. split; [reflexivity|].
  unfold is_search_record. repeat eexists.
Qed.

Lemma result_of_raises item e :
  result_of item = Raise e -> is_dict item = false /\ exn_cls e = AttributeError.
Proof.
  destruct item; simpl; intros H; try discriminate;
    injection H as <-; split; reflexivity.
Qed.

Lemma result_of_ret item r :
  result_of item = Ret r -> is_dict item = true /\ is_search_record r.
Proof.
  destruct item as [| | | | | |d]; simpl; intros H; try discriminate.
  split; [reflexivity|]. injection H as <-.
  unfold is_search_record. repeat eexists.
Qed.

Lemma mapM_result_of_dicts items :
  forallb is_dict items = true ->
  exists rs, mapM result_of items = Ret rs.
Proof.
  induction items as [|item items IH]; simpl; intros H.
  - eexists. reflexivity.
  - apply andb_prop in H. destruct H as [H1 H2].
    destruct item; try discriminate.
    destruct (IH H2) as (rs & Hrs). cbn [TavilySearcher.result_of py_get bind].
    rewrite Hrs. eexists. reflexivity.
Qed.

Lemma mapM_result_of_not_dict items :
  forallb is_dict items = false ->
  exists e, mapM result_of items = Raise e /\ exn_cls e = AttributeError.
Proof.
  induction items as [|item items IH]; simpl; intros H; [discriminate|].
  destruct (is_dict item) eqn:Hd; simpl in H.
  - destruct item; try discriminate.
    destruct (IH H) as (e & He & Hc). cbn [TavilySearcher.result_of py_get bind].
    rewrite He. exists e. split; [reflexivity | exact Hc].
  - destruct item; try discriminate; eexists; split; reflexivity.
Qed.

Section SearcherFacts.

Variable str_upper : pystr -> pystr.
Variable repr_other : pyval -> pystr.
Variable client_search :
  pystr -> Z -> pystr -> list pystr -> list pystr -> result pyval.

Abbreviation search_body := (TavilySearcher.search_body client_search).
Abbreviation search1 := (TavilySearcher.search client_search).
Abbreviation combine := (TavilySearcher.combine_searches client_search).

Lemma search_body_raises q m d inc exc e :
  search_body q m d inc exc = Raise e ->
  client_search q m d (or_empty inc) (or_empty exc) = Raise e
  \/ exn_cls e = AttributeError \/ exn_cls e = TypeError.
Proof.
  unfold TavilySearcher.search_body.
  destruct (client_search q m d (or_empty inc) (or_empty exc))
    as [response|e0]; cbn [bind];
    [|intros H; injection H as <-; left; reflexivity].
  destruct (py_get response (u "results") (PList [])) as [items|e0] eqn:Hg;
    cbn [bind].
  - destruct (py_iter items) as [l|e0] eqn:Hi; cbn [bind].
    + intros H. apply mapM_raise_inv in H. destruct H as (x & _ & H).
      apply result_of_raises in H. right. left. apply H.
    + intros H. injection H as <-. right. right.
      exact (py_iter_raises _ Hi).
  - intros H. injection H as <-. right. left.
    exact (py_get_raises _ _ _ Hg).
Qed.

Lemma search_body_ret q m d inc exc rs :
  search_body q m d inc exc = Ret rs ->
  Forall is_search_record rs.
Proof.
  unfold TavilySearcher.search_body. intros H.
  apply bind_ret_inv in H. destruct H as (response & _ & H).
  apply bind_ret_inv in H. destruct H as (items & _ & H).
  apply bind_ret_inv in H. destruct H as (l & _ & H).
  apply mapM_ret_Forall2 in H. clear -H.
  induction H as [|x y xs ys Hxy _ IH]; constructor; [|exact IH].
  apply result_of_ret in Hxy. apply Hxy.
Qed.

Lemma search_ret q m d inc exc rs :
  search1 q m d inc exc = Ret rs -> Forall is_search_record rs.
Proof.
  unfold TavilySearcher.search.
  destruct (search_body q m d inc exc) as [rs'|e] eqn:Hb.
  - intros H. injection H as <-. exact (search_body_ret _ _ _ _ _ Hb).
  - destruct (is_Exception e); [|discriminate].
    intros H. injection H as <-. constructor.
Qed.

Lemma search_raise_inv q m d inc exc e :
  search1 q m d inc exc = Raise e ->
  is_Exception e = false
  /\ client_search q m d (or_empty inc) (or_empty exc) = Raise e.
Proof.
  unfold TavilySearcher.search.
  destruct (search_body q m d inc exc) as [rs|e0] eqn:Hb;
    [discriminate|].
  destruct (is_Exception e0) eqn:He; [discriminate|].
  intros H. injection H as <-. split; [exact He|].
  apply search_body_raises in Hb.
  destruct Hb as [Hb | [Hb | Hb]]; [exact Hb | |];
    unfold is_Exception in He; rewrite Hb in He; discriminate.
Qed.

Lemma search_total q m d inc exc :
  (forall e, client_search q m d (or_empty inc) (or_empty exc) = Raise e ->
             is_Exception e = true) ->
  exists rs, search1 q m d inc exc = Ret rs.
Proof.
  intros Hex.
  destruct (search1 q m d inc exc) as [rs|e] eqn:Hs;
    [eexists; reflexivity|].
  apply search_raise_inv in Hs.
  destruct Hs as [He Hc]. rewrite (Hex e Hc) in He. discriminate.
Qed.



Lemma combine_ret keyword web :
  combine keyword = Ret web ->
  exists general tools ecosystem,
    web = [(u "general", general); (u "tools", tools);
           (u "ecosystem", ecosystem)]
    /\ Forall is_search_record general
    /\ Forall is_search_record tools
    /\ Forall is_search_record ecosystem.
Proof.
  unfold TavilySearcher.combine_searches,
    TavilySearcher.search_tools_and_projects,
    TavilySearcher.search_ecosystem_overview.
  intros H.
  apply bind_ret_inv in H. destruct H as (general & Hg & H).
  apply bind_ret_inv in H. destruct H as (tools & Ht & H).
  apply bind_ret_inv in H. destruct H as (ecosystem & He & H).
  injection H as <-. exists general, tools, ecosystem.
  split; [reflexivity|].
  split; [exact (search_ret _ _ _ _ _ Hg)|].
  split; [exact (search_ret _ _ _ _ _ Ht) | exact (search_ret _ _ _ _ _ He)].
Qed.

(** A search whose call raised, and which returned, returned the empty
    list. *)
Lemma search_failed q m d inc exc e rs :
  client_search q m d (or_empty inc) (or_empty exc) = Raise e ->
  search1 q m d inc exc = Ret rs -> rs = [].
Proof.
  intros Hc. unfold TavilySearcher.search, TavilySearcher.search_body.
  rewrite Hc. cbn [bind].
  destruct (is_Exception e); [|discriminate].
  intros H. injection H as <-. reflexivity.
Qed.


(** What makes the text of a record of [search] fail: its content
    cannot be sliced. *)
Lemma render_search_record_raises i r e :
  is_search_record r ->
  render_result repr_other i r = Raise e ->
  exists content,
    dict_get r (u "content") = Some content
    /\ sliceable content = false
    /\ slice_to 200 content = Raise e
    /\ (is_dict content = false -> e = not_subscriptable content).
Proof.
  intros (title & url & content & score & published_date & ->).
  unfold render_result.
  change (subscript _ (u "title")) with (Ret title). cbn [bind].
  change (subscript _ (u "url")) with (Ret url). cbn [bind].
  change (subscript _ (u "content")) with (Ret content). cbn [bind].
  intros H. exists content. split; [reflexivity|].
  destruct content; cbn [slice_to bind] in H; try discriminate;
    injection H as <-; repeat split; intros; discriminate.
Qed.

(** X13. On what [combine_searches] returns, the second loop of the
    summary builder never misses a key: when it raises, one of the first
    15 results of a category has a [content] that the service gave as
    something else than a text or a list (a [null], say, passed on by
    [get] in place of the default), which cannot be sliced; for a
    content that is no object the exception is the TypeError that names
    the type of the content. *)
Theorem summary_of_search_results_raises_for_content :
  forall keyword web e,
    combine keyword = Ret web ->
    web_parts str_upper repr_other web = Raise e ->
    exists category results r content,
      In (category, results) web
      /\ In r (firstn 15 results)
      /\ dict_get r (u "content") = Some content
      /\ sliceable content = false
      /\ (is_dict content = false ->
          e = Exn TypeError (u "'" ++ type_name content
                             ++ u "' object is not subscriptable")).
Proof.
  intros keyword web e Hc.
  apply combine_ret in Hc.
  destruct Hc as (general & tools & ecosystem & -> & Hg & Ht & He).
  unfold web_parts.
  destruct (mapM _ _) as [pss|e0] eqn:E; cbn [bind]; [discriminate|].
  intros H. injection H as <-.
  apply mapM_raise_inv in E. destruct E as ([category results] & Hin & E).
  unfold category_parts in E. cbn [fst snd] in E.
  destruct (mapM _ (enumerate (firstn 15 results) 1)) as [rs|e1] eqn:E1;
    cbn [bind] in E; [discriminate|].
  injection E as <-.
  apply mapM_raise_inv in E1. destruct E1 as ([i r] & Hir & E1).
  cbn [fst snd] in E1.
  assert (Hall : Forall is_search_record results).
  { destruct Hin as [H | [H | [H | []]]]; injection H as _ <-; assumption. }
  assert (Hr15 : In r (firstn 15 results))
    by exact (in_enumerate_in _ _ _ _ Hir).
  assert (Hr : In r results) by (apply (in_firstn_in 15); exact Hr15).
  rewrite Forall_forall in Hall.
  destruct (render_search_record_raises _ (Hall r Hr) E1)
    as (content & Hcontent & Hslice & _ & Hcls).
  exists category, results, r, content.
  repeat split; assumption.
Qed.

End SearcherFacts.




Lemma summary_of_search_results_witness :
  exists category results r content,
    In (category, results)
       (value_of []
          (TavilySearcher.combine_searches
             (TavilySearcher.answering
                (TavilySearcher.response [TavilySearcher.item (u "a") PNone]))
             (u "agentic AI")))
    /\ In r (firstn 15 results)
    /\ dict_get r (u "content") = Some content
    /\ sliceable content = false
    /\ (is_dict content = false ->
        Exn TypeError (u "'NoneType' object is not subscriptable")
        = Exn TypeError (u "'" ++ type_name content
                         ++ u "' object is not subscriptable")).
Proof.
  apply (summary_of_search_results_raises_for_content
           Sample.ascii_upper Sample.opaque_repr
           (TavilySearcher.answering
              (TavilySearcher.response [TavilySearcher.item (u "a") PNone]))
           (u "agentic AI"));
    vm_compute; reflexivity.
Defined.

(** ** The repository collector *)

Abbreviation repo_data := GitHubCollector.repo_data.
Abbreviation collect := GitHubCollector.collect.
Abbreviation get_topics := GitHubCollector.get_topics.

Lemma collect_ret_inv max_results items :
  forall results count rs,
    count = Z.of_nat (length results) ->
    collect max_results items results count = Ret rs ->
    exists more,
      rs = results ++ more
      /\ Forall is_repo_record more
      /\ (Z.of_nat (length rs)
          <= Z.max (Z.of_nat (length results)) max_results)%Z.
Proof.
  induction items as [|next items IH]; intros results count rs Hcount;
    cbn [GitHubCollector.collect].
  - intros H. injection H as <-. exists []. rewrite app_nil_r.
    split; [reflexivity|]. split; [constructor | lia].
  - destruct next as [repo|e]; cbn [bind]; [|discriminate].
    destruct (count >=? max_results)%Z eqn:Hge.
    + intros H. injection H as <-. exists []. rewrite app_nil_r.
      split; [reflexivity|]. split; [constructor | lia].
    + destruct (get_topics repo) as [topics|e] eqn:Ht; cbn [bind];
        [|discriminate].
      intros H. apply IH in H;
        [|rewrite length_app; simpl; lia].
      destruct H as (more & -> & Hmore & Hlen).
      exists (repo_data repo topics :: more).
      rewrite <- app_assoc. split; [reflexivity|].
      split; [constructor; [exists repo, topics; reflexivity | exact Hmore]|].
      rewrite Z.geb_leb in Hge. apply Z.leb_gt in Hge.
      rewrite !length_app in Hlen. rewrite !length_app.
      cbn [length] in *. lia.
Qed.

Lemma collect_fetched max_results items repos rest :
  fetched items repos ->
  forall results count,
    count = Z.of_nat (length results) ->
    rest = [] \/ Z.to_nat max_results - length results < length repos ->
    collect max_results (items ++ rest) results count
    = Ret (results
           ++ records_of (firstn (Z.to_nat max_results - length results)
                                 repos)).
Proof.
  induction 1 as [|item [repo topics] items repos [Hitem Htopics] _ IH];
    intros results count Hcount Hrest.
  - destruct Hrest as [-> | Hrest]; [|simpl in Hrest; lia].
    rewrite firstn_nil. unfold records_of.
    cbn [app GitHubCollector.collect List.map].
    rewrite app_nil_r. reflexivity.
  - cbn [fst snd] in Hitem, Htopics. subst item.
    cbn [app GitHubCollector.collect bind].
    destruct (count >=? max_results)%Z eqn:Hge.
    + apply Z.geb_le in Hge.
      replace (Z.to_nat max_results - length results) with 0 by lia.
      unfold records_of. cbn [firstn List.map].
      rewrite app_nil_r. reflexivity.
    + rewrite Z.geb_leb in Hge. apply Z.leb_gt in Hge.
      rewrite Htopics. cbn [bind].
      rewrite (IH (results ++ [repo_data repo topics]) (count + 1)%Z);
        [|rewrite length_app; simpl; lia
         |rewrite length_app; simpl;
          destruct Hrest as [-> | Hrest];
          [left; reflexivity | right; simpl in Hrest; lia]].
      rewrite length_app. cbn [length].
      replace (Z.to_nat max_results - length results)
        with (S (Z.to_nat max_results - (length results + 1))) by lia.
      rewrite <- app_assoc. reflexivity.
Qed.

Lemma collect_failing max_results items repos failing rest e :
  fetched items repos ->
  (failing = Raise e /\ length repos <= Z.to_nat max_results)
  \/ (exists repo, failing = Ret repo /\ get_topics repo = Raise e
                   /\ length repos < Z.to_nat max_results) ->
  forall results count,
    count = Z.of_nat (length results) ->
    length results = 0 ->
    collect max_results (items ++ failing :: rest) results count = Raise e.
Proof.
  intros Hf Hfail results count Hcount Hzero.
  assert (Hgen : forall results count,
             count = Z.of_nat (length results) ->
             ((failing = Raise e
               /\ length results + length repos <= Z.to_nat max_results)
              \/ (exists repo, failing = Ret repo
                               /\ get_topics repo = Raise e
                               /\ length results + length repos
                                  < Z.to_nat max_results)) ->
             collect max_results (items ++ failing :: rest) results count
             = Raise e).
  { clear results count Hcount Hzero Hfail.
    induction Hf as [|item [repo topics] items repos [Hitem Htopics] _ IH];
      intros results count Hcount Hfail.
    - cbn [app GitHubCollector.collect length] in *.
      destruct Hfail as [[-> _] | (repo & -> & Ht & Hlen)];
        [reflexivity|].
      cbn [bind].
      replace (count >=? max_results)%Z with false
        by (symmetry; rewrite Z.geb_leb; apply Z.leb_gt; lia).
      rewrite Ht. reflexivity.
    - cbn [fst snd] in Hitem, Htopics. subst item.
      cbn [app GitHubCollector.collect bind length] in *.
      replace (count >=? max_results)%Z with false
        by (symmetry; rewrite Z.geb_leb; apply Z.leb_gt;
            destruct Hfail as [[_ H] | (r & _ & _ & H)]; lia).
      rewrite Htopics. cbn [bind].
      apply IH; [rewrite length_app; simpl; lia|].
      rewrite length_app. cbn [length].
      destruct Hfail as [[Hr H] | (r & Hr & Ht & H)];
        [left; split; [exact Hr | lia]
        |right; exists r; split; [exact Hr | split; [exact Ht | lia]]]. }
  apply Hgen; [exact Hcount|].
  rewrite Hzero. exact Hfail.
Qed.

Lemma repo_record_renders r : is_repo_record r -> repo_renders r = true.
Proof.
  intros (repo & topics & ->).
  unfold repo_renders, GitHubCollector.repo_data.
  change (dict_mem _ (u "full_name")) with true.
  change (dict_mem _ (u "stars")) with true.
  change (dict_mem _ (u "description")) with true.
  change (dict_mem _ (u "language")) with true.
  change (dict_get _ (u "topics"))
    with (Some (PList (List.map PStr topics))).
  cbn [andb topics_joinable]. rewrite andb_true_r.
  assert (H : forall l, forallb is_str (List.map PStr l) = true)
    by (intros l; induction l; simpl; auto).
  rewrite firstn_map. apply H.
Qed.

Section CollectorFacts.

Variable str_upper : pystr -> pystr.
Variable repr_other : pyval -> pystr.
Variable github_search :
  pystr -> pystr -> pystr
  -> result (list (result GitHubCollector.repository)).
Variable start_date : Z -> result pystr.
Variable is_GithubException : exn -> bool.

Abbreviation search_repos :=
  (GitHubCollector.search_repositories github_search start_date
                                       is_GithubException).
Abbreviation repositories_of keyword date min_stars :=
  (github_search (GitHubCollector.query_of keyword date min_stars)
                 (u "stars") (u "desc")).

Lemma search_repos_ret keyword months_back max_results min_stars rs :
  search_repos keyword months_back max_results min_stars = Ret rs ->
  (Z.of_nat (length rs) <= Z.max 0 max_results)%Z
  /\ Forall is_repo_record rs.
Proof.
  unfold GitHubCollector.search_repositories.
  destruct (start_date (months_back * 30)) as [date|e]; cbn [bind];
    [|discriminate].
  destruct (repositories_of keyword date min_stars) as [items|e];
    cbn [bind].
  - destruct (collect max_results items [] 0) as [rs'|e] eqn:Hc.
    + intros H. injection H as <-.
      apply collect_ret_inv in Hc; [|reflexivity].
      destruct Hc as (more & -> & Hmore & Hlen).
      cbn [app length] in *. split; [exact Hlen | exact Hmore].
    + destruct (is_GithubException e); [|discriminate].
      intros H. injection H as <-. split; [simpl; lia | constructor].
  - destruct (is_GithubException e); [|discriminate].
    intros H. injection H as <-. split; [simpl; lia | constructor].
Qed.

(** X14. [search_repositories] returns at most [max_results] records
    (none when [max_results] is zero or negative), each built by the dict
    literal of the loop: twelve keys, [description] and [homepage] texts
    also when the repository has none, [topics] a list of texts. *)
Theorem search_repositories_bounded_records :
  forall keyword months_back max_results min_stars rs,
    search_repos keyword months_back max_results min_stars = Ret rs ->
    (Z.of_nat (length rs) <= Z.max 0 max_results)%Z
    /\ Forall (fun r =>
                 is_repo_record r
                 /\ List.length r = 12
                 /\ (exists d, dict_get r (u "description") = Some (PStr d))
                 /\ (exists h, dict_get r (u "homepage") = Some (PStr h))
                 /\ (exists ts, dict_get r (u "topics")
                                = Some (PList (List.map PStr ts))))
              rs.
Proof.
  intros keyword months_back max_results min_stars rs H.
  apply search_repos_ret in H. destruct H as [Hlen Hall].
  split; [exact Hlen|].
  eapply Forall_impl; [|exact Hall].
  intros r Hr. split; [exact Hr|].
  destruct Hr as (repo & topics & ->).
  split; [reflexivity|].
  split; [eexists; reflexivity|].
  split; eexists; reflexivity.
Qed.



(** X17. On what [search_repositories] returns, the first loop of the
    summary builder never raises: whether the summary is built is decided
    by the web results alone. *)
Theorem summary_of_collected_repositories :
  forall keyword months_back max_results min_stars github_data,
    search_repos keyword months_back max_results min_stars
    = Ret github_data ->
    (exists rp, repo_parts repr_other github_data = Ret rp)
    /\ (forall web_data,
          (exists text,
              _prepare_data_summary str_upper repr_other github_data web_data
              = Ret text)
          <-> (exists wp, web_parts str_upper repr_other web_data = Ret wp)).
Proof.
  intros keyword months_back max_results min_stars github_data H.
  apply search_repos_ret in H. destruct H as [_ Hall].
  assert (Hrp : exists rp, repo_parts repr_other github_data = Ret rp).
  { apply repo_parts_returns_iff. apply forallb_forall.
    intros r Hr. apply in_firstn_in in Hr.
    rewrite Forall_forall in Hall.
    exact (repo_record_renders (Hall r Hr)). }
  split; [exact Hrp|].
  destruct Hrp as (rp & Hrp). intros web_data.
  unfold _prepare_data_summary, summary_parts. rewrite Hrp. cbn [bind].
  split.
  - intros (text & H).
    destruct (web_parts str_upper repr_other web_data) as [wp|e];
      [eexists; reflexivity | discriminate].
  - intros (wp & ->). eexists. reflexivity.
Qed.

End CollectorFacts.

Lemma search_repositories_bounded_witness :
  (Z.of_nat
     (length
        (records_of
           [(GitHubCollector.sample 1, [u "ai"; u "agents"]);
            (GitHubCollector.sample 2, [u "ai"; u "agents"])]))
   <= Z.max 0 2)%Z.
Proof.
  apply (search_repositories_bounded_records
           (GitHubCollector.serving
              [Ret (GitHubCollector.sample 1);
               Ret (GitHubCollector.sample 2);
               Ret (GitHubCollector.sample 3)])
           (GitHubCollector.since (u "2025-01-01"))
           GitHubCollector.is_rate_limited
           (u "agentic AI") 3 2 0).
  reflexivity.
Defined.



Lemma summary_of_collected_witness :
  exists rp,
    repo_parts Sample.opaque_repr
      (records_of [(GitHubCollector.sample 1, [u "ai"; u "agents"])])
    = Ret rp.
Proof.
  apply (proj1 (summary_of_collected_repositories
                  Sample.ascii_upper Sample.opaque_repr
                  (GitHubCollector.serving [Ret (GitHubCollector.sample 1)])
                  (GitHubCollector.since (u "2025-01-01"))
                  GitHubCollector.is_rate_limited
                  (u "agentic AI") 3 2 0 eq_refl)).
Defined.

(** ** The names of the files *)

Abbreviation replace_char := EcosystemMapper.replace_char.
Abbreviation safe_keyword := EcosystemMapper.safe_keyword.

Lemma replace_char_not_in old new s :
  old <> new -> ~ In old (replace_char old new s).
Proof.
  intros Hne. unfold EcosystemMapper.replace_char.
  induction s as [|c s IH]; simpl; [tauto|].
  intros [H | H]; [|exact (IH H)].
  destruct (N.eqb c old) eqn:E; [congruence|].
  apply N.eqb_neq in E. congruence.
Qed.

Lemma replace_char_in old new s c :
  In c (replace_char old new s) -> c = new \/ In c s.
Proof.
  unfold EcosystemMapper.replace_char.
  induction s as [|c0 s IH]; simpl; [tauto|].
  intros [H | H].
  - destruct (N.eqb c0 old); [left; congruence | right; left; exact H].
  - destruct (IH H) as [H' | H']; [left; exact H' | right; right; exact H'].
Qed.

Lemma replace_char_id old new s :
  ~ In old s -> replace_char old new s = s.
Proof.
  unfold EcosystemMapper.replace_char.
  induction s as [|c s IH]; simpl; intros H; [reflexivity|].
  destruct (N.eqb c old) eqn:E.
  - apply N.eqb_eq in E. tauto.
  - rewrite IH by tauto. reflexivity.
Qed.

Lemma replace_char_nth old new s i c :
  nth_error s i = Some c -> c <> old ->
  nth_error (replace_char old new s) i = Some c.
Proof.
  intros H Hne. unfold EcosystemMapper.replace_char.
  revert i H. induction s as [|c0 s IH]; intros [|i] H; simpl in *;
    try discriminate.
  - injection H as ->.
    destruct (N.eqb c old) eqn:E; [|reflexivity].
    apply N.eqb_eq in E. contradiction.
  - exact (IH i H).
Qed.

Lemma safe_keyword_no_space keyword : ~ In 32%N (safe_keyword keyword).
Proof.
  unfold EcosystemMapper.safe_keyword. intros H.
  apply replace_char_in in H. destruct H as [H | H]; [discriminate|].
  revert H. apply replace_char_not_in. discriminate.
Qed.

Lemma safe_keyword_no_slash keyword : ~ In 47%N (safe_keyword keyword).
Proof.
  unfold EcosystemMapper.safe_keyword.
  apply replace_char_not_in. discriminate.
Qed.

Lemma not_in_literal c (s : pystr) :
  existsb (N.eqb c) s = false -> ~ In c s.
Proof.
  intros H Hin.
  assert (Ht : existsb (N.eqb c) s = true)
    by (apply existsb_exists; exists c; split;
        [exact Hin | apply N.eqb_refl]).
  congruence.
Qed.

(** X18. The keyword made safe for a file name has the length of the
    keyword, no space and no slash, and every other character where it
    was; so the three names given to [outputs_dir] hold no slash, and
    the files are written in that directory itself, whenever the time
    stamp holds none. *)
Theorem safe_keyword_has_no_separator :
  forall keyword,
    length (safe_keyword keyword) = length keyword
    /\ ~ In 32%N (safe_keyword keyword)
    /\ ~ In 47%N (safe_keyword keyword)
    /\ (forall i c,
          nth_error keyword i = Some c -> c <> 32%N -> c <> 47%N ->
          nth_error (safe_keyword keyword) i = Some c)
    /\ (forall timestamp,
          ~ In 47%N timestamp ->
          ~ In 47%N (EcosystemMapper.raw_data_name keyword timestamp)
          /\ ~ In 47%N (EcosystemMapper.taxonomy_name keyword timestamp)
          /\ ~ In 47%N (EcosystemMapper.latest_name keyword)).
Proof.
  intros keyword.
  split.
  { unfold EcosystemMapper.safe_keyword, EcosystemMapper.replace_char.
    rewrite !length_map. reflexivity. }
  split; [apply safe_keyword_no_space|].
  split; [apply safe_keyword_no_slash|].
  split.
  { intros i c H H32 H47. unfold EcosystemMapper.safe_keyword.
    apply replace_char_nth; [|exact H47].
    apply replace_char_nth; [exact H | exact H32]. }
  intros timestamp Hts.
  unfold EcosystemMapper.raw_data_name, EcosystemMapper.taxonomy_name,
    EcosystemMapper.latest_name.
  pose proof (safe_keyword_no_slash keyword) as Hk.
  assert (H1 : ~ In 47%N (u "_raw_data_"))
    by (apply not_in_literal; reflexivity).
  assert (H2 : ~ In 47%N (u ".json"))
    by (apply not_in_literal; reflexivity).
  assert (H3 : ~ In 47%N (u "_taxonomy_"))
    by (apply not_in_literal; reflexivity).
  assert (H4 : ~ In 47%N (u "_taxonomy_latest.json"))
    by (apply not_in_literal; reflexivity).
  repeat split; intros H;
    repeat (apply in_app_or in H; destruct H as [H | H]); tauto.
Qed.

(** X19. The safe keyword does not tell keywords apart: for every
    keyword that holds a space or a slash there is another keyword with
    the same safe form, hence the same file names; the runs on the two
    write the same latest file. *)
Theorem keywords_share_file_names :
  forall keyword,
    In 32%N keyword \/ In 47%N keyword ->
    exists other,
      other <> keyword
      /\ safe_keyword other = safe_keyword keyword
      /\ EcosystemMapper.latest_name other
         = EcosystemMapper.latest_name keyword
      /\ (forall timestamp,
            EcosystemMapper.taxonomy_name other timestamp
            = EcosystemMapper.taxonomy_name keyword timestamp).
Proof.
  intros keyword Hin.
  assert (Hidem : safe_keyword (safe_keyword keyword) = safe_keyword keyword).
  { unfold EcosystemMapper.safe_keyword at 1.
    rewrite (@replace_char_id 32%N 95%N _ (safe_keyword_no_space keyword)).
    apply replace_char_id. apply safe_keyword_no_slash. }
  exists (safe_keyword keyword).
  split.
  { intros Heq. destruct Hin as [H | H]; rewrite <- Heq in H;
      [exact (safe_keyword_no_space _ H) | exact (safe_keyword_no_slash _ H)]. }
  split; [exact Hidem|].
  unfold EcosystemMapper.latest_name, EcosystemMapper.taxonomy_name.
  rewrite Hidem. split; reflexivity.
Qed.

Lemma keywords_share_witness :
  exists other,
    other <> u "agentic AI"
    /\ safe_keyword other = safe_keyword (u "agentic AI")
    /\ EcosystemMapper.latest_name other
       = EcosystemMapper.latest_name (u "agentic AI")
    /\ (forall timestamp,
          EcosystemMapper.taxonomy_name other timestamp
          = EcosystemMapper.taxonomy_name (u "agentic AI") timestamp).
Proof.
  apply (keywords_share_file_names (u "agentic AI")).
  left. vm_compute. tauto.
Defined.

(** ** The printed summary *)

Lemma snd_and_then {L A B : Type} (m : EcosystemMapper.logged L A)
      (f : A -> EcosystemMapper.logged L B) :
  snd (EcosystemMapper.and_then m f) = bind (snd m) (fun a => snd (f a)).
Proof. unfold EcosystemMapper.and_then. destruct (snd m); reflexivity. Qed.

Lemma bind_raise_inv {A B : Type} (m : result A) (f : A -> result B) e :
  bind m f = Raise e -> m = Raise e \/ exists a, m = Ret a /\ f a = Raise e.
Proof.
  destruct m as [a|e0]; simpl; intros H.
  - right. exists a. split; [reflexivity | exact H].
  - left. injection H as <-. reflexivity.
Qed.

Lemma for_each_returns {L A : Type} (xs : list A)
      (body : A -> EcosystemMapper.logged L unit) :
  (forall x, In x xs -> snd (body x) = Ret tt) ->
  snd (EcosystemMapper.for_each xs body) = Ret tt.
Proof.
  induction xs as [|x xs IH]; intros H; cbn [EcosystemMapper.for_each];
    [reflexivity|].
  rewrite snd_and_then, (H x) by (left; reflexivity). cbn [bind].
  apply IH. intros y Hy. apply H. right. exact Hy.
Qed.

Lemma for_each_raise_inv {L A : Type} (xs : list A)
      (body : A -> EcosystemMapper.logged L unit) e :
  snd (EcosystemMapper.for_each xs body) = Raise e ->
  exists x, In x xs /\ snd (body x) = Raise e.
Proof.
  induction xs as [|x xs IH]; cbn [EcosystemMapper.for_each];
    [discriminate|].
  rewrite snd_and_then. intros H. apply bind_raise_inv in H.
  destruct H as [H | (a & _ & H)].
  - exists x. split; [left; reflexivity | exact H].
  - destruct (IH H) as (y & Hy & Hb).
    exists y. split; [right; exact Hy | exact Hb].
Qed.

Lemma for_each_raises {L A : Type} (xs : list A)
      (body : A -> EcosystemMapper.logged L unit) x :
  In x xs -> (exists e, snd (body x) = Raise e) ->
  exists e, snd (EcosystemMapper.for_each xs body) = Raise e.
Proof.
  intros Hin (e & He).
  induction xs as [|y xs IH]; [destruct Hin|].
  cbn [EcosystemMapper.for_each]. rewrite snd_and_then.
  destruct Hin as [-> | Hin].
  - rewrite He. exists e. reflexivity.
  - destruct (snd (body y)) as [a|e0]; cbn [bind];
      [exact (IH Hin) | exists e0; reflexivity].
Qed.

Lemma in_enumerate {A : Type} (xs : list A) x :
  In x xs -> forall start, exists i, In (i, x) (enumerate xs start).
Proof.
  induction xs as [|y xs IH]; intros Hin start; [destruct Hin|].
  destruct Hin as [-> | Hin]; simpl.
  - exists start. left. reflexivity.
  - destruct (IH Hin (S start)) as (i & Hi). exists i. right. exact Hi.
Qed.

Lemma str_field_get (d : pydict) k :
  str_field d k = true -> exists s, dict_get d k = Some (PStr s).
Proof.
  unfold str_field.
  destruct (dict_get d k) as [[| | | | s | |]|]; try discriminate.
  intros _. exists s. reflexivity.
Qed.

Lemma str_list_field_get (d : pydict) k :
  str_list_field d k = true ->
  exists l, dict_get d k = Some (PList l) /\ forallb is_str l = true.
Proof.
  unfold str_list_field.
  destruct (dict_get d k) as [[| | | | | l |]|]; try discriminate.
  intros H. exists l. split; [reflexivity | exact H].
Qed.

(** The exceptions of the protocols are lookup errors. *)
Lemma subscript_lookup (d : pydict) k e :
  subscript d k = Raise e -> is_lookup_error e = true.
Proof.
  unfold subscript. destruct (dict_get d k); [discriminate|].
  intros H. injection H as <-. reflexivity.
Qed.

Lemma py_subscript_lookup v k e :
  py_subscript v k = Raise e -> is_lookup_error e = true.
Proof.
  destruct v; simpl; try (intros H; injection H as <-; reflexivity).
  apply subscript_lookup.
Qed.

Lemma py_get_lookup v k default e :
  py_get v k default = Raise e -> is_lookup_error e = true.
Proof.
  intros H. apply py_get_raises in H.
  unfold is_lookup_error. rewrite H. reflexivity.
Qed.

Lemma py_len_lookup v e : py_len v = Raise e -> is_lookup_error e = true.
Proof.
  destruct v; simpl; try discriminate;
    intros H; injection H as <-; reflexivity.
Qed.

Lemma slice_to_lookup n v e :
  slice_to n v = Raise e -> is_lookup_error e = true.
Proof.
  destruct v; simpl; try discriminate;
    intros H; injection H as <-; reflexivity.
Qed.

Lemma py_iter_lookup v e : py_iter v = Raise e -> is_lookup_error e = true.
Proof.
  intros H. apply py_iter_raises in H.
  unfold is_lookup_error. rewrite H. reflexivity.
Qed.

Lemma py_contains_lookup v k e :
  py_contains v k = Raise e -> is_lookup_error e = true.
Proof.
  destruct v; simpl; try discriminate;
    intros H; injection H as <-; reflexivity.
Qed.

Ltac outcome :=
  repeat first
    [ reflexivity
    | rewrite snd_and_then;
      cbn [snd EcosystemMapper.lift EcosystemMapper.print
           EcosystemMapper.done bind]
    | match goal with
      | |- bind ?r _ = bind ?r _ => destruct r; cbn [bind]
      end ].

Ltac lookup H :=
  first
    [ exact (subscript_lookup _ _ H)
    | exact (py_subscript_lookup _ _ H)
    | exact (py_get_lookup _ _ _ H)
    | exact (py_len_lookup _ H)
    | exact (slice_to_lookup _ _ H)
    | exact (py_iter_lookup _ H)
    | exact (py_contains_lookup _ _ H) ].

(** One step of a chain of calls that ended in an exception: the call
    raised it, or it returned and the rest raised. *)
Ltac peel H :=
  let E := fresh "E" in
  apply bind_raise_inv in H;
  destruct H as [E | (? & _ & H)]; [lookup E|].

Section PrintFacts.

Variable repr_other : pyval -> pystr.

Abbreviation print_example := (EcosystemMapper.print_example repr_other).
Abbreviation print_category := (EcosystemMapper.print_category repr_other).
Abbreviation print_key_trends :=
  (EcosystemMapper.print_key_trends repr_other).
Abbreviation print_insights := (EcosystemMapper.print_insights repr_other).
Abbreviation print_summary := (EcosystemMapper._print_summary repr_other).

(** How each part ends, as a chain of the calls that can raise. *)
Lemma print_example_outcome example :
  snd (print_example example)
  = (_ <- py_subscript example (u "name") ;;
     description <- py_get example (u "description") (PStr (u "N/A")) ;;
     _ <- slice_to 60 description ;;
     Ret tt).
Proof. unfold EcosystemMapper.print_example. outcome. Qed.

Lemma print_category_outcome i category :
  snd (print_category (i, category))
  = (examples <- py_get category (u "examples") (PList []) ;;
     _ <- py_len examples ;;
     subcategories <- py_get category (u "subcategories") (PList []) ;;
     _ <- py_len subcategories ;;
     _ <- py_subscript category (u "name") ;;
     _ <- py_subscript category (u "description") ;;
     examples <- py_get category (u "examples") (PList []) ;;
     examples3 <- slice_to 3 examples ;;
     examples3 <- py_iter examples3 ;;
     snd (EcosystemMapper.for_each examples3 print_example)).
Proof.
  unfold EcosystemMapper.print_category. cbn [fst snd]. outcome.
Qed.

Lemma print_key_trends_outcome (taxonomy : pydict) :
  snd (print_key_trends taxonomy)
  = if dict_mem taxonomy (u "key_trends") then
      key_trends <- subscript taxonomy (u "key_trends") ;;
      _ <- py_iter key_trends ;;
      Ret tt
    else Ret tt.
Proof.
  unfold EcosystemMapper.print_key_trends.
  destruct (dict_mem taxonomy (u "key_trends")); [|reflexivity].
  rewrite snd_and_then. cbn [snd EcosystemMapper.print bind].
  rewrite snd_and_then. cbn [snd EcosystemMapper.lift].
  destruct (subscript taxonomy (u "key_trends")) as [key_trends|e];
    cbn [bind]; [|reflexivity].
  rewrite snd_and_then. cbn [snd EcosystemMapper.lift].
  destruct (py_iter key_trends) as [l|e]; cbn [bind]; [|reflexivity].
  apply for_each_returns. reflexivity.
Qed.

Lemma print_insights_outcome (taxonomy : pydict) :
  snd (print_insights taxonomy)
  = if dict_mem taxonomy (u "insights") then
      insights <- subscript taxonomy (u "insights") ;;
      _ <- py_get insights (u "maturity_level") (PStr (u "N/A")) ;;
      has_gaps <- py_contains insights (u "ecosystem_gaps") ;;
      if has_gaps : bool then
        gaps <- py_subscript insights (u "ecosystem_gaps") ;;
        _ <- py_len gaps ;;
        Ret tt
      else Ret tt
    else Ret tt.
Proof.
  unfold EcosystemMapper.print_insights.
  destruct (dict_mem taxonomy (u "insights")); [|reflexivity].
  rewrite snd_and_then. cbn [snd EcosystemMapper.lift].
  destruct (subscript taxonomy (u "insights")) as [insights|e];
    cbn [bind]; [|reflexivity].
  rewrite snd_and_then. cbn [snd EcosystemMapper.print bind].
  rewrite snd_and_then. cbn [snd EcosystemMapper.lift].
  destruct (py_get insights (u "maturity_level") (PStr (u "N/A")));
    cbn [bind]; [|reflexivity].
  rewrite snd_and_then. cbn [snd EcosystemMapper.print bind].
  rewrite snd_and_then. cbn [snd EcosystemMapper.lift].
  destruct (py_contains insights (u "ecosystem_gaps")) as [[|]|e];
    cbn [bind]; try reflexivity.
  outcome.
Qed.

Lemma print_summary_outcome (taxonomy : pydict) :
  snd (print_summary taxonomy)
  = if dict_mem taxonomy (u "error") then
      _ <- subscript taxonomy (u "error") ;;
      Ret tt
    else
      let categories := dict_get_or taxonomy (u "categories") (PList []) in
      _ <- py_len categories ;;
      categories <- py_iter categories ;;
      _ <- snd (EcosystemMapper.for_each (enumerate categories 1)
                                         print_category) ;;
      _ <- snd (print_key_trends taxonomy) ;;
      _ <- snd (print_insights taxonomy) ;;
      Ret tt.
Proof.
  unfold EcosystemMapper._print_summary.
  rewrite snd_and_then. cbn [snd EcosystemMapper.print bind].
  rewrite snd_and_then. cbn [snd EcosystemMapper.print bind].
  rewrite snd_and_then. cbn [snd EcosystemMapper.print bind].
  destruct (dict_mem taxonomy (u "error")).
  - outcome.
  - rewrite snd_and_then. cbn [snd EcosystemMapper.print bind].
    rewrite snd_and_then. cbn [snd EcosystemMapper.print bind].
    cbv zeta.
    rewrite snd_and_then. cbn [snd EcosystemMapper.lift].
    destruct (py_len _); cbn [bind]; [|reflexivity].
    rewrite snd_and_then. cbn [snd EcosystemMapper.print bind].
    rewrite snd_and_then. cbn [snd EcosystemMapper.lift].
    destruct (py_iter _) as [categories|e]; cbn [bind]; [|reflexivity].
    rewrite snd_and_then.
    destruct (snd (EcosystemMapper.for_each _ _)); cbn [bind];
      [|reflexivity].
    rewrite snd_and_then.
    destruct (snd (print_key_trends taxonomy)); cbn [bind]; [|reflexivity].
    rewrite snd_and_then.
    destruct (snd (print_insights taxonomy)); cbn [bind]; reflexivity.
Qed.

Lemma print_example_returns example :
  is_example example = true -> snd (print_example example) = Ret tt.
Proof.
  destruct example as [| | | | | |d]; try discriminate.
  cbn [is_example]. intros H.
  apply andb_prop in H. destruct H as [H _].
  apply andb_prop in H. destruct H as [H _].
  apply andb_prop in H. destruct H as [Hn Hd].
  apply str_field_get in Hn. destruct Hn as (n & Hn).
  apply str_field_get in Hd. destruct Hd as (s & Hd).
  rewrite print_example_outcome.
  cbn [py_subscript py_get]. unfold subscript. rewrite Hn, Hd.
  reflexivity.
Qed.

Lemma print_category_returns i category :
  is_category category = true -> snd (print_category (i, category)) = Ret tt.
Proof.
  destruct category as [| | | | | |d]; try discriminate.
  cbn [is_category]. intros H.
  apply andb_prop in H. destruct H as [H _].
  apply andb_prop in H. destruct H as [H He].
  apply andb_prop in H. destruct H as [H Hs].
  apply andb_prop in H. destruct H as [Hn Hd].
  apply str_field_get in Hn. destruct Hn as (n & Hn).
  apply str_field_get in Hd. destruct Hd as (s & Hd).
  apply str_list_field_get in Hs. destruct Hs as (subs & Hs & _).
  destruct (dict_get d (u "examples")) as [[| | | | | examples |]|] eqn:Hex;
    try discriminate.
  rewrite print_category_outcome.
  cbn [py_subscript py_get]. unfold subscript.
  rewrite Hex, Hs, Hn, Hd. cbn [bind py_len slice_to py_iter].
  apply for_each_returns. intros x Hx. apply print_example_returns.
  apply in_firstn_in in Hx.
  rewrite forallb_forall in He. exact (He x Hx).
Qed.

Lemma print_summary_returns (taxonomy : pydict) :
  is_taxonomy taxonomy = true ->
  insights_readable taxonomy = true ->
  snd (print_summary taxonomy) = Ret tt.
Proof.
  intros H Hi. rewrite print_summary_outcome.
  destruct (dict_mem taxonomy (u "error")) eqn:Herr.
  { unfold subscript. unfold dict_mem in Herr.
    destruct (dict_get taxonomy (u "error")); [reflexivity|discriminate]. }
  unfold is_taxonomy in H.
  apply andb_prop in H. destruct H as [H _].
  apply andb_prop in H. destruct H as [H Hk].
  apply andb_prop in H. destruct H as [_ Hc].
  destruct (dict_get taxonomy (u "categories"))
    as [[| | | | | categories |]|] eqn:Hcats; try discriminate.
  apply str_list_field_get in Hk. destruct Hk as (trends & Hk & _).
  cbv zeta. unfold dict_get_or. rewrite Hcats.
  cbn [py_len py_iter bind].
  rewrite for_each_returns.
  - cbn [bind]. rewrite print_key_trends_outcome, print_insights_outcome.
    unfold dict_mem, subscript. rewrite Hk. cbn [bind py_iter].
    unfold insights_readable in Hi.
    destruct (dict_get taxonomy (u "insights")) as [[| | | | | |insights]|];
      try discriminate; [|reflexivity].
    cbn [bind py_get py_contains py_subscript]. unfold dict_mem, subscript.
    destruct (dict_get insights (u "ecosystem_gaps")) as [gaps|];
      [|reflexivity].
    cbn [bind]. destruct gaps; try discriminate; reflexivity.
  - intros [i category] Hin. apply print_category_returns.
    apply in_enumerate_in in Hin.
    rewrite forallb_forall in Hc. exact (Hc category Hin).
Qed.

Lemma print_example_lookup example e :
  snd (print_example example) = Raise e -> is_lookup_error e = true.
Proof.
  rewrite print_example_outcome. intros H.
  peel H. peel H. peel H. discriminate.
Qed.

Lemma print_category_lookup ic e :
  snd (print_category ic) = Raise e -> is_lookup_error e = true.
Proof.
  destruct ic as [i category].
  rewrite print_category_outcome. intros H.
  do 9 peel H.
  apply for_each_raise_inv in H. destruct H as (example & _ & H).
  exact (print_example_lookup _ H).
Qed.

Lemma print_summary_lookup (taxonomy : pydict) e :
  snd (print_summary taxonomy) = Raise e -> is_lookup_error e = true.
Proof.
  rewrite print_summary_outcome.
  destruct (dict_mem taxonomy (u "error")); intros H.
  - peel H. discriminate.
  - cbv zeta in H. peel H. peel H.
    apply bind_raise_inv in H. destruct H as [H | (? & _ & H)].
    { apply for_each_raise_inv in H. destruct H as (ic & _ & H).
      exact (print_category_lookup _ H). }
    apply bind_raise_inv in H. destruct H as [H | (? & _ & H)].
    { rewrite print_key_trends_outcome in H.
      destruct (dict_mem taxonomy (u "key_trends")); [|discriminate].
      peel H. peel H. discriminate. }
    apply bind_raise_inv in H. destruct H as [H | (? & _ & H)];
      [|discriminate].
    rewrite print_insights_outcome in H.
    destruct (dict_mem taxonomy (u "insights")); [|discriminate].
    peel H. peel H. peel H.
    match type of H with
    | (if ?b then _ else _) = _ => destruct b; [|discriminate]
    end.
    peel H. peel H. discriminate.
Qed.

Lemma find_unencodable_none (log : list pystr) :
  forallb encodable log = true ->
  find (fun text => negb (encodable text)) log = None.
Proof.
  induction log as [|text log IH]; [reflexivity|].
  cbn [forallb find]. intros H. apply andb_prop in H.
  destruct H as [Ht Hl]. rewrite Ht. exact (IH Hl).
Qed.

Lemma find_unencodable_some (log : list pystr) :
  forallb encodable log = false ->
  exists text,
    find (fun text => negb (encodable text)) log = Some text
    /\ In text log /\ encodable text = false.
Proof.
  induction log as [|text log IH]; [discriminate|].
  cbn [forallb find]. destruct (encodable text) eqn:Ht; cbn [andb negb].
  - intros H. destruct (IH H) as (t & Hf & Hin & Henc).
    exists t. repeat split; [exact Hf | right; exact Hin | exact Henc].
  - intros _. exists text.
    repeat split; [left; reflexivity | exact Ht].
Qed.

Lemma encodable_app (a b : pystr) :
  encodable (a ++ b) = (encodable a && encodable b)%bool.
Proof. apply forallb_app. Qed.

(** X20. On every taxonomy of the shape the prompt asks for whose
    [insights], if there are any, are an object with countable
    [ecosystem_gaps], [_print_summary] misses no key and no type: it
    prints a header of three lines first, and it reaches its end when
    standard output can encode every line it prints; otherwise it raises
    the UnicodeEncodeError of one of its lines. *)
Theorem print_summary_returns_on_printable_taxonomy :
  forall (taxonomy : pydict),
    is_taxonomy taxonomy = true ->
    insights_readable taxonomy = true ->
    firstn 3 (fst (print_summary taxonomy))
    = [nl ++ EcosystemMapper.rule; u "TAXONOMY SUMMARY";
       EcosystemMapper.rule]
    /\ (forallb encodable (fst (print_summary taxonomy)) = true ->
        EcosystemMapper.on_stdout (print_summary taxonomy) = Ret tt)
    /\ (forallb encodable (fst (print_summary taxonomy)) = false ->
        exists text,
          In text (fst (print_summary taxonomy))
          /\ encodable text = false
          /\ EcosystemMapper.on_stdout (print_summary taxonomy)
             = Raise (unicode_encode_error text)).
Proof.
  intros taxonomy H Hi. split; [|split].
  - unfold EcosystemMapper._print_summary, EcosystemMapper.and_then.
    cbn [snd fst EcosystemMapper.print app firstn]. reflexivity.
  - intros Henc. unfold EcosystemMapper.on_stdout.
    rewrite (find_unencodable_none _ Henc).
    exact (print_summary_returns _ H Hi).
  - intros Henc.
    destruct (find_unencodable_some _ Henc) as (text & Hf & Hin & Ht).
    exists text. split; [exact Hin|]. split; [exact Ht|].
    unfold EcosystemMapper.on_stdout. rewrite Hf. reflexivity.
Qed.

(** X21. What [_print_summary] raises is a KeyError, a TypeError or an
    AttributeError of its lookups, or the UnicodeEncodeError of a line
    that standard output cannot encode. On a dict that has the key
    [error] it raises none of the first three, whatever else the dict
    holds: it prints the header and the error, and returns when
    standard output can encode the error. *)
Theorem print_summary_raises_lookup_or_encoding_errors :
  forall (taxonomy : pydict),
    (forall e, EcosystemMapper.on_stdout (print_summary taxonomy) = Raise e ->
               exn_cls e = UnicodeEncodeError
               \/ (is_lookup_error e = true
                   /\ dict_mem taxonomy (u "error") = false))
    /\ (forall error,
          dict_get taxonomy (u "error") = Some error ->
          fst (print_summary taxonomy)
          = [nl ++ EcosystemMapper.rule; u "TAXONOMY SUMMARY";
             EcosystemMapper.rule;
             nl ++ EcosystemMapper.cross ++ u " Error: "
             ++ py_str repr_other error]
          /\ EcosystemMapper.on_stdout (print_summary taxonomy)
             = if encodable (py_str repr_other error) then Ret tt
               else Raise (unicode_encode_error
                             (nl ++ EcosystemMapper.cross ++ u " Error: "
                              ++ py_str repr_other error))).
Proof.
  intros taxonomy. split.
  - intros e. unfold EcosystemMapper.on_stdout.
    destruct (find _ _) as [text|].
    + intros H. injection H as <-. left. reflexivity.
    + intros H. right. split; [exact (print_summary_lookup _ H)|].
      rewrite print_summary_outcome in H. unfold subscript, dict_mem in *.
      destruct (dict_get taxonomy (u "error")); [discriminate | reflexivity].
  - intros error H.
    assert (Hrun : print_summary taxonomy
                   = ([nl ++ EcosystemMapper.rule; u "TAXONOMY SUMMARY";
                       EcosystemMapper.rule;
                       nl ++ EcosystemMapper.cross ++ u " Error: "
                       ++ py_str repr_other error],
                      Ret tt)).
    { unfold EcosystemMapper._print_summary, EcosystemMapper.and_then,
        dict_mem, subscript.
      rewrite H. reflexivity. }
    rewrite Hrun. split; [reflexivity|].
    unfold EcosystemMapper.on_stdout. cbn [fst snd find].
    change (encodable (nl ++ EcosystemMapper.rule)) with true.
    change (encodable (u "TAXONOMY SUMMARY")) with true.
    change (encodable EcosystemMapper.rule) with true.
    cbn [negb].
    rewrite (encodable_app nl), (encodable_app EcosystemMapper.cross),
      (encodable_app (u " Error: ")).
    change (encodable nl) with true.
    change (encodable EcosystemMapper.cross) with true.
    change (encodable (u " Error: ")) with true.
    cbn [andb].
    destruct (encodable (py_str repr_other error)); reflexivity.
Qed.

Lemma print_summary_raises_on_category (taxonomy : pydict) categories
      category :
  dict_mem taxonomy (u "error") = false ->
  dict_get taxonomy (u "categories") = Some (PList categories) ->
  In category categories ->
  (is_dict category = false
   \/ exists d, category = PDict d /\ dict_mem d (u "name") = false) ->
  exists e, snd (print_summary taxonomy) = Raise e.
Proof.
  intros Herr Hcats Hin Hbad.
  rewrite print_summary_outcome, Herr. cbv zeta.
  unfold dict_get_or. rewrite Hcats. cbn [py_len py_iter bind].
  destruct (in_enumerate _ _ Hin 1) as (i & Hi).
  destruct (for_each_raises _ print_category _ Hi) as (e & He).
  - rewrite print_category_outcome.
    destruct Hbad as [Hd | (d & -> & Hname)].
    + destruct category; try discriminate; eexists; reflexivity.
    + destruct (bind _ _) as [[]|e] eqn:E; [|exists e; reflexivity].
      exfalso. cbn [py_get bind] in E.
      apply bind_ret_inv in E. destruct E as (? & _ & E).
      apply bind_ret_inv in E. destruct E as (? & _ & E).
      cbn [py_subscript] in E. unfold subscript, dict_mem in *.
      destruct (dict_get d (u "name")); discriminate.
  - exists e. rewrite He. reflexivity.
Qed.

End PrintFacts.

Lemma print_summary_returns_witness :
  EcosystemMapper.on_stdout
    (EcosystemMapper._print_summary Sample.opaque_repr Sample.taxonomy)
  = Ret tt.
Proof.
  apply (print_summary_returns_on_printable_taxonomy
           Sample.opaque_repr Sample.taxonomy);
    vm_compute; reflexivity.
Defined.

Lemma print_summary_raises_witness :
  exn_cls (unicode_encode_error
             (nl ++ u "Overview: " ++ [56320%N])) = UnicodeEncodeError
  \/ (is_lookup_error (unicode_encode_error
                         (nl ++ u "Overview: " ++ [56320%N])) = true
      /\ dict_mem [(u "overview", PStr [56320%N])] (u "error") = false).
Proof.
  apply (proj1 (print_summary_raises_lookup_or_encoding_errors
                  Sample.opaque_repr [(u "overview", PStr [56320%N])])).
  vm_compute. reflexivity.
Defined.

(** ** The run of the orchestrator *)

Lemma and_then_ret {L A B : Type} (l : list L) (a : A)
      (f : A -> EcosystemMapper.logged L B) :
  EcosystemMapper.and_then (l, Ret a) f = (l ++ fst (f a), snd (f a)).
Proof. reflexivity. Qed.

Lemma and_then_raise {L A B : Type} (l : list L) e
      (f : A -> EcosystemMapper.logged L B) :
  EcosystemMapper.and_then (l, Raise e) f = (l, Raise e).
Proof. reflexivity. Qed.

Lemma and_then_lift_ret {L A B : Type} (r : result A) (a : A)
      (f : A -> EcosystemMapper.logged L B) :
  r = Ret a -> EcosystemMapper.and_then (EcosystemMapper.lift r) f = f a.
Proof.
  intros ->. unfold EcosystemMapper.lift. rewrite and_then_ret.
  destruct (f a). reflexivity.
Qed.

Lemma and_then_lift_raise {L A B : Type} (r : result A) e
      (f : A -> EcosystemMapper.logged L B) :
  r = Raise e ->
  EcosystemMapper.and_then (EcosystemMapper.lift r) f = ([], Raise e).
Proof. intros ->. reflexivity. Qed.

Lemma and_then_ret_eq {L A B : Type} (l : list L) (a : A)
      (f : A -> EcosystemMapper.logged L B) l2 r :
  f a = (l2, r) -> EcosystemMapper.and_then (l, Ret a) f = (l ++ l2, r).
Proof. intros H. rewrite and_then_ret, H. reflexivity. Qed.

Lemma and_then_ret_nil {L A B : Type} (l : list L) (a : A)
      (f : A -> EcosystemMapper.logged L B) r :
  f a = ([], r) -> EcosystemMapper.and_then (l, Ret a) f = (l, r).
Proof. intros H. rewrite and_then_ret, H. cbn [fst snd]. rewrite app_nil_r. reflexivity. Qed.

Lemma and_then_done {L A B : Type} (a : A)
      (f : A -> EcosystemMapper.logged L B) :
  EcosystemMapper.and_then (EcosystemMapper.done a) f = f a.
Proof.
  unfold EcosystemMapper.done. rewrite and_then_ret.
  destruct (f a). reflexivity.
Qed.

Lemma and_then_ret_inv {L A B : Type} (m : EcosystemMapper.logged L A)
      (f : A -> EcosystemMapper.logged L B) log b :
  EcosystemMapper.and_then m f = (log, Ret b) ->
  exists l1 a l2, m = (l1, Ret a) /\ f a = (l2, Ret b) /\ log = l1 ++ l2.
Proof.
  destruct m as [l1 [a|e]]; [rewrite and_then_ret | rewrite and_then_raise];
    intros H; [|discriminate].
  injection H as <- H. exists l1, a, (fst (f a)).
  split; [reflexivity|]. split; [|reflexivity].
  destruct (f a) as [l2 r]. cbn [fst snd] in *. rewrite H. reflexivity.
Qed.

Lemma lift_ret_inv {L A : Type} (r : result A) (l : list L) a :
  EcosystemMapper.lift r = (l, Ret a) -> l = [] /\ r = Ret a.
Proof.
  unfold EcosystemMapper.lift. intros H. injection H as <- ->.
  split; reflexivity.
Qed.

Lemma insights_is_not_error : u "error" <> u "insights".
Proof.
  intros H. apply (f_equal (@length _)) in H. vm_compute in H. discriminate.
Qed.

Lemma insights_is_not_categories : u "categories" <> u "insights".
Proof.
  intros H. apply (f_equal (@length _)) in H. vm_compute in H. discriminate.
Qed.

Section RunFacts.

Variable str_upper : pystr -> pystr.
Variable repr_other : pyval -> pystr.
Variable json_loads : pystr -> result pyval.
Variable json_dumps : pyval -> pystr.
Variable chat_content : pystr -> pystr -> Z -> result pyval.
Variable client_search :
  pystr -> Z -> pystr -> list pystr -> list pystr -> result pyval.
Variable github_search :
  pystr -> pystr -> pystr
  -> result (list (result GitHubCollector.repository)).
Variable start_date : Z -> result pystr.
Variable is_GithubException : exn -> bool.
Variable write_file : pystr -> result unit.
Variable raw_timestamp : pystr.
Variable taxonomy_timestamp : pystr.

Abbreviation run :=
  (EcosystemMapper.map_ecosystem
     str_upper repr_other json_loads json_dumps chat_content client_search
     github_search start_date is_GithubException write_file raw_timestamp
     taxonomy_timestamp).
Abbreviation collected keyword months_back max_github_repos :=
  (GitHubCollector.search_repositories
     github_search start_date is_GithubException
     keyword months_back max_github_repos 0).
Abbreviation searched keyword :=
  (TavilySearcher.combine_searches client_search keyword).
Abbreviation created :=
  (create_taxonomy str_upper repr_other json_loads chat_content).
Abbreviation enriched :=
  (enrich_taxonomy json_loads json_dumps chat_content).
Abbreviation save := (EcosystemMapper.save write_file).
Abbreviation save_taxonomy :=
  (EcosystemMapper._save_taxonomy write_file taxonomy_timestamp).
Abbreviation raw_file keyword github_data web_data :=
  (EcosystemMapper.Saved
     (EcosystemMapper.raw_data_name keyword raw_timestamp)
     (EcosystemMapper.raw_data keyword raw_timestamp github_data web_data)).
Abbreviation taxonomy_files keyword taxonomy :=
  [EcosystemMapper.Saved
     (EcosystemMapper.taxonomy_name keyword taxonomy_timestamp)
     (PDict taxonomy);
   EcosystemMapper.Saved (EcosystemMapper.latest_name keyword)
                         (PDict taxonomy)].

Lemma save_ret_inv name content log :
  save name content = (log, Ret tt) ->
  log = [EcosystemMapper.Saved name content].
Proof.
  unfold EcosystemMapper.save.
  destruct (write_file name); intros H; [|discriminate].
  injection H as <-. reflexivity.
Qed.

Lemma save_writable name content :
  write_file name = Ret tt ->
  save name content = ([EcosystemMapper.Saved name content], Ret tt).
Proof. intros H. unfold EcosystemMapper.save. rewrite H. reflexivity. Qed.

Lemma save_taxonomy_ret_inv keyword taxonomy log :
  save_taxonomy keyword taxonomy = (log, Ret tt) ->
  log = taxonomy_files keyword taxonomy.
Proof.
  unfold EcosystemMapper._save_taxonomy. intros H.
  apply and_then_ret_inv in H. destruct H as (l1 & [] & l2 & H1 & H2 & ->).
  apply save_ret_inv in H1. apply save_ret_inv in H2. subst. reflexivity.
Qed.

Lemma save_taxonomy_writable keyword taxonomy :
  (forall name, write_file name = Ret tt) ->
  save_taxonomy keyword taxonomy
  = (taxonomy_files keyword taxonomy, Ret tt).
Proof.
  intros Hw. unfold EcosystemMapper._save_taxonomy.
  rewrite !save_writable by apply Hw. reflexivity.
Qed.

Lemma enriched_ret_get_other (taxonomy enriched_ : pydict) k :
  enriched taxonomy = Ret enriched_ ->
  k <> u "insights" ->
  dict_get enriched_ k = dict_get taxonomy k.
Proof.
  unfold enrich_taxonomy. intros H Hk.
  destruct (dict_mem taxonomy (u "error")); [injection H as <-; reflexivity|].
  destruct (enrich_body json_loads json_dumps chat_content taxonomy)
    as [t|e] eqn:Hb.
  - injection H as <-. apply enrich_body_ret in Hb.
    destruct Hb as (insights & ->). apply dict_get_set_other. exact Hk.
  - destruct (is_Exception e); [|discriminate].
    injection H as <-. reflexivity.
Qed.

(** The run once the two collectors have returned. *)
Lemma run_after_collection keyword max_github_repos months_back enrich
      save_raw github_data web_data :
  collected keyword months_back max_github_repos = Ret github_data ->
  searched keyword = Ret web_data ->
  run keyword max_github_repos months_back enrich save_raw
  = EcosystemMapper.and_then
      (if save_raw
       then EcosystemMapper._save_raw_data
              write_file raw_timestamp keyword github_data web_data
       else EcosystemMapper.done tt)
      (fun _ =>
         EcosystemMapper.and_then
           (EcosystemMapper.lift (created keyword github_data web_data))
           (fun taxonomy =>
              let taxonomy := EcosystemMapper.the_dict taxonomy in
              EcosystemMapper.and_then
                (if (enrich && negb (dict_mem taxonomy (u "error")))%bool
                 then EcosystemMapper.lift (enriched taxonomy)
                 else EcosystemMapper.done taxonomy)
                (fun taxonomy =>
                   EcosystemMapper.and_then
                     (save_taxonomy keyword taxonomy)
                     (fun _ =>
                        EcosystemMapper.and_then
                          (EcosystemMapper.lift
                             (snd (EcosystemMapper._print_summary
                                     repr_other taxonomy)))
                          (fun _ => EcosystemMapper.done taxonomy))))).
Proof.
  intros Hg Hw. unfold EcosystemMapper.map_ecosystem.
  rewrite (and_then_lift_ret _ Hg), (and_then_lift_ret _ Hw). reflexivity.
Qed.

(** X22. What a run returns is what it saved: when [map_ecosystem]
    returns a taxonomy, the last two files it wrote are the dated file
    and the latest file of the keyword, both holding that taxonomy, and
    before them it wrote the raw data file if [save_raw] is set and
    nothing otherwise. *)
Theorem map_ecosystem_returns_what_it_saved :
  forall keyword max_github_repos months_back enrich save_raw log taxonomy,
    run keyword max_github_repos months_back enrich save_raw
    = (log, Ret taxonomy) ->
    exists github_data web_data,
      collected keyword months_back max_github_repos = Ret github_data
      /\ searched keyword = Ret web_data
      /\ log = (if save_raw then [raw_file keyword github_data web_data]
                else [])
               ++ taxonomy_files keyword taxonomy.
Proof.
  intros keyword max_github_repos months_back enrich save_raw log taxonomy H.
  unfold EcosystemMapper.map_ecosystem in H.
  apply and_then_ret_inv in H.
  destruct H as (l1 & github_data & l1' & Hg & H & ->).
  apply lift_ret_inv in Hg. destruct Hg as [-> Hg].
  apply and_then_ret_inv in H.
  destruct H as (l2 & web_data & l2' & Hw & H & ->).
  apply lift_ret_inv in Hw. destruct Hw as [-> Hw].
  exists github_data, web_data. split; [exact Hg|]. split; [exact Hw|].
  apply and_then_ret_inv in H. destruct H as (l3 & [] & l3' & Hr & H & ->).
  apply and_then_ret_inv in H. destruct H as (l4 & v & l4' & Hc & H & ->).
  apply lift_ret_inv in Hc. destruct Hc as [-> Hc].
  cbv zeta in H.
  apply and_then_ret_inv in H. destruct H as (l5 & t & l5' & He & H & ->).
  apply and_then_ret_inv in H. destruct H as (l6 & [] & l6' & Hs & H & ->).
  apply and_then_ret_inv in H. destruct H as (l7 & [] & l7' & Hp & H & ->).
  apply lift_ret_inv in Hp. destruct Hp as [-> Hp].
  unfold EcosystemMapper.done in H. injection H as <- <-.
  apply save_taxonomy_ret_inv in Hs. subst l6.
  assert (Hl5 : l5 = []).
  { destruct (enrich && negb _)%bool.
    - apply lift_ret_inv in He. apply He.
    - unfold EcosystemMapper.done in He. injection He as <- _. reflexivity. }
  subst l5. cbn [app]. rewrite ?app_nil_r.
  f_equal. destruct save_raw.
  - unfold EcosystemMapper._save_raw_data in Hr.
    apply save_ret_inv in Hr. exact Hr.
  - unfold EcosystemMapper.done in Hr. injection Hr as <-. reflexivity.
Qed.

(** X23. A failed analysis ends as a normal run: when [create_taxonomy]
    returns a dict with the key [error] and the files can be written,
    [map_ecosystem] asks for no enrichment, whatever [enrich] is, writes
    the error dict to the dated file and over the latest file of the
    keyword, and returns it. *)
Theorem map_ecosystem_saves_error_results :
  forall keyword max_github_repos months_back enrich save_raw
         github_data web_data failure,
    collected keyword months_back max_github_repos = Ret github_data ->
    searched keyword = Ret web_data ->
    created keyword github_data web_data = Ret (PDict failure) ->
    dict_mem failure (u "error") = true ->
    (forall name, write_file name = Ret tt) ->
    run keyword max_github_repos months_back enrich save_raw
    = ((if save_raw then [raw_file keyword github_data web_data] else [])
       ++ taxonomy_files keyword failure,
       Ret failure).
Proof.
  intros keyword max_github_repos months_back enrich save_raw
         github_data web_data failure Hg Hw Hc Herr Hwrite.
  rewrite (run_after_collection _ _ _ _ _ Hg Hw).
  assert (Hraw : (if save_raw
                  then EcosystemMapper._save_raw_data
                         write_file raw_timestamp keyword github_data web_data
                  else EcosystemMapper.done tt)
                 = ((if save_raw
                     then [raw_file keyword github_data web_data] else []),
                    Ret tt)).
  { destruct save_raw; [|reflexivity].
    unfold EcosystemMapper._save_raw_data. apply save_writable. apply Hwrite. }
  rewrite Hraw. apply and_then_ret_eq.
  rewrite (and_then_lift_ret _ Hc).
  cbv zeta. cbn [EcosystemMapper.the_dict]. rewrite Herr.
  rewrite andb_false_r, and_then_done.
  rewrite (save_taxonomy_writable _ _ Hwrite). apply and_then_ret_nil.
  assert (Hp : snd (EcosystemMapper._print_summary repr_other failure)
               = Ret tt).
  { rewrite print_summary_outcome, Herr. unfold subscript, dict_mem in *.
    destruct (dict_get failure (u "error")); [reflexivity | discriminate]. }
  rewrite (and_then_lift_ret _ Hp). reflexivity.
Qed.

(** X24. The raw data are saved before the analysis starts: when the
    summary builder raises, [map_ecosystem] raises the same exception,
    having written the raw data file if [save_raw] is set, and no
    taxonomy file. *)
Theorem map_ecosystem_summary_failure_after_raw_data :
  forall keyword max_github_repos months_back enrich save_raw
         github_data web_data e,
    collected keyword months_back max_github_repos = Ret github_data ->
    searched keyword = Ret web_data ->
    _prepare_data_summary str_upper repr_other github_data web_data
    = Raise e ->
    write_file (EcosystemMapper.raw_data_name keyword raw_timestamp)
    = Ret tt ->
    run keyword max_github_repos months_back enrich save_raw
    = ((if save_raw then [raw_file keyword github_data web_data] else []),
       Raise e).
Proof.
  intros keyword max_github_repos months_back enrich save_raw
         github_data web_data e Hg Hw Hs Hwrite.
  rewrite (run_after_collection _ _ _ _ _ Hg Hw).
  assert (Hc : created keyword github_data web_data = Raise e)
    by (apply create_summary_raises; exact Hs).
  destruct save_raw.
  - unfold EcosystemMapper._save_raw_data.
    rewrite (save_writable _ Hwrite). apply and_then_ret_nil.
    rewrite (and_then_lift_raise _ Hc). reflexivity.
  - rewrite and_then_done.
    rewrite (and_then_lift_raise _ Hc). reflexivity.
Qed.

(** X25. The parser lets through what the printed summary cannot read:
    when [create_taxonomy] returns an object without the key [error]
    whose [categories] list holds an item that is not an object, or an
    object without [name], the run writes both taxonomy files and then
    raises a KeyError, a TypeError or an AttributeError from
    [_print_summary]; nothing is returned. *)
Theorem map_ecosystem_raises_after_saving :
  forall keyword max_github_repos months_back (enrich save_raw : bool)
         github_data web_data (taxonomy final : pydict) categories category,
    collected keyword months_back max_github_repos = Ret github_data ->
    searched keyword = Ret web_data ->
    created keyword github_data web_data = Ret (PDict taxonomy) ->
    dict_mem taxonomy (u "error") = false ->
    (if enrich then enriched taxonomy else Ret taxonomy) = Ret final ->
    dict_get taxonomy (u "categories") = Some (PList categories) ->
    In category categories ->
    (is_dict category = false
     \/ exists d, category = PDict d /\ dict_mem d (u "name") = false) ->
    (forall name, write_file name = Ret tt) ->
    exists e,
      run keyword max_github_repos months_back enrich save_raw
      = ((if save_raw then [raw_file keyword github_data web_data] else [])
         ++ taxonomy_files keyword final,
         Raise e)
      /\ is_lookup_error e = true.
Proof.
  intros keyword max_github_repos months_back enrich save_raw
         github_data web_data taxonomy final categories category
         Hg Hw Hc Herr He Hcats Hin Hbad Hwrite.
  assert (Hfinal : forall k, k <> u "insights" ->
                             dict_get final k = dict_get taxonomy k).
  { intros k Hk. destruct enrich.
    - exact (enriched_ret_get_other _ He Hk).
    - injection He as <-. reflexivity. }
  assert (Herr' : dict_mem final (u "error") = false)
    by (unfold dict_mem in *;
        rewrite (Hfinal _ insights_is_not_error); exact Herr).
  assert (Hcats' : dict_get final (u "categories") = Some (PList categories))
    by (rewrite (Hfinal _ insights_is_not_categories); exact Hcats).
  destruct (@print_summary_raises_on_category
              repr_other final categories category
              Herr' Hcats' Hin Hbad) as (e & Hp).
  exists e. split; [|exact (@print_summary_lookup repr_other final e Hp)].
  rewrite (run_after_collection _ _ _ _ _ Hg Hw).
  assert (Hraw : (if save_raw
                  then EcosystemMapper._save_raw_data
                         write_file raw_timestamp keyword github_data web_data
                  else EcosystemMapper.done tt)
                 = ((if save_raw
                     then [raw_file keyword github_data web_data] else []),
                    Ret tt)).
  { destruct save_raw; [|reflexivity].
    unfold EcosystemMapper._save_raw_data. apply save_writable. apply Hwrite. }
  rewrite Hraw. apply and_then_ret_eq.
  rewrite (and_then_lift_ret _ Hc).
  cbv zeta. cbn [EcosystemMapper.the_dict]. rewrite Herr.
  cbn [negb]. rewrite andb_true_r.
  assert (Hen : (if enrich
                 then @EcosystemMapper.lift EcosystemMapper.saved _
                        (enriched taxonomy)
                 else EcosystemMapper.done taxonomy)
                = EcosystemMapper.done final).
  { destruct enrich; [rewrite He; reflexivity|].
    injection He as <-. reflexivity. }
  rewrite Hen, and_then_done.
  rewrite (save_taxonomy_writable _ _ Hwrite). apply and_then_ret_nil.
  rewrite (and_then_lift_raise _ Hp). reflexivity.
Qed.

End RunFacts.

Lemma map_ecosystem_returns_witness :
  exists github_data web_data,
    GitHubCollector.search_repositories
      RunSample.github RunSample.clock GitHubCollector.is_rate_limited
      (u "agentic AI") 3 50 0 = Ret github_data
    /\ TavilySearcher.combine_searches RunSample.client (u "agentic AI")
       = Ret web_data
    /\ fst (RunSample.run RunSample.client
              (PStr (Json.text_of (PDict Sample.taxonomy))) false true)
       = (if true
          then [EcosystemMapper.Saved
                  (EcosystemMapper.raw_data_name (u "agentic AI")
                                                 (u "20250101_120000"))
                  (EcosystemMapper.raw_data (u "agentic AI")
                                            (u "20250101_120000")
                                            github_data web_data)]
          else [])
         ++ [EcosystemMapper.Saved
               (EcosystemMapper.taxonomy_name (u "agentic AI")
                                              (u "20250101_120500"))
               (PDict Sample.taxonomy);
             EcosystemMapper.Saved
               (EcosystemMapper.latest_name (u "agentic AI"))
               (PDict Sample.taxonomy)].
Proof.
  apply (map_ecosystem_returns_what_it_saved
           Sample.ascii_upper Sample.opaque_repr Json.loads Json.text_of
           (Sample.answering (PStr (Json.text_of (PDict Sample.taxonomy))))
           RunSample.client RunSample.github RunSample.clock
           GitHubCollector.is_rate_limited EcosystemMapper.writable
           (u "20250101_120000") (u "20250101_120500")
           (u "agentic AI") 50 3 false true).
  vm_compute. reflexivity.
Defined.

Lemma map_ecosystem_saves_error_witness :
  RunSample.run RunSample.client (PStr (u "not json at all")) true false
  = ([EcosystemMapper.Saved
        (EcosystemMapper.taxonomy_name (u "agentic AI")
                                       (u "20250101_120500"))
        (parse_error (PStr (u "not json at all")));
      EcosystemMapper.Saved
        (EcosystemMapper.latest_name (u "agentic AI"))
        (parse_error (PStr (u "not json at all")))],
     Ret [(u "error", PStr (u "Failed to parse taxonomy"));
          (u "raw_response", PStr (u "not json at all"))]).
Proof.
  apply (map_ecosystem_saves_error_results
           Sample.ascii_upper Sample.opaque_repr Json.loads Json.text_of
           (Sample.answering (PStr (u "not json at all")))
           RunSample.client RunSample.github RunSample.clock
           GitHubCollector.is_rate_limited EcosystemMapper.writable
           (u "20250101_120000") (u "20250101_120500")
           (u "agentic AI") 50 3 true false
           (github_data := RunSample.github_data)
           (web_data := RunSample.web_data));
    vm_compute; reflexivity.
Defined.

Lemma map_ecosystem_summary_failure_witness :
  RunSample.run RunSample.null_client
                (PStr (Json.text_of (PDict Sample.taxonomy))) true true
  = ([EcosystemMapper.Saved
        (EcosystemMapper.raw_data_name (u "agentic AI")
                                       (u "20250101_120000"))
        (EcosystemMapper.raw_data (u "agentic AI") (u "20250101_120000")
                                  RunSample.github_data
                                  RunSample.null_web_data)],
     Raise (not_subscriptable PNone)).
Proof.
  apply (map_ecosystem_summary_failure_after_raw_data
           Sample.ascii_upper Sample.opaque_repr Json.loads Json.text_of
           (Sample.answering (PStr (Json.text_of (PDict Sample.taxonomy))))
           RunSample.null_client RunSample.github RunSample.clock
           GitHubCollector.is_rate_limited EcosystemMapper.writable
           (u "20250101_120000") (u "20250101_120500")
           (u "agentic AI") 50 3 true true
           (github_data := RunSample.github_data)
           (web_data := RunSample.null_web_data));
    vm_compute; reflexivity.
Defined.

Lemma map_ecosystem_raises_witness :
  exists e,
    RunSample.run RunSample.client
                  (PStr (Json.text_of (PDict RunSample.loose_taxonomy)))
                  false false
    = ([EcosystemMapper.Saved
          (EcosystemMapper.taxonomy_name (u "agentic AI")
                                         (u "20250101_120500"))
          (PDict RunSample.loose_taxonomy);
        EcosystemMapper.Saved
          (EcosystemMapper.latest_name (u "agentic AI"))
          (PDict RunSample.loose_taxonomy)],
       Raise e)
    /\ is_lookup_error e = true.
Proof.
  apply (map_ecosystem_raises_after_saving
           Sample.ascii_upper Sample.opaque_repr Json.loads Json.text_of
           (Sample.answering
              (PStr (Json.text_of (PDict RunSample.loose_taxonomy))))
           RunSample.client RunSample.github RunSample.clock
           GitHubCollector.is_rate_limited EcosystemMapper.writable
           (u "20250101_120000") (u "20250101_120500")
           (u "agentic AI") 50 3 false false
           (github_data := RunSample.github_data)
           (web_data := RunSample.web_data)
           (taxonomy := RunSample.loose_taxonomy)
           (categories := [PStr (u "Frameworks")])
           (category := PStr (u "Frameworks")));
    try (vm_compute; reflexivity).
  - left. reflexivity.
  - left. reflexivity.
Defined.

(** ** The table of topics *)

Abbreviation bump := GitHubCollector.bump.
Abbreviation counts_get := GitHubCollector.counts_get.
Abbreviation sorted_by_count := GitHubCollector.sorted_by_count.
Abbreviation insert_by_count := GitHubCollector.insert_by_count.

(** Tables whose keys are texts and whose counts are positive. *)
Abbreviation text_keys :=
  (Forall (fun kn : pyval * Z => exists t, fst kn = PStr t)).
Abbreviation positive_counts :=
  (Forall (fun kn : pyval * Z => (0 < snd kn)%Z)).

Lemma counts_get_bump (c : list (pyval * Z)) t t' :
  text_keys c ->
  counts_get (bump c (PStr t)) (PStr t') 0
  = (counts_get c (PStr t') 0 + if pystr_eqb t t' then 1 else 0)%Z.
Proof.
  induction 1 as [|[k n] c (t0 & Hk) _ IH];
    cbn [GitHubCollector.bump GitHubCollector.counts_get
         GitHubCollector.key_eqb].
  - destruct (pystr_eqb t t'); reflexivity.
  - cbn [fst] in Hk. subst k. cbn [GitHubCollector.key_eqb].
    destruct (pystr_eqb t0 t) eqn:E0;
      cbn [GitHubCollector.counts_get GitHubCollector.key_eqb].
    + apply pystr_eqb_eq in E0. subst t0.
      destruct (pystr_eqb t t'); lia.
    + destruct (pystr_eqb t0 t') eqn:E1; [|exact IH].
      apply pystr_eqb_eq in E1. subst t0.
      destruct (pystr_eqb t t') eqn:E2; [|lia].
      apply pystr_eqb_eq in E2. subst t'.
      rewrite pystr_eqb_refl in E0. discriminate.
Qed.

Lemma bump_text_keys (c : list (pyval * Z)) t :
  text_keys c -> text_keys (bump c (PStr t)).
Proof.
  induction 1 as [|[k n] c Hk Hc IH]; cbn [GitHubCollector.bump].
  - constructor; [exists t; reflexivity | constructor].
  - destruct (GitHubCollector.key_eqb k (PStr t));
      constructor; assumption.
Qed.

Lemma bump_positive (c : list (pyval * Z)) k :
  positive_counts c -> positive_counts (bump c k).
Proof.
  induction 1 as [|[k0 n] c Hn Hc IH]; cbn [GitHubCollector.bump].
  - constructor; [simpl; lia | constructor].
  - cbn [snd] in Hn.
    destruct (GitHubCollector.key_eqb k0 k); constructor;
      try assumption; simpl; lia.
Qed.

Lemma bump_keys_in (c : list (pyval * Z)) k x :
  In x (List.map fst (bump c k)) -> x = k \/ In x (List.map fst c).
Proof.
  induction c as [|[k0 n] c IH]; cbn [GitHubCollector.bump List.map fst].
  - intros [H | []]. left. symmetry. exact H.
  - destruct (GitHubCollector.key_eqb k0 k); cbn [List.map fst].
    + intros H. right. exact H.
    + intros [H | H]; [right; left; exact H|].
      destruct (IH H) as [H' | H']; [left; exact H' | right; right; exact H'].
Qed.

Lemma bump_NoDup (c : list (pyval * Z)) t :
  text_keys c -> NoDup (List.map fst c) ->
  NoDup (List.map fst (bump c (PStr t))).
Proof.
  induction 1 as [|[k n] c (t0 & Hk) _ IH];
    cbn [GitHubCollector.bump List.map fst]; intros Hnd.
  - constructor; [intros [] | constructor].
  - cbn [fst] in Hk. subst k. cbn [GitHubCollector.key_eqb].
    destruct (pystr_eqb t0 t) eqn:E0; cbn [List.map fst]; [exact Hnd|].
    inversion Hnd as [|? ? Hnotin Hnd']; subst.
    constructor; [|exact (IH Hnd')].
    intros Hin. apply bump_keys_in in Hin.
    destruct Hin as [Hin | Hin]; [|exact (Hnotin Hin)].
    injection Hin as ->. rewrite pystr_eqb_refl in E0. discriminate.
Qed.

Lemma fold_bump_invariants ts :
  forall c,
    text_keys c -> positive_counts c -> NoDup (List.map fst c) ->
    let c' := fold_left bump (List.map PStr ts) c in
    text_keys c' /\ positive_counts c' /\ NoDup (List.map fst c')
    /\ forall t,
         counts_get c' (PStr t) 0
         = (counts_get c (PStr t) 0
            + Z.of_nat (count_occ (list_eq_dec N.eq_dec) ts t))%Z.
Proof.
  induction ts as [|t0 ts IH]; intros c Hk Hp Hnd; cbn [List.map fold_left].
  - repeat split; try assumption. intros t. simpl. lia.
  - destruct (IH (bump c (PStr t0)) (bump_text_keys t0 Hk)
                 (bump_positive (PStr t0) Hp) (bump_NoDup t0 Hk Hnd))
      as (Hk' & Hp' & Hnd' & Hget).
    repeat split; try assumption.
    intros t. rewrite Hget, (counts_get_bump t0 t Hk).
    cbn [count_occ].
    destruct (list_eq_dec N.eq_dec t0 t) as [-> | Hne].
    + rewrite pystr_eqb_refl. lia.
    + rewrite (pystr_eqb_neq Hne). lia.
Qed.

Lemma count_each_texts ts c :
  GitHubCollector.count_each (List.map PStr ts) c
  = Ret (fold_left bump (List.map PStr ts) c).
Proof.
  revert c. induction ts as [|t ts IH]; intros c;
    cbn [List.map GitHubCollector.count_each fold_left
         GitHubCollector.hashable bind]; [reflexivity | apply IH].
Qed.

Lemma count_topics_records visited c :
  GitHubCollector.count_topics (records_of visited) c
  = Ret (fold_left bump
                   (List.map PStr (concat (List.map snd visited))) c).
Proof.
  revert c. induction visited as [|[repo topics] visited IH]; intros c;
    [reflexivity|].
  unfold records_of. cbn [List.map GitHubCollector.count_topics fst snd].
  change (dict_get (GitHubCollector.repo_data repo topics) (u "topics"))
    with (Some (PList (List.map PStr topics))).
  cbn [py_iter bind]. rewrite count_each_texts. cbn [bind concat].
  rewrite map_app, fold_left_app. apply IH.
Qed.

Lemma insert_by_count_perm x l : Permutation (insert_by_count x l) (x :: l).
Proof.
  induction l as [|y l IH]; cbn [GitHubCollector.insert_by_count];
    [reflexivity|].
  destruct (snd x <? snd y)%Z; [|reflexivity].
  rewrite IH. apply perm_swap.
Qed.

Lemma sorted_by_count_perm l : Permutation (sorted_by_count l) l.
Proof.
  induction l as [|x l IH]; [reflexivity|].
  unfold GitHubCollector.sorted_by_count in *. cbn [fold_right].
  rewrite insert_by_count_perm. constructor. exact IH.
Qed.

Lemma insert_by_count_sorted x l :
  StronglySorted (fun a b : pyval * Z => (snd b <= snd a)%Z) l ->
  StronglySorted (fun a b : pyval * Z => (snd b <= snd a)%Z)
                 (insert_by_count x l).
Proof.
  induction 1 as [|y l Hl IH Hy]; cbn [GitHubCollector.insert_by_count].
  - constructor; constructor.
  - destruct (snd x <? snd y)%Z eqn:E.
    + apply Z.ltb_lt in E. constructor; [exact IH|].
      apply Forall_forall. intros z Hz.
      apply (Permutation_in _ (insert_by_count_perm x l)) in Hz.
      destruct Hz as [<- | Hz]; [lia|].
      rewrite Forall_forall in Hy. exact (Hy z Hz).
    + apply Z.ltb_ge in E. constructor; [constructor; assumption|].
      constructor; [exact E|].
      eapply Forall_impl; [|exact Hy]. cbn. intros z Hz. lia.
Qed.

Lemma sorted_by_count_sorted l :
  StronglySorted (fun a b : pyval * Z => (snd b <= snd a)%Z)
                 (sorted_by_count l).
Proof.
  induction l as [|x l IH]; [constructor|].
  unfold GitHubCollector.sorted_by_count in *. cbn [fold_right].
  apply insert_by_count_sorted. exact IH.
Qed.

Lemma counts_get_perm (c c' : list (pyval * Z)) t :
  Permutation c c' ->
  text_keys c -> NoDup (List.map fst c) ->
  counts_get c' (PStr t) 0 = counts_get c (PStr t) 0.
Proof.
  induction 1 as [|[k n] c c' Hperm IH|[k1 n1] [k2 n2] c|c c' c'' H1 IH1 H2 IH2];
    intros Hk Hnd.
  - reflexivity.
  - cbn [GitHubCollector.counts_get].
    destruct (GitHubCollector.key_eqb k (PStr t)); [reflexivity|].
    apply IH; [inversion Hk; assumption | inversion Hnd; assumption].
  - inversion Hk as [|? ? (t2 & Hk2) Hk']; subst.
    inversion Hk' as [|? ? (t1 & Hk1) _]; subst.
    cbn [fst] in Hk1, Hk2. subst k1 k2.
    cbn [GitHubCollector.counts_get GitHubCollector.key_eqb].
    destruct (pystr_eqb t1 t) eqn:E1, (pystr_eqb t2 t) eqn:E2;
      try reflexivity.
    apply pystr_eqb_eq in E1. apply pystr_eqb_eq in E2. subst t1 t2.
    cbn [List.map fst] in Hnd. inversion Hnd as [|? ? Hnotin _]; subst.
    exfalso. apply Hnotin. left. reflexivity.
  - rewrite IH2, IH1; try assumption; [reflexivity| |].
    + eapply Permutation_Forall; eassumption.
    + eapply Permutation_NoDup; [|exact Hnd].
      apply Permutation_map. exact H1.
Qed.

Section TopicFacts.

Variable github_search :
  pystr -> pystr -> pystr
  -> result (list (result GitHubCollector.repository)).
Variable start_date : Z -> result pystr.
Variable is_GithubException : exn -> bool.


End TopicFacts.


(** ** The constructors *)

Lemma is_set_some getenv name :
  is_set getenv name = true -> exists c value, getenv name = Some (c :: value).
Proof.
  unfold is_set. destruct (getenv name) as [[|c value]|]; try discriminate.
  intros _. exists c, value. reflexivity.
Qed.



(** ** A run that succeeds *)

Lemma is_taxonomy_set_insights (taxonomy : pydict) insights :
  is_taxonomy (dict_set taxonomy (u "insights") insights)
  = is_taxonomy taxonomy.
Proof.
  unfold is_taxonomy, str_field, str_list_field.
  rewrite !dict_get_set_other
    by (intros H;
        apply (f_equal (fun k => pystr_eqb k (u "insights"))) in H;
        vm_compute in H; discriminate).
  reflexivity.
Qed.

Section EnrichedRun.

Variable str_upper : pystr -> pystr.
Variable repr_other : pyval -> pystr.
Variable json_loads : pystr -> result pyval.
Variable json_dumps : pyval -> pystr.
Variable chat_content : pystr -> pystr -> Z -> result pyval.
Variable client_search :
  pystr -> Z -> pystr -> list pystr -> list pystr -> result pyval.
Variable github_search :
  pystr -> pystr -> pystr
  -> result (list (result GitHubCollector.repository)).
Variable start_date : Z -> result pystr.
Variable is_GithubException : exn -> bool.
Variable write_file : pystr -> result unit.
Variable raw_timestamp : pystr.
Variable taxonomy_timestamp : pystr.

(** X28. The run that goes well: when both collectors return, the
    parser returns a taxonomy of the shape asked for, the backend answers
    the enrichment with insights the summary can read and the files can
    be written, [map_ecosystem] with [enrich] set returns the taxonomy
    with the insights under [insights], and has written the raw data
    file, if asked to, then the dated and the latest file, both holding
    what it returns. *)
Theorem map_ecosystem_enriched_run :
  forall keyword max_github_repos months_back (save_raw : bool)
         github_data web_data (taxonomy : pydict) content insights,
    GitHubCollector.search_repositories
      github_search start_date is_GithubException
      keyword months_back max_github_repos 0 = Ret github_data ->
    TavilySearcher.combine_searches client_search keyword = Ret web_data ->
    create_taxonomy str_upper repr_other json_loads chat_content
                    keyword github_data web_data = Ret (PDict taxonomy) ->
    is_taxonomy taxonomy = true ->
    dict_mem taxonomy (u "error") = false ->
    chat_content enrich_system
                 (enrich_prompt (json_dumps (PDict taxonomy))) 2000
    = Ret content ->
    loads_content json_loads content = Ret insights ->
    insights_readable (dict_set taxonomy (u "insights") insights) = true ->
    (forall name, write_file name = Ret tt) ->
    EcosystemMapper.map_ecosystem
      str_upper repr_other json_loads json_dumps chat_content client_search
      github_search start_date is_GithubException write_file raw_timestamp
      taxonomy_timestamp keyword max_github_repos months_back true save_raw
    = ((if save_raw
        then [EcosystemMapper.Saved
                (EcosystemMapper.raw_data_name keyword raw_timestamp)
                (EcosystemMapper.raw_data keyword raw_timestamp
                                          github_data web_data)]
        else [])
       ++ [EcosystemMapper.Saved
             (EcosystemMapper.taxonomy_name keyword taxonomy_timestamp)
             (PDict (dict_set taxonomy (u "insights") insights));
           EcosystemMapper.Saved
             (EcosystemMapper.latest_name keyword)
             (PDict (dict_set taxonomy (u "insights") insights))],
       Ret (dict_set taxonomy (u "insights") insights)).
Proof.
  intros keyword max_github_repos months_back save_raw github_data web_data
         taxonomy content insights Hg Hw Hc Ht Herr Hcall Hl Hi Hwrite.
  rewrite (run_after_collection
             str_upper repr_other json_loads json_dumps chat_content
             client_search github_search start_date is_GithubException
             write_file raw_timestamp taxonomy_timestamp
             _ _ _ _ _ Hg Hw).
  assert (Hraw : (if save_raw
                  then EcosystemMapper._save_raw_data
                         write_file raw_timestamp keyword github_data web_data
                  else EcosystemMapper.done tt)
                 = ((if save_raw
                     then [EcosystemMapper.Saved
                             (EcosystemMapper.raw_data_name keyword
                                                            raw_timestamp)
                             (EcosystemMapper.raw_data keyword raw_timestamp
                                                       github_data web_data)]
                     else []),
                    Ret tt)).
  { destruct save_raw; [|reflexivity].
    unfold EcosystemMapper._save_raw_data. apply save_writable. apply Hwrite. }
  rewrite Hraw. apply and_then_ret_eq.
  rewrite (and_then_lift_ret _ Hc).
  cbv zeta. cbn [EcosystemMapper.the_dict]. rewrite Herr.
  cbn [negb andb].
  assert (He : enrich_taxonomy json_loads json_dumps chat_content taxonomy
               = Ret (dict_set taxonomy (u "insights") insights)).
  { unfold enrich_taxonomy, enrich_body. rewrite Herr, Hcall. cbn [bind].
    rewrite Hl. reflexivity. }
  rewrite (and_then_lift_ret _ He).
  rewrite (@save_taxonomy_writable write_file taxonomy_timestamp _ _ Hwrite).
  apply and_then_ret_nil.
  assert (Hp : snd (EcosystemMapper._print_summary
                      repr_other
                      (dict_set taxonomy (u "insights") insights))
               = Ret tt).
  { apply print_summary_returns; [|exact Hi].
    rewrite is_taxonomy_set_insights. exact Ht. }
  rewrite (and_then_lift_ret _ Hp). reflexivity.
Qed.

End EnrichedRun.

Lemma map_ecosystem_enriched_witness :
  RunSample.run RunSample.client
                (PStr (Json.text_of (PDict Sample.taxonomy))) true false
  = ([EcosystemMapper.Saved
        (EcosystemMapper.taxonomy_name (u "agentic AI")
                                       (u "20250101_120500"))
        (PDict (dict_set Sample.taxonomy (u "insights")
                         (PDict Sample.taxonomy)));
      EcosystemMapper.Saved
        (EcosystemMapper.latest_name (u "agentic AI"))
        (PDict (dict_set Sample.taxonomy (u "insights")
                         (PDict Sample.taxonomy)))],
     Ret (dict_set Sample.taxonomy (u "insights") (PDict Sample.taxonomy))).
Proof.
  apply (map_ecosystem_enriched_run
           Sample.ascii_upper Sample.opaque_repr Json.loads Json.text_of
           (Sample.answering (PStr (Json.text_of (PDict Sample.taxonomy))))
           RunSample.client RunSample.github RunSample.clock
           GitHubCollector.is_rate_limited EcosystemMapper.writable
           (u "20250101_120000") (u "20250101_120500")
           (u "agentic AI") 50 3 false
           (github_data := RunSample.github_data)
           (web_data := RunSample.web_data)
           (content := PStr (Json.text_of (PDict Sample.taxonomy))));
    vm_compute; reflexivity.
Defined.
